(** * OpenWork front-end: a shallow embedding of the application helpers

    The application is TypeScript running in a web view.  This development
    embeds the functions of the application layer that carry logic of their
    own (name validation, path resolution, local-storage persistence, the
    reset and update flows, prompt sending, template loading, plugin
    management) and proves what they do.

    Conventions:
    - a JavaScript string is the list of its UTF-16 code units;
    - [window.localStorage] is a finite map from strings to strings;
    - a function that throws returns in a sum type, the error on the left;
    - an [async] function is a resumption: at every [await] it exposes the
      state it leaves behind and continues from whatever state the
      application is in when the awaited call settles. *)

From Stdlib Require Import String Ascii ZArith Lia Permutation Sorted.
From Stdlib Require DecimalString.
From stdpp Require Import base option list gmap.

Set Warnings "-register-all".

Open Scope Z_scope.

(** ** JavaScript strings *)

Module JS.

(** A string value: its UTF-16 code units. *)
Abbreviation jsstring := (list N).

(** The code units of an ASCII literal of the source. *)
Definition lit (s : String.string) : jsstring :=
  List.map N_of_ascii (list_ascii_of_string s).

(** [WhiteSpace] and [LineTerminator] code points of ECMAScript, the
    characters [String.prototype.trim] removes. *)
Definition isWhiteSpace (c : N) : bool :=
  match c with
  | 9 | 10 | 11 | 12 | 13 | 32 | 160 | 5760
  | 8192 | 8193 | 8194 | 8195 | 8196 | 8197 | 8198 | 8199 | 8200 | 8201 | 8202
  | 8232 | 8233 | 8239 | 8287 | 12288 | 65279 => true
  | _ => false
  end%N.

Fixpoint dropWhile {A} (p : A -> bool) (l : list A) : list A :=
  match l with
  | [] => []
  | x :: l' => if p x then dropWhile p l' else l
  end.

(** [s.replace(/^[..]+/, "")] for a character class [p]. *)
Definition stripLeading (p : N -> bool) (s : jsstring) : jsstring :=
  dropWhile p s.

(** [s.replace(/[..]+$/, "")] for a character class [p]. *)
Definition stripTrailing (p : N -> bool) (s : jsstring) : jsstring :=
  rev (dropWhile p (rev s)).

(** [s.trim()] *)
Definition trim (s : jsstring) : jsstring :=
  stripTrailing isWhiteSpace (stripLeading isWhiteSpace s).

Definition eqb (s t : jsstring) : bool := bool_decide (s = t).

(** [s.startsWith(p)] *)
Fixpoint startsWith (p s : jsstring) : bool :=
  match p, s with
  | [], _ => true
  | _ :: _, [] => false
  | a :: p', b :: s' => (a =? b)%N && startsWith p' s'
  end.

(** [s.endsWith(p)] *)
Definition endsWith (p s : jsstring) : bool :=
  startsWith (rev p) (rev s).

(** [s.includes(c)] for a one-character [c]. *)
Definition includesChar (c : N) (s : jsstring) : bool :=
  existsb (N.eqb c) s.

(** Truthiness of a string: [!s] is [true] on the empty string only. *)
Definition truthy (s : jsstring) : bool :=
  match s with [] => false | _ => true end.

Definition isUpper (c : N) : bool := ((65 <=? c) && (c <=? 90))%N.
Definition isLower (c : N) : bool := ((97 <=? c) && (c <=? 122))%N.
Definition isDigit (c : N) : bool := ((48 <=? c) && (c <=? 57))%N.
Definition isAsciiLetter (c : N) : bool := isUpper c || isLower c.

End JS.

Import JS.

(** ** MCP server names (app/mcp.ts) *)

Module Mcp.

(** The class [[A-Za-z0-9_-]]. *)
Definition isNameChar (c : N) : bool :=
  isAsciiLetter c || isDigit c || (c =? 95)%N || (c =? 45)%N.

(** [/^[A-Za-z0-9_-]+$/.test(s)]: without the [m] flag [$] is the end of
    the input, so the whole string is one or more class characters. *)
Definition nameRegexTest (s : jsstring) : bool :=
  truthy s && forallb isNameChar s.

Definition validateMcpServerName (name : jsstring) : jsstring + jsstring :=
  let trimmed := trim name in
  if negb (truthy trimmed) then
    inl (lit "server_name is required")
  else if startsWith (lit "-") trimmed then
    inl (lit "server_name must not start with '-'")
  else if negb (nameRegexTest trimmed) then
    inl (lit "server_name must be alphanumeric with '-' or '_'")
  else inr trimmed.

(** The condition of the specification, in its words. *)
Definition wellFormedName (t : jsstring) : Prop :=
  t <> [] /\
  (forall rest, t <> 45%N :: rest) /\
  Forall (fun c => isAsciiLetter c = true \/ isDigit c = true
                   \/ c = 45%N \/ c = 95%N) t.

End Mcp.

(** ** JSON values, thrown values and the built-ins taken as given *)

Module Json.

(** A value produced by [JSON.parse] or delivered by a plugin callback.
    The numbers that occur in this application are byte counts and
    millisecond timestamps, hence integers.  An object lists its own
    properties; its keys are pairwise distinct. *)
Inductive json : Type :=
| JNull
| JBool (b : bool)
| JNum (n : Z)
| JStr (s : jsstring)
| JArr (items : list json)
| JObj (fields : list (jsstring * json)).

Fixpoint assoc (key : jsstring) (fields : list (jsstring * json)) : option json :=
  match fields with
  | [] => None
  | (k, v) :: rest => if eqb k key then Some v else assoc key rest
  end.

(** [v.key] for a key that no primitive and no array carries; reading
    a property of a primitive or of an array gives [undefined]. *)
Definition get (key : String.string) (v : json) : option json :=
  match v with
  | JObj fields => assoc (lit key) fields
  | _ => None
  end.

(** [!!v] *)
Definition truthyValue (v : json) : bool :=
  match v with
  | JNull => false
  | JBool b => b
  | JNum n => negb (n =? 0)
  | JStr s => JS.truthy s
  | JArr _ | JObj _ => true
  end.

(** [typeof v === "object"], which holds of [null] too. *)
Definition typeofObject (v : json) : bool :=
  match v with
  | JNull | JArr _ | JObj _ => true
  | _ => false
  end.

(** [typeof o.key === "string" ? o.key : dflt] *)
Definition stringField (key : String.string) (dflt : jsstring) (v : json) : jsstring :=
  match get key v with
  | Some (JStr s) => s
  | _ => dflt
  end.

(** [typeof o.key === "number" ? o.key : dflt] *)
Definition numberField {A} (key : String.string) (some : Z -> A) (dflt : A) (v : json) : A :=
  match get key v with
  | Some (JNum n) => some n
  | _ => dflt
  end.

End Json.

Import Json.

(** ** Shared types and constants (app/types.ts, app/constants.ts) *)

Record ModelRef := { providerID : jsstring; modelID : jsstring }.

(** A connected engine client. *)
Record Client := { client_baseUrl : jsstring; client_directory : jsstring }.

Definition MODEL_PREF_KEY : jsstring := lit "openwork.defaultModel".
Definition THINKING_PREF_KEY : jsstring := lit "openwork.showThinking".
Definition VARIANT_PREF_KEY : jsstring := lit "openwork.modelVariant".

Definition DEFAULT_MODEL : ModelRef :=
  {| providerID := lit "opencode"; modelID := lit "gpt-5-nano" |}.

(** What a [catch (e)] clause receives. *)
Inductive thrown : Type :=
| ThrownError (message : jsstring)       (* [e instanceof Error] *)
| ThrownOther (value : json).

(** Case mapping of the JavaScript engine (the Unicode tables). *)
Class Unicode := {
  toUpperCase : jsstring -> jsstring;
  toLowerCase : jsstring -> jsstring
}.

(** [JSON.stringify(v, null, 2)] of the JavaScript engine. *)
Class JsonPrinter := {
  stringifyIndent2 : json -> jsstring
}.

(** The properties every plain object inherits: [inheritsTruthy key] tells
    whether [Object.prototype] has a property named [key] whose value is
    truthy, as it has for ["constructor"], ["toString"] and the like. *)
Class ObjectPrototype := {
  inheritsTruthy : jsstring -> bool
}.

(** [JSON.stringify(v)] of the JavaScript engine. *)
Class JsonText := {
  stringify : json -> jsstring
}.

(** Helpers of [app/utils.ts], whose source is not part of this
    development. *)
Class Utils := {
  safeStringify : thrown -> jsstring;
  safeParseJson : jsstring -> option json;       (* [null] is [None] *)
  parseModelRef : option jsstring -> option ModelRef;
  formatModelRef : ModelRef -> jsstring
}.

(** [String(n)] and [Number(s)] of the JavaScript engine, on the integers;
    [stringToNumber] is [None] when [Number(s)] is not finite. *)
Class NumberFormat := {
  numberToString : Z -> jsstring;
  stringToNumber : jsstring -> option Z
}.

(** Helpers of [app/plugins.ts], whose source is not part of this
    development. *)
Class Plugins := {
  stripPluginVersion : jsstring -> jsstring;
  parsePluginListFromContent : jsstring -> thrown + list jsstring
}.

(** A text edit of the jsonc-parser package. *)
Record Edit := { edit_offset : nat; edit_length : nat; edit_content : jsstring }.

Record FormattingOptions := { insertSpaces : bool; tabSize : nat }.

(** [modify] and [applyEdits] of the jsonc-parser package; the value set
    by [modify] is an array of strings here. *)
Class Jsonc := {
  modify : jsstring -> list jsstring -> list jsstring -> FormattingOptions
           -> thrown + list Edit;
  applyEdits : jsstring -> list Edit -> thrown + jsstring
}.

(** [e instanceof Error ? e.message : safeStringify(e)] *)
Definition errorMessage `{Utils} (e : thrown) : jsstring :=
  match e with
  | ThrownError m => m
  | ThrownOther _ => safeStringify e
  end.

(** [e instanceof Error ? e.message : fallback] *)
Definition errorMessageOr (fallback : jsstring) (e : thrown) : jsstring :=
  match e with
  | ThrownError m => m
  | ThrownOther _ => fallback
  end.

(** ** Asynchronous functions as resumptions *)

Module Async.

Section Resumption.
Context {St : Type} {Call : Type} {Resp : Call -> Type}.

(** An [async] function body, unfolded: either it has returned, leaving
    state [s]; or it is suspended at an [await] of call [c], having left
    state [s], and resumes with the state the application is in when the
    call settles and with the call's result or thrown value. *)
Inductive proc : Type :=
| Done (s : St)
| Await (s : St) (c : Call) (k : St -> thrown + Resp c -> proc).

(** The world answers a call: the state at resumption (other handlers may
    have run meanwhile) and how the call settled. *)
Definition world := forall c : Call, St -> St * (thrown + Resp c).

(** Run to completion. *)
Fixpoint run (w : world) (p : proc) : St :=
  match p with
  | Done s => s
  | Await s c k => let '(s', r) := w c s in run w (k s' r)
  end.

(** The calls issued, in order. *)
Fixpoint trace (w : world) (p : proc) : list Call :=
  match p with
  | Done _ => []
  | Await s c k => let '(s', r) := w c s in c :: trace w (k s' r)
  end.

(** The states left behind at the suspension points, in order. *)
Fixpoint suspended (w : world) (p : proc) : list St :=
  match p with
  | Done _ => []
  | Await s c k => let '(s', r) := w c s in s :: suspended w (k s' r)
  end.
End Resumption.

Arguments proc : clear implicits.
Arguments world : clear implicits.

End Async.

Import Async.

(** ** Artifact paths (views/SessionView.tsx) *)

Module SessionView.

(** The fields of [ArtifactItem] and [WorkspaceDisplay] that
    [resolveArtifactPath] reads; both paths are optional. *)
Record ArtifactItem := { artifact_path : option jsstring }.
Record WorkspaceDisplay := { workspace_path : option jsstring }.

(** The class [[\\/]]. *)
Definition isSeparator (c : N) : bool := ((c =? 92) || (c =? 47))%N.

(** The three alternatives of [/^(?:[a-zA-Z]:[\\/]|~[\\/]|\/)/]. *)
Definition startsWithDrive (s : jsstring) : bool :=
  match s with
  | d :: colon :: c :: _ => isAsciiLetter d && (colon =? 58)%N && isSeparator c
  | _ => false
  end.

Definition startsWithHome (s : jsstring) : bool :=
  match s with
  | t :: c :: _ => (t =? 126)%N && isSeparator c
  | _ => false
  end.

Definition startsWithSlash (s : jsstring) : bool :=
  match s with
  | c :: _ => (c =? 47)%N
  | _ => false
  end.

Definition absoluteRegexTest (s : jsstring) : bool :=
  startsWithDrive s || startsWithHome s || startsWithSlash s.

(** [null] is [None]. *)
Definition resolveArtifactPath (workspace : WorkspaceDisplay)
    (artifact : ArtifactItem) : option jsstring :=
  match trim <$> artifact_path artifact with
  | None => None
  | Some rawPath =>
      if negb (truthy rawPath) then None
      else if absoluteRegexTest rawPath then Some rawPath
      else
        match trim <$> workspace_path workspace with
        | None => Some rawPath
        | Some root =>
            if negb (truthy root) then Some rawPath
            else
              let separator := if includesChar 92 root then lit "\" else lit "/" in
              let trimmedRoot := stripTrailing isSeparator root in
              let trimmedPath := stripLeading isSeparator rawPath in
              Some (trimmedRoot ++ separator ++ trimmedPath)
        end
  end.

(** The notions of the specification. *)

(** The artifact's trimmed path and the trimmed workspace root; a missing
    path counts as the empty one. *)
Definition trimmedPathOf (artifact : ArtifactItem) : jsstring :=
  default [] (trim <$> artifact_path artifact).

Definition trimmedRootOf (workspace : WorkspaceDisplay) : jsstring :=
  default [] (trim <$> workspace_path workspace).

Definition slashOrBackslash (c : N) : Prop := c = 47%N \/ c = 92%N.

(** An absolute path: a drive (a letter and a colon) followed by a slash
    or a backslash, or ["~"] followed by a slash or a backslash, or a
    leading ["/"]. *)
Definition isAbsolute (p : jsstring) : Prop :=
  (exists d c rest, p = d :: 58%N :: c :: rest
                    /\ isAsciiLetter d = true /\ slashOrBackslash c)
  \/ (exists c rest, p = 126%N :: c :: rest /\ slashOrBackslash c)
  \/ (exists rest, p = 47%N :: rest).

(** [body] is [s] without its trailing separators. *)
Definition withoutTrailingSeparators (s body : jsstring) : Prop :=
  exists seps, s = body ++ seps /\ Forall slashOrBackslash seps
               /\ forall front c, body = front ++ [c] -> ~ slashOrBackslash c.

(** [body] is [s] without its leading separators. *)
Definition withoutLeadingSeparators (s body : jsstring) : Prop :=
  exists seps, s = seps ++ body /\ Forall slashOrBackslash seps
               /\ forall c rest, body = c :: rest -> ~ slashOrBackslash c.

End SessionView.

(** ** [window.localStorage] *)

Module Storage.

Abbreviation storage := (gmap (list N) (list N)).

Definition getItem (key : jsstring) (st : storage) : option jsstring := st !! key.
Definition setItem (key value : jsstring) (st : storage) : storage := <[key := value]> st.
Definition removeItem (key : jsstring) (st : storage) : storage := delete key st.

(** [Object.keys(window.localStorage)] *)
Definition keys (st : storage) : list jsstring := (map_to_list st).*1.

(** App.tsx, [clearOpenworkLocalStorage], in a window whose storage is
    accessible.  (Without a window the function returns at once, and an
    exception of the storage is swallowed.) *)
Definition clearOpenworkLocalStorage (st : storage) : storage :=
  let swept :=
    foldl (fun acc key =>
             if startsWith (lit "openwork.") key then removeItem key acc else acc)
          st (keys st) in
  (* Legacy compatibility key *)
  removeItem (lit "openwork_mode_pref") swept.

End Storage.

Import Storage.

(** ** Resetting the application (App.tsx, [confirmReset]) *)

Module Reset.

Inductive ResetOpenworkMode := ResetOnboarding | ResetAll.

Record Session := { session_id : jsstring }.

(** The signals [confirmReset] reads or writes, and the local storage. *)
Record State := {
  resetModalBusy : bool;
  resetModalText : jsstring;
  resetModalMode : ResetOpenworkMode;
  error : option jsstring;
  sessions : list Session;
  sessionStatusById : gmap (list N) (list N);
  localStorage : storage
}.

Definition setResetModalBusy (b : bool) (s : State) : State :=
  {| resetModalBusy := b; resetModalText := resetModalText s;
     resetModalMode := resetModalMode s; error := error s;
     sessions := sessions s; sessionStatusById := sessionStatusById s;
     localStorage := localStorage s |}.

Definition setError (e : option jsstring) (s : State) : State :=
  {| resetModalBusy := resetModalBusy s; resetModalText := resetModalText s;
     resetModalMode := resetModalMode s; error := e;
     sessions := sessions s; sessionStatusById := sessionStatusById s;
     localStorage := localStorage s |}.

Definition setLocalStorage (st : storage) (s : State) : State :=
  {| resetModalBusy := resetModalBusy s; resetModalText := resetModalText s;
     resetModalMode := resetModalMode s; error := error s;
     sessions := sessions s; sessionStatusById := sessionStatusById s;
     localStorage := st |}.

(** The calls [confirmReset] awaits or ends on. *)
Inductive Call :=
| ResetOpenworkState (mode : ResetOpenworkMode)   (* native reset *)
| Relaunch                                        (* process plugin *)
| Reload.                                         (* window.location.reload() *)

Definition Resp (c : Call) : Type := unit.

Definition anyActiveRuns (s : State) : bool :=
  existsb (fun x =>
             match sessionStatusById s !! session_id x with
             | Some status => eqb status (lit "running") || eqb status (lit "retry")
             | None => false
             end)
          (sessions s).

Section WithBuiltins.
Context `{Unicode} `{Utils}.

Definition confirmationGiven (s : State) : bool :=
  eqb (toUpperCase (trim (resetModalText s))) (lit "RESET").

(** [catch (e)] of [confirmReset] *)
Definition resetFailed (s : State) (e : thrown) : proc State Call Resp :=
  Done (setResetModalBusy false (setError (Some (errorMessage e)) s)).

(** From [clearOpenworkLocalStorage()] on. *)
Definition clearAndRestart (isTauriRuntime : bool) (s : State) : proc State Call Resp :=
  let cleared := setLocalStorage (clearOpenworkLocalStorage (localStorage s)) s in
  Await cleared (if isTauriRuntime then Relaunch else Reload)
    (fun s' r => match r with
                 | inl e => resetFailed s' e
                 | inr _ => Done s'
                 end).

Definition confirmReset (isTauriRuntime : bool) (s : State) : proc State Call Resp :=
  if resetModalBusy s then Done s
  else if anyActiveRuns s then
    Done (setError (Some (lit "Stop active runs before resetting.")) s)
  else if negb (confirmationGiven s) then Done s
  else
    let started := setError None (setResetModalBusy true s) in
    if isTauriRuntime then
      Await started (ResetOpenworkState (resetModalMode started))
        (fun s' r => match r with
                     | inl e => resetFailed s' e
                     | inr _ => clearAndRestart isTauriRuntime s'
                     end)
    else clearAndRestart isTauriRuntime started.
End WithBuiltins.

End Reset.

(** ** Sending a prompt (App.tsx, [sendPrompt]) *)

Module Prompt.


(** What the memo [selectedSessionModel] can yield: a model reference, or
    the value that a plain object inherits from [Object.prototype] under the
    name [key], when the two records are read at such a name. *)
Inductive SessionModel :=
| Model (ref : ModelRef)
| Inherited (key : jsstring).

(** The signals and memo inputs [sendPrompt] reads or writes.  The two
    records are plain objects: the maps hold their own properties.
    [lastUserModel] stands for [lastUserModelFromMessages(messages())] and
    [activeWorkspaceRoot] for the signal of the workspace store. *)
Record State := {
  client : option Client;
  selectedSessionId : option jsstring;
  prompt : jsstring;
  lastPromptSent : jsstring;
  busy : bool;
  busyLabel : option jsstring;
  busyStartedAt : option Z;
  error : option jsstring;
  sessionModelById : gmap (list N) SessionModel;
  sessionModelOverrideById : gmap (list N) ModelRef;
  defaultModel : ModelRef;
  modelVariant : option jsstring;
  lastUserModel : option ModelRef;
  activeWorkspaceRoot : jsstring
}.

Definition setPrompt (v : jsstring) (s : State) : State :=
  {| client := client s; selectedSessionId := selectedSessionId s;
     prompt := v; lastPromptSent := lastPromptSent s;
     busy := busy s; busyLabel := busyLabel s; busyStartedAt := busyStartedAt s;
     error := error s; sessionModelById := sessionModelById s;
     sessionModelOverrideById := sessionModelOverrideById s;
     defaultModel := defaultModel s; modelVariant := modelVariant s;
     lastUserModel := lastUserModel s; activeWorkspaceRoot := activeWorkspaceRoot s |}.

Definition setLastPromptSent (v : jsstring) (s : State) : State :=
  {| client := client s; selectedSessionId := selectedSessionId s;
     prompt := prompt s; lastPromptSent := v;
     busy := busy s; busyLabel := busyLabel s; busyStartedAt := busyStartedAt s;
     error := error s; sessionModelById := sessionModelById s;
     sessionModelOverrideById := sessionModelOverrideById s;
     defaultModel := defaultModel s; modelVariant := modelVariant s;
     lastUserModel := lastUserModel s; activeWorkspaceRoot := activeWorkspaceRoot s |}.

Definition setBusy (v : bool) (s : State) : State :=
  {| client := client s; selectedSessionId := selectedSessionId s;
     prompt := prompt s; lastPromptSent := lastPromptSent s;
     busy := v; busyLabel := busyLabel s; busyStartedAt := busyStartedAt s;
     error := error s; sessionModelById := sessionModelById s;
     sessionModelOverrideById := sessionModelOverrideById s;
     defaultModel := defaultModel s; modelVariant := modelVariant s;
     lastUserModel := lastUserModel s; activeWorkspaceRoot := activeWorkspaceRoot s |}.

Definition setBusyLabel (v : option jsstring) (s : State) : State :=
  {| client := client s; selectedSessionId := selectedSessionId s;
     prompt := prompt s; lastPromptSent := lastPromptSent s;
     busy := busy s; busyLabel := v; busyStartedAt := busyStartedAt s;
     error := error s; sessionModelById := sessionModelById s;
     sessionModelOverrideById := sessionModelOverrideById s;
     defaultModel := defaultModel s; modelVariant := modelVariant s;
     lastUserModel := lastUserModel s; activeWorkspaceRoot := activeWorkspaceRoot s |}.

Definition setBusyStartedAt (v : option Z) (s : State) : State :=
  {| client := client s; selectedSessionId := selectedSessionId s;
     prompt := prompt s; lastPromptSent := lastPromptSent s;
     busy := busy s; busyLabel := busyLabel s; busyStartedAt := v;
     error := error s; sessionModelById := sessionModelById s;
     sessionModelOverrideById := sessionModelOverrideById s;
     defaultModel := defaultModel s; modelVariant := modelVariant s;
     lastUserModel := lastUserModel s; activeWorkspaceRoot := activeWorkspaceRoot s |}.

Definition setError (v : option jsstring) (s : State) : State :=
  {| client := client s; selectedSessionId := selectedSessionId s;
     prompt := prompt s; lastPromptSent := lastPromptSent s;
     busy := busy s; busyLabel := busyLabel s; busyStartedAt := busyStartedAt s;
     error := v; sessionModelById := sessionModelById s;
     sessionModelOverrideById := sessionModelOverrideById s;
     defaultModel := defaultModel s; modelVariant := modelVariant s;
     lastUserModel := lastUserModel s; activeWorkspaceRoot := activeWorkspaceRoot s |}.

Definition setSessionModelById
    (f : gmap (list N) SessionModel -> gmap (list N) SessionModel) (s : State) : State :=
  {| client := client s; selectedSessionId := selectedSessionId s;
     prompt := prompt s; lastPromptSent := lastPromptSent s;
     busy := busy s; busyLabel := busyLabel s; busyStartedAt := busyStartedAt s;
     error := error s; sessionModelById := f (sessionModelById s);
     sessionModelOverrideById := sessionModelOverrideById s;
     defaultModel := defaultModel s; modelVariant := modelVariant s;
     lastUserModel := lastUserModel s; activeWorkspaceRoot := activeWorkspaceRoot s |}.

Definition setSessionModelOverrideById
    (f : gmap (list N) ModelRef -> gmap (list N) ModelRef) (s : State) : State :=
  {| client := client s; selectedSessionId := selectedSessionId s;
     prompt := prompt s; lastPromptSent := lastPromptSent s;
     busy := busy s; busyLabel := busyLabel s; busyStartedAt := busyStartedAt s;
     error := error s; sessionModelById := sessionModelById s;
     sessionModelOverrideById := f (sessionModelOverrideById s);
     defaultModel := defaultModel s; modelVariant := modelVariant s;
     lastUserModel := lastUserModel s; activeWorkspaceRoot := activeWorkspaceRoot s |}.

(** [record[id]] as far as it is truthy, for a plain object whose own
    property of that name is [own]: the own property, or else the property
    inherited from [Object.prototype]. *)
Definition readProperty `{ObjectPrototype} (own : option SessionModel) (id : jsstring)
    : option SessionModel :=
  match own with
  | Some value => Some value
  | None => if inheritsTruthy id then Some (Inherited id) else None
  end.

(** The memo [selectedSessionModel]. *)
Definition selectedSessionModel `{ObjectPrototype} (s : State) : SessionModel :=
  match selectedSessionId s with
  | None => Model (defaultModel s)
  | Some id =>
      if negb (truthy id) then Model (defaultModel s)
      else
        match readProperty (Model <$> sessionModelOverrideById s !! id) id with
        | Some override => override
        | None =>
            match readProperty (sessionModelById s !! id) id with
            | Some known => known
            | None =>
                match lastUserModel s with
                | Some fromMessages => Model fromMessages
                | None => Model (defaultModel s)
                end
            end
        end
  end.

(** The argument of [c.session.promptAsync]; [parts] is the single text
    part [{ type: "text", text }]. *)
Record PromptRequest := {
  req_sessionID : jsstring;
  req_model : SessionModel;
  req_variant : option jsstring;
  req_text : jsstring
}.

Inductive Call :=
| PromptAsync (c : Client) (req : PromptRequest)
| LoadSessions (root : jsstring).

Definition Resp (c : Call) : Type := unit.

Section WithBuiltins.
Context `{Utils} `{ObjectPrototype}.

(** The [finally] block. *)
Definition settle (s : State) : proc State Call Resp :=
  Done (setBusyStartedAt None (setBusyLabel None (setBusy false s))).

(** [now] is the reading of [Date.now()] at the call. *)
Definition sendPrompt (now : Z) (s : State) : proc State Call Resp :=
  match client s, selectedSessionId s with
  | Some c, Some sessionID =>
      if negb (truthy sessionID) then Done s
      else
        let content := trim (prompt s) in
        if negb (truthy content) then Done s
        else
          let s1 := setError None (setBusyStartedAt (Some now)
                      (setBusyLabel (Some (lit "Running")) (setBusy true s))) in
          let s2 := setPrompt [] (setLastPromptSent content s1) in
          let model := selectedSessionModel s2 in
          Await s2
            (PromptAsync c {| req_sessionID := sessionID; req_model := model;
                              req_variant := modelVariant s2; req_text := content |})
            (fun s3 r =>
               match r with
               | inl e => settle (setError (Some (errorMessage e)) s3)
               | inr _ =>
                   (* the override is deleted from a copy when the record has
                      a truthy property of that name, own or inherited, and
                      the record is kept otherwise: the own properties that
                      result are the same *)
                   let s4 := setSessionModelOverrideById (delete sessionID)
                               (setSessionModelById (insert sessionID model) s3) in
                   (* failures of [loadSessions] are caught and dropped *)
                   Await s4 (LoadSessions (trim (activeWorkspaceRoot s4)))
                     (fun s5 _ => settle s5)
               end)
  | _, _ => Done s
  end.
End WithBuiltins.

End Prompt.

(** ** Replying to a permission request (App.tsx) *)

Module Permission.

Inductive Reply := Once | Always | Reject.

Section WithSessionStore.
(** The state of the application, whatever it comprises. *)
Context {St : Type}.

(** The result of running an operation of the session store: the state
    it leaves and whether it returned or threw. *)
Definition outcome : Type := St * (thrown + unit).

(** [respondPermission] of the session store (app/session.ts), whose
    source is not part of this development. *)
Context (respondPermission : jsstring -> Reply -> St -> outcome).

(** [await f; return] : the awaited outcome is the outcome. *)
Definition awaitAndReturn (o : outcome) : outcome :=
  match o with
  | (s, inl e) => (s, inl e)
  | (s, inr _) => (s, inr tt)
  end.

Definition respondPermissionAndRemember (requestID : jsstring) (reply : Reply)
    (s : St) : outcome :=
  (* Intentional no-op: permission prompts grant session-scoped access only. *)
  awaitAndReturn (respondPermission requestID reply s).
End WithSessionStore.

End Permission.

(** ** Downloading an update (App.tsx, [downloadUpdate]) *)

Module Updater.

(** The tagged union [UpdateStatus], by its [state] tag. *)
Inductive UpdateStatus :=
| Idle (lastCheckedAt : option Z)
| Checking (startedAt : Z)
| Available (lastCheckedAt : Z) (version : jsstring)
            (date : option jsstring) (notes : option jsstring)
| Downloading (lastCheckedAt : Z) (version : jsstring) (totalBytes : option Z)
              (downloadedBytes : Z) (notes : option jsstring)
| Ready (lastCheckedAt : Z) (version : jsstring) (notes : option jsstring)
| Failed (lastCheckedAt : option Z) (message : jsstring).   (* state "error" *)

(** The handle returned by the updater plugin. *)
Record UpdateHandle := { handle_id : nat }.

Record PendingUpdate := {
  pending_update : UpdateHandle;
  pending_version : jsstring;
  pending_notes : option jsstring
}.

Record State := {
  pendingUpdate : option PendingUpdate;
  updateStatus : UpdateStatus;
  error : option jsstring
}.

Definition setUpdateStatus (f : UpdateStatus -> UpdateStatus) (s : State) : State :=
  {| pendingUpdate := pendingUpdate s; updateStatus := f (updateStatus s);
     error := error s |}.

Definition setError (e : option jsstring) (s : State) : State :=
  {| pendingUpdate := pendingUpdate s; updateStatus := updateStatus s; error := e |}.

(** [update.download(onEvent)]: the plugin invokes [onEvent] while the
    call is pending. *)
Inductive Call :=
| Download (update : UpdateHandle) (onEvent : json -> State -> State).

Definition Resp (c : Call) : Type := unit.

(** [record.data && typeof record.data.key === "number" ? record.data.key : dflt] *)
Definition dataNumber {A} (key : String.string) (some : Z -> A) (dflt : A)
    (record : json) : A :=
  match get "data" record with
  | Some data => if truthyValue data then numberField key some dflt data else dflt
  | None => dflt
  end.

Definition eventIs (name : String.string) (record : json) : bool :=
  match get "event" record with
  | Some (JStr e) => eqb e (lit name)
  | _ => false
  end.

(** The updater passed to [setUpdateStatus] by the download callback. *)
Definition applyDownloadEvent (record : json) (current : UpdateStatus) : UpdateStatus :=
  match current with
  | Downloading checked version total downloaded notes =>
      if eventIs "Started" record then
        Downloading checked version (dataNumber "contentLength" Some None record)
                    downloaded notes
      else if eventIs "Progress" record then
        Downloading checked version total
                    (downloaded + dataNumber "chunkLength" id 0 record) notes
      else current
  | _ => current
  end.

(** The callback passed to [download]. *)
Definition onDownloadEvent (event : json) (s : State) : State :=
  if negb (truthyValue event) || negb (typeofObject event) then s
  else setUpdateStatus (applyDownloadEvent event) s.

Definition downloadedSoFar (st : UpdateStatus) : option Z :=
  match st with
  | Downloading _ _ _ downloaded _ => Some downloaded
  | _ => None
  end.

Section WithBuiltins.
Context `{Utils}.

(** [now] is the reading of [Date.now()] at the call. *)
Definition downloadUpdate (now : Z) (s : State) : proc State Call Resp :=
  match pendingUpdate s with
  | None => Done s
  | Some pending =>
      let s1 := setError None s in
      let lastCheckedAt :=
        match updateStatus s1 with
        | Available checked _ _ _ => checked
        | _ => now
        end in
      let s2 :=
        setUpdateStatus
          (fun _ => Downloading lastCheckedAt (pending_version pending) None 0
                                (pending_notes pending)) s1 in
      Await s2 (Download (pending_update pending) onDownloadEvent)
        (fun s3 r =>
           match r with
           | inr _ =>
               Done (setUpdateStatus
                       (fun _ => Ready lastCheckedAt (pending_version pending)
                                       (pending_notes pending)) s3)
           | inl e =>
               Done (setUpdateStatus
                       (fun _ => Failed (Some lastCheckedAt) (errorMessage e)) s3)
           end)
  end.
End WithBuiltins.

(** The plugin delivers the events of a download one after the other. *)
Definition deliver (events : list json) (s : State) : State :=
  foldl (fun acc ev => onDownloadEvent ev acc) s events.

End Updater.

(** ** Workspace templates (App.tsx, [loadWorkspaceTemplates]) *)

Module Templates.

Inductive NodeType := FileType | DirectoryType.

(** A node of a directory listing of the engine file API. *)
Record FileNode := {
  node_name : jsstring;
  node_path : jsstring;
  node_type : NodeType;
  node_ignored : bool
}.

(** The result of reading a file: its [type] is ["text"] or not. *)
Inductive FileContent :=
| TextContent (content : jsstring)
| OtherContent.

Inductive Scope := WorkspaceScope | GlobalScope.

Record WorkspaceTemplate := {
  id : jsstring;
  title : jsstring;
  description : jsstring;
  prompt : jsstring;
  createdAt : Z;
  scope : Scope
}.

Record State := {
  client : option Client;
  activeWorkspaceRoot : jsstring;
  templates : list WorkspaceTemplate;
  workspaceTemplatesLoaded : bool;
  error : option jsstring
}.

Definition setTemplates (f : list WorkspaceTemplate -> list WorkspaceTemplate)
    (s : State) : State :=
  {| client := client s; activeWorkspaceRoot := activeWorkspaceRoot s;
     templates := f (templates s);
     workspaceTemplatesLoaded := workspaceTemplatesLoaded s; error := error s |}.

Definition setWorkspaceTemplatesLoaded (b : bool) (s : State) : State :=
  {| client := client s; activeWorkspaceRoot := activeWorkspaceRoot s;
     templates := templates s; workspaceTemplatesLoaded := b; error := error s |}.

Definition setError (e : option jsstring) (s : State) : State :=
  {| client := client s; activeWorkspaceRoot := activeWorkspaceRoot s;
     templates := templates s;
     workspaceTemplatesLoaded := workspaceTemplatesLoaded s; error := e |}.

(** The optional argument of [loadWorkspaceTemplates]. *)
Record Options := { opt_workspaceRoot : option jsstring; opt_quiet : bool }.

(** [unwrap(await c.file.list(..))] and [unwrap(await c.file.read(..))]:
    a call settles with a value, or rejects, or [unwrap] throws. *)
Inductive Call :=
| FileList (c : Client) (directory path : jsstring)
| FileRead (c : Client) (directory path : jsstring).

Definition Resp (c : Call) : Type :=
  match c with
  | FileList _ _ _ => list FileNode
  | FileRead _ _ _ => FileContent
  end.

Definition isGlobal (t : WorkspaceTemplate) : bool :=
  match scope t with GlobalScope => true | WorkspaceScope => false end.

Definition isWorkspace (t : WorkspaceTemplate) : bool :=
  match scope t with WorkspaceScope => true | GlobalScope => false end.

Definition isFileNode (n : FileNode) : bool :=
  match node_type n with FileType => true | DirectoryType => false end.

Definition asciiLower (c : N) : N := if isUpper c then (c + 32)%N else c.

(** [name.replace(/\.json$/i, "")]: under the [i] flag only the ASCII
    letters of either case match the letters of the pattern. *)
Definition stripJsonExtension (name : jsstring) : jsstring :=
  let n := (length name - 5)%nat in
  if eqb (List.map asciiLower (drop n name)) (lit ".json") then take n name else name.

(** [(a, b) => b.createdAt - a.createdAt] is negative, so that [a] stays
    before [b], when [a] is strictly newer. *)
Fixpoint insertByCreatedAt (t : WorkspaceTemplate) (sorted : list WorkspaceTemplate)
    : list WorkspaceTemplate :=
  match sorted with
  | [] => [t]
  | u :: rest =>
      if createdAt t <? createdAt u then u :: insertByCreatedAt t rest
      else t :: sorted
  end.

(** [loaded.slice().sort(..)]: [Array.prototype.sort] is stable. *)
Definition sortByCreatedAtDesc (loaded : list WorkspaceTemplate) : list WorkspaceTemplate :=
  foldr insertByCreatedAt [] loaded.

Section WithBuiltins.
Context `{Unicode} `{Utils}.

(** The two filters that select [jsonFiles]. *)
Definition jsonFilesOf (nodes : list FileNode) : list FileNode :=
  List.filter (fun n => endsWith (lit ".json") (toLowerCase (node_name n)))
    (List.filter (fun n => isFileNode n && negb (node_ignored n)) nodes).

(** The body of the loop for one node whose content was read; [now] is
    the reading of [Date.now()] in this iteration.  [None] is
    [continue]. *)
Definition templateOfFile (now : Z) (node : FileNode) (content : FileContent)
    : option WorkspaceTemplate :=
  match content with
  | OtherContent => None
  | TextContent text =>
      match safeParseJson text with
      | None => None
      | Some parsed =>
          if negb (truthyValue parsed) then None
          else
            let title := stringField "title" (lit "Untitled") parsed in
            let promptText := stringField "prompt" [] parsed in
            if negb (truthy (trim promptText)) then None
            else
              Some {| id := stringField "id" (stripJsonExtension (node_name node)) parsed;
                      title := title;
                      description := stringField "description" [] parsed;
                      prompt := promptText;
                      createdAt := numberField "createdAt" (fun n => n) now parsed;
                      scope := WorkspaceScope |}
      end
  end.

Definition pushLoaded (loaded : list WorkspaceTemplate) (t : option WorkspaceTemplate)
    : list WorkspaceTemplate :=
  match t with
  | Some t => loaded ++ [t]
  | None => loaded
  end.

(** The [for .. of] loop over [jsonFiles]; [clock i] is the reading of
    [Date.now()] in iteration [i]. *)
Fixpoint readTemplates (c : Client) (root : jsstring) (clock : nat -> Z)
    (i : nat) (jsonFiles : list FileNode) (loaded : list WorkspaceTemplate)
    (finish : list WorkspaceTemplate -> State -> proc State Call Resp)
    (fail : thrown -> State -> proc State Call Resp)
    (s : State) : proc State Call Resp :=
  match jsonFiles with
  | [] => finish loaded s
  | node :: rest =>
      Await s (FileRead c root (node_path node))
        (fun s' r =>
           match r with
           | inl e => fail e s'
           | inr content =>
               readTemplates c root clock (S i) rest
                 (pushLoaded loaded (templateOfFile (clock i) node content))
                 finish fail s'
           end)
  end.

Definition loadWorkspaceTemplates (clock : nat -> Z) (options : option Options)
    (s : State) : proc State Call Resp :=
  let root :=
    trim (default (activeWorkspaceRoot s) (options ≫= opt_workspaceRoot)) in
  match client s with
  | None => Done s
  | Some c =>
      if negb (truthy root) then Done s
      else
        let fail e s' :=
          let s'' := setWorkspaceTemplatesLoaded true s' in
          Done (if default false (opt_quiet <$> options) then s''
                else setError (Some (errorMessage e)) s'') in
        let finish loaded s' :=
          let stable := sortByCreatedAtDesc loaded in
          Done (setWorkspaceTemplatesLoaded true
                  (setTemplates
                     (fun current => stable ++ List.filter isGlobal current) s')) in
        Await s (FileList c root (lit ".openwork/templates"))
          (fun s' r =>
             match r with
             | inl e => fail e s'
             | inr nodes =>
                 readTemplates c root clock 0 (jsonFilesOf nodes) [] finish fail s'
             end)
  end.
End WithBuiltins.

(** The engine file API seen from one directory: what a listing and a read
    settle with. *)
Record FileApi := {
  api_list : jsstring -> jsstring -> thrown + list FileNode;
  api_read : jsstring -> jsstring -> thrown + FileContent
}.

(** A world in which no other handler runs while a call is pending. *)
Definition quietWorld (api : FileApi) : world State Call Resp :=
  fun c s =>
    match c return State * (thrown + Resp c) with
    | FileList _ directory path => (s, api_list api directory path)
    | FileRead _ directory path => (s, api_read api directory path)
    end.

End Templates.

(** ** Preferences in local storage (App.tsx, [onMount] and the effects) *)

Module Prefs.

Import Updater.

Inductive EngineSource := PathSource | SidecarSource.

(** The signals that the persistence effects read. *)
Record Prefs := {
  baseUrl : jsstring;
  clientDirectory : jsstring;
  workspaceProjectDir : jsstring;
  engineSource : EngineSource;
  defaultModel : ModelRef;
  showThinking : bool;
  modelVariant : option jsstring;
  updateAutoCheck : bool;
  updateStatus : UpdateStatus;
  globalTemplatesLoaded : bool;
  templates : list Templates.WorkspaceTemplate
}.

Definition setBaseUrl (v : jsstring) (p : Prefs) : Prefs :=
  {| baseUrl := v; clientDirectory := clientDirectory p;
     workspaceProjectDir := workspaceProjectDir p; engineSource := engineSource p;
     defaultModel := defaultModel p; showThinking := showThinking p;
     modelVariant := modelVariant p; updateAutoCheck := updateAutoCheck p;
     updateStatus := updateStatus p;
     globalTemplatesLoaded := globalTemplatesLoaded p; templates := templates p |}.

Definition setClientDirectory (v : jsstring) (p : Prefs) : Prefs :=
  {| baseUrl := baseUrl p; clientDirectory := v;
     workspaceProjectDir := workspaceProjectDir p; engineSource := engineSource p;
     defaultModel := defaultModel p; showThinking := showThinking p;
     modelVariant := modelVariant p; updateAutoCheck := updateAutoCheck p;
     updateStatus := updateStatus p;
     globalTemplatesLoaded := globalTemplatesLoaded p; templates := templates p |}.

Definition setEngineSource (v : EngineSource) (p : Prefs) : Prefs :=
  {| baseUrl := baseUrl p; clientDirectory := clientDirectory p;
     workspaceProjectDir := workspaceProjectDir p; engineSource := v;
     defaultModel := defaultModel p; showThinking := showThinking p;
     modelVariant := modelVariant p; updateAutoCheck := updateAutoCheck p;
     updateStatus := updateStatus p;
     globalTemplatesLoaded := globalTemplatesLoaded p; templates := templates p |}.

Definition setDefaultModel (v : ModelRef) (p : Prefs) : Prefs :=
  {| baseUrl := baseUrl p; clientDirectory := clientDirectory p;
     workspaceProjectDir := workspaceProjectDir p; engineSource := engineSource p;
     defaultModel := v; showThinking := showThinking p;
     modelVariant := modelVariant p; updateAutoCheck := updateAutoCheck p;
     updateStatus := updateStatus p;
     globalTemplatesLoaded := globalTemplatesLoaded p; templates := templates p |}.

Definition setShowThinking (v : bool) (p : Prefs) : Prefs :=
  {| baseUrl := baseUrl p; clientDirectory := clientDirectory p;
     workspaceProjectDir := workspaceProjectDir p; engineSource := engineSource p;
     defaultModel := defaultModel p; showThinking := v;
     modelVariant := modelVariant p; updateAutoCheck := updateAutoCheck p;
     updateStatus := updateStatus p;
     globalTemplatesLoaded := globalTemplatesLoaded p; templates := templates p |}.

Definition setModelVariant (v : option jsstring) (p : Prefs) : Prefs :=
  {| baseUrl := baseUrl p; clientDirectory := clientDirectory p;
     workspaceProjectDir := workspaceProjectDir p; engineSource := engineSource p;
     defaultModel := defaultModel p; showThinking := showThinking p;
     modelVariant := v; updateAutoCheck := updateAutoCheck p;
     updateStatus := updateStatus p;
     globalTemplatesLoaded := globalTemplatesLoaded p; templates := templates p |}.

Definition setUpdateAutoCheck (v : bool) (p : Prefs) : Prefs :=
  {| baseUrl := baseUrl p; clientDirectory := clientDirectory p;
     workspaceProjectDir := workspaceProjectDir p; engineSource := engineSource p;
     defaultModel := defaultModel p; showThinking := showThinking p;
     modelVariant := modelVariant p; updateAutoCheck := v;
     updateStatus := updateStatus p;
     globalTemplatesLoaded := globalTemplatesLoaded p; templates := templates p |}.

Definition setUpdateStatus (v : UpdateStatus) (p : Prefs) : Prefs :=
  {| baseUrl := baseUrl p; clientDirectory := clientDirectory p;
     workspaceProjectDir := workspaceProjectDir p; engineSource := engineSource p;
     defaultModel := defaultModel p; showThinking := showThinking p;
     modelVariant := modelVariant p; updateAutoCheck := updateAutoCheck p;
     updateStatus := v;
     globalTemplatesLoaded := globalTemplatesLoaded p; templates := templates p |}.

(** The values the signals are created with.  The two signals of the
    updater are created in app/updater.ts, whose source is not part of this
    development; their initial values are arguments. *)
Definition initial (projectDir : jsstring) (autoCheck : bool) (status : UpdateStatus)
    : Prefs :=
  {| baseUrl := lit "http://127.0.0.1:4096";
     clientDirectory := [];
     workspaceProjectDir := projectDir;
     engineSource := PathSource;
     defaultModel := DEFAULT_MODEL;
     showThinking := false;
     modelVariant := None;
     updateAutoCheck := autoCheck;
     updateStatus := status;
     globalTemplatesLoaded := false;
     templates := [] |}.

Definition engineSourceText (e : EngineSource) : jsstring :=
  match e with PathSource => lit "path" | SidecarSource => lit "sidecar" end.

(** [JSON.stringify(b)] of a boolean. *)
Definition stringifyBool (b : bool) : jsstring :=
  if b then lit "true" else lit "false".

(** The four white-space characters of the JSON grammar. *)
Definition isJsonSpace (c : N) : bool :=
  match c with 9 | 10 | 13 | 32 => true | _ => false end%N.

(** [JSON.parse(s)], as far as the result is a boolean: the text is [true]
    or [false] between optional JSON white space.  [None] when the text is
    malformed or denotes another value. *)
Definition parseBoolean (s : jsstring) : option bool :=
  let body := stripTrailing isJsonSpace (stripLeading isJsonSpace s) in
  if eqb body (lit "true") then Some true
  else if eqb body (lit "false") then Some false
  else None.

Section WithBuiltins.
Context `{Utils} `{NumberFormat} `{JsonText}.

(** *** The persistence effects, one per [createEffect] *)

Definition persistBaseUrl (p : Prefs) : storage -> storage :=
  setItem (lit "openwork.baseUrl") (baseUrl p).

Definition persistClientDirectory (p : Prefs) : storage -> storage :=
  setItem (lit "openwork.clientDirectory") (clientDirectory p).

(* Legacy key: keep for backwards compatibility. *)
Definition persistProjectDir (p : Prefs) : storage -> storage :=
  setItem (lit "openwork.projectDir") (workspaceProjectDir p).

Definition persistEngineSource (p : Prefs) : storage -> storage :=
  setItem (lit "openwork.engineSource") (engineSourceText (engineSource p)).

(** The global templates as they are stored: one object per template, with
    the six fields in the order of the source. *)
Definition templatePayload (t : Templates.WorkspaceTemplate) : json :=
  JObj [ (lit "id", JStr (Templates.id t));
         (lit "title", JStr (Templates.title t));
         (lit "description", JStr (Templates.description t));
         (lit "prompt", JStr (Templates.prompt t));
         (lit "createdAt", JNum (Templates.createdAt t));
         (lit "scope", JStr (lit "global")) ].

Definition isGlobal (t : Templates.WorkspaceTemplate) : bool :=
  match Templates.scope t with
  | Templates.GlobalScope => true
  | Templates.WorkspaceScope => false
  end.

Definition persistTemplates (p : Prefs) : storage -> storage :=
  if negb (globalTemplatesLoaded p) then fun st => st
  else setItem (lit "openwork.templates")
               (stringify (JArr (List.map templatePayload
                                          (List.filter isGlobal (templates p))))).

Definition persistDefaultModel (p : Prefs) : storage -> storage :=
  setItem MODEL_PREF_KEY (formatModelRef (defaultModel p)).

Definition persistUpdateAutoCheck (p : Prefs) : storage -> storage :=
  setItem (lit "openwork.updateAutoCheck")
          (if updateAutoCheck p then lit "1" else lit "0").

Definition persistShowThinking (p : Prefs) : storage -> storage :=
  setItem THINKING_PREF_KEY (stringifyBool (showThinking p)).

Definition persistModelVariant (p : Prefs) : storage -> storage :=
  match modelVariant p with
  | Some value => if truthy value then setItem VARIANT_PREF_KEY value
                  else removeItem VARIANT_PREF_KEY
  | None => removeItem VARIANT_PREF_KEY
  end.

Definition persistUpdateCheckedAt (p : Prefs) : storage -> storage :=
  match updateStatus p with
  | Idle (Some checkedAt) =>
      if negb (checkedAt =? 0)
      then setItem (lit "openwork.updateLastCheckedAt") (numberToString checkedAt)
      else fun st => st
  | _ => fun st => st
  end.

(** All the effects, in the order of their creation. *)
Definition persist (p : Prefs) (st : storage) : storage :=
  persistUpdateCheckedAt p
    (persistModelVariant p
      (persistShowThinking p
        (persistUpdateAutoCheck p
          (persistDefaultModel p
            (persistTemplates p
              (persistEngineSource p
                (persistProjectDir p
                  (persistClientDirectory p
                    (persistBaseUrl p st))))))))).

(** The keys the effects may write or remove. *)
Definition persistedKeys : list jsstring :=
  [ lit "openwork.baseUrl"; lit "openwork.clientDirectory";
    lit "openwork.projectDir"; lit "openwork.engineSource";
    lit "openwork.templates"; MODEL_PREF_KEY; lit "openwork.updateAutoCheck"; THINKING_PREF_KEY;
    VARIANT_PREF_KEY; lit "openwork.updateLastCheckedAt" ].

(** *** The part of [onMount] that reads the storage back *)

Definition restoreBaseUrl (st : storage) (p : Prefs) : Prefs :=
  match getItem (lit "openwork.baseUrl") st with
  | Some stored => if truthy stored then setBaseUrl stored p else p
  | None => p
  end.

Definition restoreClientDirectory (st : storage) (p : Prefs) : Prefs :=
  match getItem (lit "openwork.clientDirectory") st with
  | Some stored => if truthy stored then setClientDirectory stored p else p
  | None => p
  end.

Definition restoreEngineSource (st : storage) (p : Prefs) : Prefs :=
  match getItem (lit "openwork.engineSource") st with
  | Some stored =>
      if eqb stored (lit "path") then setEngineSource PathSource p
      else if eqb stored (lit "sidecar") then setEngineSource SidecarSource p
      else p
  | None => p
  end.

(** The default model is the one preference whose restoration writes. *)
Definition restoreDefaultModel (st : storage) (p : Prefs) : Prefs * storage :=
  match parseModelRef (getItem MODEL_PREF_KEY st) with
  | Some parsed => (setDefaultModel parsed p, st)
  | None => (setDefaultModel DEFAULT_MODEL p,
             setItem MODEL_PREF_KEY (formatModelRef DEFAULT_MODEL) st)
  end.

Definition restoreShowThinking (st : storage) (p : Prefs) : Prefs :=
  match getItem THINKING_PREF_KEY st with
  | Some stored =>
      match parseBoolean stored with
      | Some parsed => setShowThinking parsed p
      | None => p
      end
  | None => p
  end.

Definition restoreModelVariant (st : storage) (p : Prefs) : Prefs :=
  match getItem VARIANT_PREF_KEY st with
  | Some stored =>
      if truthy stored && truthy (trim stored)
      then setModelVariant (Some (trim stored)) p else p
  | None => p
  end.

Definition restoreUpdateAutoCheck (st : storage) (p : Prefs) : Prefs :=
  match getItem (lit "openwork.updateAutoCheck") st with
  | Some stored =>
      if eqb stored (lit "0") || eqb stored (lit "1")
      then setUpdateAutoCheck (eqb stored (lit "1")) p else p
  | None => p
  end.

Definition restoreUpdateCheckedAt (st : storage) (p : Prefs) : Prefs :=
  match getItem (lit "openwork.updateLastCheckedAt") st with
  | Some stored =>
      if truthy stored then
        match stringToNumber stored with
        | Some parsed => if 0 <? parsed then setUpdateStatus (Idle (Some parsed)) p
                         else p
        | None => p
        end
      else p
  | None => p
  end.

(** [onMount], from the first [getItem] to the last, in a window whose
    storage is accessible: the signals after it, and the storage. *)
Definition restore (st : storage) (p : Prefs) : Prefs * storage :=
  let p1 := restoreEngineSource st (restoreClientDirectory st (restoreBaseUrl st p)) in
  let '(p2, st') := restoreDefaultModel st p1 in
  (restoreUpdateCheckedAt st'
     (restoreUpdateAutoCheck st'
        (restoreModelVariant st' (restoreShowThinking st' p2))),
   st').

(** Closing the application and opening it again: the signals are created
    afresh and [onMount] reads the storage the last session left. *)
Definition remount (projectDir : jsstring) (autoCheck : bool) (status : UpdateStatus)
    (st : storage) : Prefs * storage :=
  restore st (initial projectDir autoCheck status).
End WithBuiltins.

End Prefs.

(** ** Plugins listed in opencode.json (app/extensions.ts, [addPlugin]) *)

Module Extensions.

Inductive PluginScope := ProjectScope | GlobalScope.

(** The reasons the extensions store gives. *)
Inductive ReloadReason := ReloadPlugins | ReloadSkills.

(** The result of [readOpencodeConfig]: [content] is [null] when the file
    does not exist. *)
Record OpencodeConfigFile := {
  config_path : jsstring;
  config_exists : bool;
  config_content : option jsstring
}.

(** The signals [addPlugin] reads or writes, the project directory it is
    given, and the three signals [markReloadRequired] writes. *)
Record State := {
  pluginScope : PluginScope;
  pluginInput : jsstring;
  pluginStatus : option jsstring;
  projectDir : jsstring;
  reloadRequired : bool;
  reloadReasons : list ReloadReason;
  reloadLastTriggeredAt : option Z
}.

Definition setPluginInput (v : jsstring) (s : State) : State :=
  {| pluginScope := pluginScope s; pluginInput := v; pluginStatus := pluginStatus s;
     projectDir := projectDir s; reloadRequired := reloadRequired s;
     reloadReasons := reloadReasons s;
     reloadLastTriggeredAt := reloadLastTriggeredAt s |}.

Definition setPluginStatus (v : option jsstring) (s : State) : State :=
  {| pluginScope := pluginScope s; pluginInput := pluginInput s; pluginStatus := v;
     projectDir := projectDir s; reloadRequired := reloadRequired s;
     reloadReasons := reloadReasons s;
     reloadLastTriggeredAt := reloadLastTriggeredAt s |}.

Definition reasonEqb (a b : ReloadReason) : bool :=
  match a, b with
  | ReloadPlugins, ReloadPlugins | ReloadSkills, ReloadSkills => true
  | _, _ => false
  end.

(** App.tsx, [markReloadRequired]; [now] is the reading of [Date.now()]. *)
Definition markReloadRequired (now : Z) (reason : ReloadReason) (s : State) : State :=
  {| pluginScope := pluginScope s; pluginInput := pluginInput s;
     pluginStatus := pluginStatus s; projectDir := projectDir s;
     reloadRequired := true;
     reloadReasons :=
       if existsb (reasonEqb reason) (reloadReasons s) then reloadReasons s
       else reloadReasons s ++ [reason];
     reloadLastTriggeredAt := Some now |}.

(** The calls [addPlugin] awaits.  [refreshPlugins] is the sibling function
    of the store; it is awaited last and what it does to the signals is
    left to the world. *)
Inductive Call :=
| ReadOpencodeConfig (scope : PluginScope) (targetDir : jsstring)
| WriteOpencodeConfig (scope : PluginScope) (targetDir : jsstring) (content : jsstring)
| RefreshPlugins (scope : PluginScope).

Definition Resp (c : Call) : Type :=
  match c with
  | ReadOpencodeConfig _ _ => OpencodeConfigFile
  | WriteOpencodeConfig _ _ _ => unit
  | RefreshPlugins _ => unit
  end.

(** [{ $schema: "https://opencode.ai/config.json", plugin: [pluginName] }] *)
Definition freshConfig (pluginName : jsstring) : json :=
  JObj [ (lit "$schema", JStr (lit "https://opencode.ai/config.json"));
         (lit "plugin", JArr [JStr pluginName]) ].

Definition isProject (scope : PluginScope) : bool :=
  match scope with ProjectScope => true | GlobalScope => false end.

Section WithBuiltins.
Context `{Unicode} `{JsonPrinter} `{Plugins} `{Jsonc}.

(** [catch (e)] of [addPlugin] *)
Definition addFailed (e : thrown) (s : State) : proc State Call Resp :=
  Done (setPluginStatus
          (Some (errorMessageOr (lit "Failed to update opencode.json") e)) s).

(** The name an entry is compared by. *)
Definition pluginKey (entry : jsstring) : jsstring :=
  toLowerCase (stripPluginVersion entry).

Definition alreadyListed (plugins : list jsstring) (pluginName : jsstring) : bool :=
  existsb (fun entry => eqb (pluginKey entry) (pluginKey pluginName)) plugins.

(** From [writeOpencodeConfig] to the end of the [try] block. *)
Definition writeAndRefresh (now : Z) (isManualInput : bool) (scope : PluginScope)
    (targetDir content : jsstring) (s : State) : proc State Call Resp :=
  Await s (WriteOpencodeConfig scope targetDir content)
    (fun s' r =>
       match r with
       | inl e => addFailed e s'
       | inr _ =>
           let marked := markReloadRequired now ReloadPlugins s' in
           let cleared := if isManualInput then setPluginInput [] marked else marked in
           Await cleared (RefreshPlugins scope)
             (fun s'' r' =>
                match r' with
                | inl e => addFailed e s''
                | inr _ => Done s''
                end)
       end).

Definition addPlugin (isTauriRuntime : bool) (now : Z)
    (pluginNameOverride : option jsstring) (s : State) : proc State Call Resp :=
  if negb isTauriRuntime then
    Done (setPluginStatus
            (Some (lit "Plugin management is only available in Host mode.")) s)
  else
    let pluginName := trim (default (pluginInput s) pluginNameOverride) in
    let isManualInput := negb (bool_decide (is_Some pluginNameOverride)) in
    if negb (truthy pluginName) then
      Done (if isManualInput
            then setPluginStatus (Some (lit "Enter a plugin package name.")) s
            else s)
    else
      let scope := pluginScope s in
      let targetDir := trim (projectDir s) in
      if isProject scope && negb (truthy targetDir) then
        Done (setPluginStatus
                (Some (lit "Pick a project folder to manage project plugins.")) s)
      else
        let s1 := setPluginStatus None s in
        Await s1 (ReadOpencodeConfig scope targetDir)
          (fun s2 r =>
             match r with
             | inl e => addFailed e s2
             | inr config =>
                 let raw := default [] (config_content config) in
                 if negb (truthy (trim raw)) then
                   let payload := freshConfig pluginName in
                   writeAndRefresh now isManualInput scope targetDir
                     (stringifyIndent2 payload ++ [10%N]) s2
                 else
                   match parsePluginListFromContent raw with
                   | inl e => addFailed e s2
                   | inr plugins =>
                       if alreadyListed plugins pluginName then
                         Done (setPluginStatus
                                 (Some (lit "Plugin already listed in opencode.json."))
                                 s2)
                       else
                         let next := plugins ++ [pluginName] in
                         match modify raw [lit "plugin"] next
                                      {| insertSpaces := true; tabSize := 2 |} with
                         | inl e => addFailed e s2
                         | inr edits =>
                             match applyEdits raw edits with
                             | inl e => addFailed e s2
                             | inr updated =>
                                 writeAndRefresh now isManualInput scope targetDir
                                   updated s2
                             end
                         end
                   end
             end).
End WithBuiltins.

End Extensions.

(** ** Notions of the specification *)

Module ResetSpec.

Import Reset.

(** Some session has status ["running"] or ["retry"]. *)
Definition activeRunExists (s : State) : Prop :=
  exists x status, x ∈ sessions s
                   /\ sessionStatusById s !! session_id x = Some status
                   /\ (status = lit "running" \/ status = lit "retry").

(** The confirmation text, trimmed and uppercased, equals ["RESET"]. *)
Definition confirmed `{Unicode} (s : State) : Prop :=
  toUpperCase (trim (resetModalText s)) = lit "RESET".

Definition stopActiveRuns : jsstring := lit "Stop active runs before resetting.".

End ResetSpec.

Module PromptSpec.

Import Prompt.

(** A connected client, a selected session and a prompt that is not
    blank. *)
Definition canSend (s : State) : Prop :=
  is_Some (client s)
  /\ (exists sessionID, selectedSessionId s = Some sessionID /\ sessionID <> [])
  /\ trim (prompt s) <> [].

End PromptSpec.

Module UpdaterSpec.

Import Updater.

(** An event object named [name] whose [data] is [data]. *)
Definition downloadEvent (name : String.string) (data : list (jsstring * json)) : json :=
  JObj [ (lit "event", JStr (lit name)); (lit "data", JObj data) ].

(** The numeric [contentLength] of an event, [null] otherwise. *)
Definition contentLengthOf (event : json) : option Z :=
  match get "data" event with
  | Some (JObj fields) =>
      match assoc (lit "contentLength") fields with
      | Some (JNum n) => Some n
      | _ => None
      end
  | _ => None
  end.

(** The numeric [chunkLength] of an event, [0] otherwise. *)
Definition chunkLengthOf (event : json) : Z :=
  match get "data" event with
  | Some (JObj fields) =>
      match assoc (lit "chunkLength") fields with
      | Some (JNum n) => n
      | _ => 0
      end
  | _ => 0
  end.

Definition isDownloading (st : UpdateStatus) : Prop :=
  match st with Downloading _ _ _ _ _ => True | _ => False end.

End UpdaterSpec.

Module TemplatesSpec.

Import Templates.

(** The content is text that parses as JSON with a string field [prompt]
    that is not blank; [parsed] is the parsed value. *)
Definition holdsTemplate `{Utils} (content : FileContent) (parsed : json) : Prop :=
  exists text promptText,
    content = TextContent text
    /\ safeParseJson text = Some parsed
    /\ get "prompt" parsed = Some (JStr promptText)
    /\ trim promptText <> [].

(** The string under [key], if there is one. *)
Definition stringAt (key : String.string) (parsed : json) : option jsstring :=
  match get key parsed with
  | Some (JStr v) => Some v
  | _ => None
  end.

Definition numberAt (key : String.string) (parsed : json) : option Z :=
  match get key parsed with
  | Some (JNum n) => Some n
  | _ => None
  end.

(** [base] is [name] without its [.json] extension, in whatever case the
    extension is written; a name without the extension is its own base. *)
Definition baseName (name base : jsstring) : Prop :=
  (exists ext, name = base ++ ext /\ List.map asciiLower ext = lit ".json")
  \/ ((forall front ext, name = front ++ ext -> List.map asciiLower ext <> lit ".json")
      /\ base = name).

(** Newest first. *)
Definition newestFirst (l : list WorkspaceTemplate) : Prop :=
  StronglySorted (fun a b => createdAt b <= createdAt a) l.

Section WithBuiltins.
Context `{Unicode} `{Utils}.

(** The templates of the files [files], the first of which is read in
    iteration [i], in the order of the listing. *)
Fixpoint loadedFrom (api : FileApi) (root : jsstring) (clock : nat -> Z) (i : nat)
    (files : list FileNode) : list WorkspaceTemplate :=
  match files with
  | [] => []
  | node :: rest =>
      match api_read api root (node_path node) with
      | inr content =>
          match templateOfFile (clock i) node content with
          | Some t => t :: loadedFrom api root clock (S i) rest
          | None => loadedFrom api root clock (S i) rest
          end
      | inl _ => loadedFrom api root clock (S i) rest
      end
  end.

End WithBuiltins.

End TemplatesSpec.

Module PrefsSpec.

Import Updater Prefs.

(** The model variants the application sets: [null], or a string that is
    not empty and has no white space around it. *)
Definition variantNormalised (variant : option jsstring) : Prop :=
  forall v, variant = Some v -> v <> [] /\ trim v = v.

(** The reference the default model is stored as parses back to it. *)
Definition modelRoundTrips `{Utils} (m : ModelRef) : Prop :=
  parseModelRef (Some (formatModelRef m)) = Some m.

(** A check time that is stored is positive, and its text reads back as
    the same number. *)
Definition checkTimeRoundTrips `{NumberFormat} (status : UpdateStatus) : Prop :=
  forall t, status = Idle (Some t) -> t <> 0 ->
            0 < t /\ numberToString t <> []
            /\ stringToNumber (numberToString t) = Some t.

End PrefsSpec.

Module ExtensionsSpec.

Import Extensions.

(** The plugin name of an invocation: the override or the input field,
    trimmed. *)
Definition pluginNameOf (pluginNameOverride : option jsstring) (s : State) : jsstring :=
  trim (default (pluginInput s) pluginNameOverride).

(** The directory of the configuration that is read and written. *)
Definition targetDirOf (s : State) : jsstring := trim (projectDir s).

(** The target configuration can be resolved: the scope is global, or a
    project directory is set. *)
Definition targetResolvable (s : State) : Prop :=
  pluginScope s = GlobalScope \/ targetDirOf s <> [].

(** Some entry equals the name once the version suffixes are stripped and
    the letters lowercased. *)
Definition listed `{Unicode} `{Plugins} (plugins : list jsstring) (name : jsstring) : Prop :=
  exists entry, entry ∈ plugins
                /\ toLowerCase (stripPluginVersion entry)
                   = toLowerCase (stripPluginVersion name).

Definition alreadyListedStatus : jsstring :=
  lit "Plugin already listed in opencode.json.".

End ExtensionsSpec.

(** ** Instances of the built-ins to evaluate examples with

    The theorems below hold for every instance; these serve to run the
    definitions on concrete inputs. *)

Module Reference.

Definition upperAscii (c : N) : N := if isLower c then (c - 32)%N else c.
Definition lowerAscii (c : N) : N := if isUpper c then (c + 32)%N else c.

(** Case mapping restricted to the ASCII letters. *)
Definition asciiUnicode : Unicode :=
  {| toUpperCase := List.map upperAscii; toLowerCase := List.map lowerAscii |}.

Fixpoint splitAtSlash (s : jsstring) : option (jsstring * jsstring) :=
  match s with
  | [] => None
  | c :: rest =>
      if (c =? 47)%N then Some ([], rest)
      else match splitAtSlash rest with
           | Some (a, b) => Some (c :: a, b)
           | None => None
           end
  end.

(** Model references written as [provider/model]; a parser that knows one
    document. *)
Definition plainUtils : Utils :=
  {| safeStringify := fun _ => lit "[thrown]";
     safeParseJson := fun text =>
       if eqb text (lit "{prompt: hello}")
       then Some (JObj [(lit "prompt", JStr (lit "hello"))])
       else None;
     parseModelRef := fun stored =>
       match stored ≫= splitAtSlash with
       | Some (a, b) => if truthy a && truthy b
                        then Some {| providerID := a; modelID := b |} else None
       | None => None
       end;
     formatModelRef := fun m => providerID m ++ lit "/" ++ modelID m |}.

(** Decimal digits of a natural number, most significant first. *)
Fixpoint digits (fuel : nat) (n : N) (acc : jsstring) : jsstring :=
  match fuel with
  | O => acc
  | S fuel' =>
      let acc' := (48 + n mod 10)%N :: acc in
      if (n / 10 =? 0)%N then acc' else digits fuel' (n / 10)%N acc'
  end.

Fixpoint readDigits (s : jsstring) (acc : N) : option N :=
  match s with
  | [] => Some acc
  | c :: rest => if isDigit c then readDigits rest (10 * acc + (c - 48))%N else None
  end.

(** Integers in decimal notation, up to 64 digits. *)
Definition decimal : NumberFormat :=
  {| numberToString := fun z =>
       if z <? 0 then 45%N :: digits 64 (Z.to_N (- z)) []
       else digits 64 (Z.to_N z) [];
     stringToNumber := fun s =>
       match s with
       | [] => None
       | 45%N :: (_ :: _) as body => (fun n => - Z.of_N n) <$> readDigits body 0
       | _ => Z.of_N <$> readDigits s 0
       end |}.

Fixpoint beforeAt (s : jsstring) : jsstring :=
  match s with
  | [] => []
  | c :: rest => if (c =? 64)%N then [] else c :: beforeAt rest
  end.

(** A version is what follows the first ["@"] that is not the first
    character; the list of plugins of one document is known. *)
Definition plainPlugins : Plugins :=
  {| stripPluginVersion := fun entry =>
       match entry with
       | [] => []
       | c :: rest => c :: beforeAt rest
       end;
     parsePluginListFromContent := fun raw =>
       if eqb raw (lit "{plugin: [alpha@1]}") then inr [lit "alpha@1"] else inr [] |}.

(** A printer that knows one shape, and an editor that replaces the whole
    text by the list of the values. *)
Definition plainPrinter : JsonPrinter :=
  {| stringifyIndent2 := fun v =>
       match v with
       | JObj [(_, JStr schema); (_, JArr [JStr name])] =>
           lit "{schema: " ++ schema ++ lit ", plugin: [" ++ name ++ lit "]}"
       | _ => lit "{}"
       end |}.

(** The properties of [Object.prototype] in a standard engine. *)
Definition standardPrototype : ObjectPrototype :=
  {| inheritsTruthy := fun key =>
       existsb (eqb key)
         [ lit "constructor"; lit "hasOwnProperty"; lit "isPrototypeOf";
           lit "propertyIsEnumerable"; lit "toLocaleString"; lit "toString";
           lit "valueOf"; lit "__proto__"; lit "__defineGetter__";
           lit "__defineSetter__"; lit "__lookupGetter__"; lit "__lookupSetter__" ] |}.

(** A compact printer that knows the empty array. *)
Definition plainText : JsonText :=
  {| stringify := fun v =>
       match v with
       | JArr [] => lit "[]"
       | _ => lit "[..]"
       end |}.

Definition plainJsonc : Jsonc :=
  {| modify := fun raw path value options =>
       inr [ {| edit_offset := 0; edit_length := length raw;
                edit_content := lit "{plugin: [" ++ concat value ++ lit "]}" |} ];
     applyEdits := fun raw edits =>
       inr (foldl (fun text e =>
                     take (edit_offset e) text ++ edit_content e
                     ++ drop (edit_offset e + edit_length e) text) raw edits) |}.

End Reference.

(** ** Concrete states and inputs for the examples *)

Module Examples.

Definition busyWithActiveRun : Reset.State :=
  {| Reset.resetModalBusy := true;
     Reset.resetModalText := lit "RESET";
     Reset.resetModalMode := Reset.ResetAll;
     Reset.error := None;
     Reset.sessions := [ {| Reset.session_id := lit "s1" |} ];
     Reset.sessionStatusById := {[ lit "s1" := lit "running" ]};
     Reset.localStorage := {[ lit "openwork.baseUrl" := lit "http://h" ]} |}.

Definition readyToReset : Reset.State :=
  {| Reset.resetModalBusy := false;
     Reset.resetModalText := lit " reset ";
     Reset.resetModalMode := Reset.ResetAll;
     Reset.error := Some (lit "old");
     Reset.sessions := [ {| Reset.session_id := lit "s1" |} ];
     Reset.sessionStatusById := {[ lit "s1" := lit "idle" ]};
     Reset.localStorage :=
       <[lit "openwork.baseUrl" := lit "http://h"]> {[ lit "theme" := lit "dark" ]} |}.

(** A world in which every call of the reset succeeds and no other handler
    runs. *)
Definition resetSucceeds : world Reset.State Reset.Call Reset.Resp :=
  fun c s => (s, inr tt).

Definition engine : Client :=
  {| client_baseUrl := lit "http://127.0.0.1:4096"; client_directory := lit "/w" |}.

Definition typing : Prompt.State :=
  {| Prompt.client := Some engine;
     Prompt.selectedSessionId := Some (lit "ses_1");
     Prompt.prompt := lit "  hello  ";
     Prompt.lastPromptSent := [];
     Prompt.busy := false;
     Prompt.busyLabel := None;
     Prompt.busyStartedAt := None;
     Prompt.error := None;
     Prompt.sessionModelById := ∅;
     Prompt.sessionModelOverrideById := ∅;
     Prompt.defaultModel := DEFAULT_MODEL;
     Prompt.modelVariant := None;
     Prompt.lastUserModel := None;
     Prompt.activeWorkspaceRoot := lit "/w" |}.

Definition halfway : Updater.State :=
  {| Updater.pendingUpdate :=
       Some {| Updater.pending_update := {| Updater.handle_id := 1 |};
               Updater.pending_version := lit "1.2.0";
               Updater.pending_notes := None |};
     Updater.updateStatus := Updater.Downloading 1000 (lit "1.2.0") (Some 100) 10 None;
     Updater.error := None |}.

(** A progress event whose chunk length is negative. *)
Definition negativeChunk : json :=
  UpdaterSpec.downloadEvent "Progress" [ (lit "chunkLength", JNum (-5)) ].

(** A templates directory with one template, one note and one folder. *)
Definition templateNodes : list Templates.FileNode :=
  [ {| Templates.node_name := lit "Daily.JSON";
       Templates.node_path := lit ".openwork/templates/Daily.JSON";
       Templates.node_type := Templates.FileType;
       Templates.node_ignored := false |};
    {| Templates.node_name := lit "notes.txt";
       Templates.node_path := lit ".openwork/templates/notes.txt";
       Templates.node_type := Templates.FileType;
       Templates.node_ignored := false |};
    {| Templates.node_name := lit "old.json";
       Templates.node_path := lit ".openwork/templates/old.json";
       Templates.node_type := Templates.DirectoryType;
       Templates.node_ignored := false |} ].

Definition templateApi : Templates.FileApi :=
  {| Templates.api_list := fun directory path =>
       if eqb path (lit ".openwork/templates") then inr templateNodes
       else inl (ThrownError (lit "not found"));
     Templates.api_read := fun directory path =>
       if eqb path (lit ".openwork/templates/Daily.JSON")
       then inr (Templates.TextContent (lit "{prompt: hello}"))
       else inl (ThrownError (lit "not found")) |}.

Definition globalTemplate : Templates.WorkspaceTemplate :=
  {| Templates.id := lit "g1"; Templates.title := lit "Global";
     Templates.description := []; Templates.prompt := lit "plan";
     Templates.createdAt := 5; Templates.scope := Templates.GlobalScope |}.

Definition staleTemplate : Templates.WorkspaceTemplate :=
  {| Templates.id := lit "w0"; Templates.title := lit "Stale";
     Templates.description := []; Templates.prompt := lit "old";
     Templates.createdAt := 9; Templates.scope := Templates.WorkspaceScope |}.

Definition browsing : Templates.State :=
  {| Templates.client := Some engine;
     Templates.activeWorkspaceRoot := lit " /w ";
     Templates.templates := [ staleTemplate; globalTemplate ];
     Templates.workspaceTemplatesLoaded := false;
     Templates.error := None |}.

Definition tunedPrefs : Prefs.Prefs :=
  {| Prefs.baseUrl := lit "http://10.0.0.2:4096";
     Prefs.clientDirectory := lit "/home/me/project";
     Prefs.workspaceProjectDir := lit "/home/me/project";
     Prefs.engineSource := Prefs.SidecarSource;
     Prefs.defaultModel := {| providerID := lit "anthropic"; modelID := lit "sonnet" |};
     Prefs.showThinking := true;
     Prefs.modelVariant := Some (lit "high");
     Prefs.updateAutoCheck := false;
     Prefs.updateStatus := Updater.Idle (Some 1700000000000);
     Prefs.globalTemplatesLoaded := false;
     Prefs.templates := [] |}.

(** The base URL field was emptied. *)
Definition emptiedBaseUrl : Prefs.Prefs := Prefs.setBaseUrl [] tunedPrefs.

Definition managingPlugins : Extensions.State :=
  {| Extensions.pluginScope := Extensions.ProjectScope;
     Extensions.pluginInput := lit "  beta@2 ";
     Extensions.pluginStatus := Some (lit "stale");
     Extensions.projectDir := lit "/w ";
     Extensions.reloadRequired := false;
     Extensions.reloadReasons := [];
     Extensions.reloadLastTriggeredAt := None |}.

Definition existingConfig : Extensions.OpencodeConfigFile :=
  {| Extensions.config_path := lit "/w/opencode.json";
     Extensions.config_exists := true;
     Extensions.config_content := Some (lit "{plugin: [alpha@1]}") |}.

(** The configuration file exists and every call succeeds. *)
Definition configWorld
    : world Extensions.State Extensions.Call Extensions.Resp :=
  fun c s =>
    match c return Extensions.State * (thrown + Extensions.Resp c) with
    | Extensions.ReadOpencodeConfig _ _ => (s, inr existingConfig)
    | Extensions.WriteOpencodeConfig _ _ _ => (s, inr tt)
    | Extensions.RefreshPlugins _ => (s, inr tt)
    end.

End Examples.

(** * More of the application *)

(** ** Splitting and joining strings *)

Module Text.

(** [parts.join(sep)] *)
Fixpoint joinWith (sep : jsstring) (parts : list jsstring) : jsstring :=
  match parts with
  | [] => []
  | [p] => p
  | p :: rest => p ++ sep ++ joinWith sep rest
  end.

(** [s.split(c)] for a one-character separator [c]: the pieces between
    the occurrences of [c], of which there is always at least one. *)
Fixpoint splitOn (c : N) (s : jsstring) : list jsstring :=
  match s with
  | [] => [[]]
  | x :: rest =>
      if (x =? c)%N then [] :: splitOn c rest
      else match splitOn c rest with
           | piece :: pieces => (x :: piece) :: pieces
           | [] => [[x]]
           end
  end.

End Text.

(** ** Configured MCP servers (app/mcp.ts, [parseMcpServersFromContent]) *)

Module McpConfig.

(** [parse] of the jsonc-parser package: the parsed value, [undefined]
    ([None]) when there is none, or an exception. *)
Class JsoncParse := {
  parse : jsstring -> thrown + option json
}.

(** The key of the element at index [i] of an array. *)
Definition indexKey (i : nat) : jsstring :=
  lit (DecimalString.NilEmpty.string_of_uint (Nat.to_uint i)).

(** [Object.entries(v)] for an object or an array; the fields of an object
    are taken to be listed in the order of enumeration. *)
Definition entries (v : json) : list (jsstring * json) :=
  match v with
  | JObj fields => fields
  | JArr items => imap (fun i item => (indexKey i, item)) items
  | _ => []
  end.

Record McpServerEntry := { entry_name : jsstring; entry_config : json }.

(** [config.type !== "remote" && config.type !== "local"] *)
Definition unknownType (config : json) : bool :=
  match get "type" config with
  | Some (JStr t) => negb (eqb t (lit "remote")) && negb (eqb t (lit "local"))
  | _ => true
  end.

(** The callback of [flatMap]. *)
Definition entryOf (pair : jsstring * json) : list McpServerEntry :=
  let '(name, value) := pair in
  if negb (truthyValue value) || negb (typeofObject value) then []
  else if unknownType value then []
  else [ {| entry_name := name; entry_config := value |} ].

Section WithBuiltins.
Context `{JsoncParse}.

Definition parseMcpServersFromContent (content : jsstring) : list McpServerEntry :=
  if negb (truthy (trim content)) then []
  else
    match parse content with
    | inl _ => []                                   (* catch *)
    | inr parsed =>
        match parsed ≫= get "mcp" with
        | None => []
        | Some mcp =>
            if negb (truthyValue mcp) || negb (typeofObject mcp) then []
            else flat_map entryOf (entries mcp)
        end
    end.

End WithBuiltins.

End McpConfig.

(** ** The thinking block (components/ThinkingBlock.tsx, [activeStep]) *)

Module ThinkingBlock.

Inductive StepStatus := StepPending | StepRunning | StepCompleted | StepError.

Record ThinkingStep := { step_status : StepStatus; step_text : jsstring }.

Definition isRunning (s : ThinkingStep) : bool :=
  match step_status s with StepRunning => true | _ => false end.

(** [steps.find(..) ?? steps[steps.length - 1] ?? null] *)
Definition activeStep (steps : list ThinkingStep) : option ThinkingStep :=
  match List.find isRunning steps with
  | Some s => Some s
  | None => last steps
  end.

End ThinkingBlock.

(** ** Whether a new task can be started (App.tsx, [newTaskDisabled]) *)

Module NewTask.

Definition labelIs (label : option jsstring) (text : String.string) : bool :=
  match label with
  | Some l => eqb l (lit text)
  | None => false
  end.

Definition newTaskDisabled (busy : bool) (busyLabel : option jsstring) : bool :=
  let label := busyLabel in
  (* Allow creating a new session even while a run is in progress. *)
  if busy && labelIs label "Running" then false
  (* Otherwise, block during engine / connection transitions. *)
  else if busy && (labelIs label "Connecting" || labelIs label "Starting engine"
                   || labelIs label "Disconnecting") then true
  else busy.

End NewTask.

(** ** The session view (views/SessionView.tsx) *)

Module SessionProgress.

Record Todo := { todo_content : jsstring; todo_status : jsstring }.

(** The memo [realTodos]. *)
Definition realTodos (todos : list Todo) : list Todo :=
  List.filter (fun todo => truthy (trim (todo_content todo))) todos.

Definition isCompleted (todo : Todo) : bool := eqb (todo_status todo) (lit "completed").

(** The memo [progressDots]. *)
Definition progressDots (todos : list Todo) : list bool :=
  let activeTodos := realTodos todos in
  let total := length activeTodos in
  if (total =? 0)%nat then []
  else
    let completed := length (List.filter isCompleted activeTodos) in
    (* Array.from({ length: total }, (_, idx) => idx < completed) *)
    List.map (fun idx => (idx <? completed)%nat) (seq 0 total).

(** [toggleSteps]: the updater passed to [setExpandedStepIds]. *)
Definition toggleSteps (id : jsstring) (current : gset (list N)) : gset (list N) :=
  if bool_decide (id ∈ current) then current ∖ {[ id ]} else current ∪ {[ id ]}.

(** A message part and a message, as far as the view reads them: the role
    and the identifier of [msg.info], and of each part its type and text. *)
Record Part := { part_type : jsstring; part_text : option jsstring }.

Record Message := {
  msg_role : option jsstring;
  msg_id : option jsstring;
  msg_parts : list Part
}.

Definition roleIs (role : String.string) (msg : Message) : bool :=
  match msg_role msg with
  | Some r => eqb r (lit role)
  | None => false
  end.

Definition isAssistantMessage : Message -> bool := roleIs "assistant".
Definition isUserMessage : Message -> bool := roleIs "user".

(** [String(msg.info.id ?? "")] *)
Definition idText (msg : Message) : jsstring := default [] (msg_id msg).

(** The memo [lastUserMessageId]: the loop runs from the last message to
    the first. *)
Definition lastUserMessageId (messages : list Message) : jsstring :=
  match List.find isUserMessage (rev messages) with
  | Some msg => idText msg
  | None => []
  end.

(** [part.type === "text" && part.text?.trim()] *)
Definition hasText (part : Part) : bool :=
  eqb (part_type part) (lit "text")
  && match part_text part with
     | Some text => truthy (trim text)
     | None => false
     end.

(** [list.findIndex(..)], [None] for [-1]. *)
Fixpoint findIndex {A} (p : A -> bool) (l : list A) : option nat :=
  match l with
  | [] => None
  | x :: rest => if p x then Some 0%nat else S <$> findIndex p rest
  end.

(** The memo [hasAssistantTextAfterLastUser]. *)
Definition hasAssistantTextAfterLastUser (messages : list Message) : bool :=
  let pivot := lastUserMessageId messages in
  if negb (truthy pivot) then false
  else
    match findIndex (fun msg => eqb (idText msg) pivot) messages with
    | None => false
    | Some pivotIndex =>
        existsb (fun msg => isAssistantMessage msg && existsb hasText (msg_parts msg))
                (drop (S pivotIndex) messages)
    end.

(** The memo [showAnticipatoryCursor]. *)
Definition showAnticipatoryCursor (busyLabel : option jsstring) (sessionStatus : jsstring)
    (messages : list Message) : bool :=
  if negb (NewTask.labelIs busyLabel "Running") && negb (eqb sessionStatus (lit "running"))
  then false
  else negb (hasAssistantTextAfterLastUser messages).

End SessionProgress.

(** ** The status bar (the [StatusBar] component) *)

Module StatusBar.

(** The fields of [OwpenbotStatus] that the bar reads. *)
Record OwpenbotStatus := {
  running : bool;
  whatsapp_linked : bool;
  telegram_configured : bool
}.

(** The [label] of the memo [messagingMeta]. *)
Definition messagingLabel (status : option OwpenbotStatus) : jsstring :=
  match status with
  | None => lit "Messaging bridge unavailable"
  | Some status =>
      let whatsappLinked := whatsapp_linked status in
      let telegramConfigured := telegram_configured status in
      if whatsappLinked && telegramConfigured then lit "Messaging bridge ready"
      else if whatsappLinked || telegramConfigured || running status
      then lit "Messaging bridge setup"
      else lit "Messaging bridge offline"
  end.

(** The memo [messagingHint]; the hints are joined by [" / "]. *)
Definition messagingHint (status : option OwpenbotStatus) : jsstring :=
  match status with
  | None => []
  | Some status =>
      let hints :=
        (if negb (whatsapp_linked status) then [lit "Connect WhatsApp"] else [])
        ++ (if negb (telegram_configured status) then [lit "Connect Telegram"] else []) in
      Text.joinWith (lit " / ") hints
  end.

End StatusBar.

(** ** Installed skills (app/extensions.ts, [refreshSkills]) *)

Module Skills.

Import Templates.

Record SkillCard := {
  skill_name : jsstring;
  skill_path : jsstring;
  skill_description : option jsstring      (* [undefined] is [None] *)
}.

(** The signals [refreshSkills] reads or writes; [activeWorkspaceRoot]
    stands for the accessor the store is given. *)
Record State := {
  client : option Client;
  activeWorkspaceRoot : jsstring;
  skills : list SkillCard;
  skillsStatus : option jsstring
}.

Definition setSkills (v : list SkillCard) (s : State) : State :=
  {| client := client s; activeWorkspaceRoot := activeWorkspaceRoot s;
     skills := v; skillsStatus := skillsStatus s |}.

Definition setSkillsStatus (v : option jsstring) (s : State) : State :=
  {| client := client s; activeWorkspaceRoot := activeWorkspaceRoot s;
     skills := skills s; skillsStatus := v |}.

Definition isDirectoryNode (n : FileNode) : bool :=
  match node_type n with DirectoryType => true | FileType => false end.

Definition isBodyLine (l : jsstring) : bool :=
  truthy l && negb (startsWith (lit "#") l).

(** The description made of the text of a [SKILL.md]: its first two lines
    that are neither blank nor headings, joined by a space. *)
Definition describe (content : jsstring) : option jsstring :=
  let lines := Text.splitOn 10 content in
  let first :=
    Text.joinWith (lit " ")
      (take 2 (List.filter isBodyLine (List.map trim lines))) in
  if truthy first then Some first else None.

(** The inner [try] of the loop: a read that fails, or a file that is not
    text, leaves the description undefined. *)
Definition descriptionOf (r : thrown + FileContent) : option jsstring :=
  match r with
  | inr (TextContent content) => describe content
  | _ => None
  end.

Definition skillDocPath (dir : FileNode) : jsstring :=
  lit ".opencode/skill/" ++ node_name dir ++ lit "/SKILL.md".

Definition cardOf (dir : FileNode) (description : option jsstring) : SkillCard :=
  {| skill_name := node_name dir; skill_path := node_path dir;
     skill_description := description |}.

(** The [for .. of] loop over the directories, and what follows it. *)
Fixpoint readSkills (c : Client) (dirs : list FileNode) (next : list SkillCard)
    (s : State) : proc State Call Resp :=
  match dirs with
  | [] =>
      let s' := setSkills next s in
      Done (if (length next =? 0)%nat
            then setSkillsStatus (Some (lit "No skills found in .opencode/skill")) s'
            else s')
  | dir :: rest =>
      Await s (FileRead c (trim (activeWorkspaceRoot s)) (skillDocPath dir))
        (fun s' r => readSkills c rest (next ++ [cardOf dir (descriptionOf r)]) s')
  end.

Definition refreshSkills (s : State) : proc State Call Resp :=
  match client s with
  | None => Done s
  | Some c =>
      let s1 := setSkillsStatus None s in
      Await s1 (FileList c (trim (activeWorkspaceRoot s1)) (lit ".opencode/skill"))
        (fun s2 r =>
           match r with
           | inl e =>
               Done (setSkillsStatus
                       (Some (errorMessageOr (lit "Failed to load skills") e))
                       (setSkills [] s2))
           | inr nodes =>
               let dirs :=
                 List.filter (fun n => isDirectoryNode n && negb (node_ignored n)) nodes in
               readSkills c dirs [] s2
           end)
  end.

(** A world in which no other handler runs while a call is pending. *)
Definition quietWorld (api : FileApi) : world State Call Resp :=
  fun c s =>
    match c return State * (thrown + Resp c) with
    | FileList _ directory path => (s, api_list api directory path)
    | FileRead _ directory path => (s, api_read api directory path)
    end.

End Skills.

(** ** Deleting a template (App.tsx, [deleteTemplate]) *)

Module TemplateStore.

Import Templates.

(** The signals [deleteTemplate] reads or writes. *)
Record State := {
  templates : list WorkspaceTemplate;
  globalTemplatesLoaded : bool;
  busy : bool;
  busyLabel : option jsstring;
  busyStartedAt : option Z;
  error : option jsstring;
  activeWorkspaceRoot : jsstring
}.

Definition setTemplates (f : list WorkspaceTemplate -> list WorkspaceTemplate)
    (s : State) : State :=
  {| templates := f (templates s); globalTemplatesLoaded := globalTemplatesLoaded s;
     busy := busy s; busyLabel := busyLabel s; busyStartedAt := busyStartedAt s;
     error := error s; activeWorkspaceRoot := activeWorkspaceRoot s |}.

Definition setGlobalTemplatesLoaded (v : bool) (s : State) : State :=
  {| templates := templates s; globalTemplatesLoaded := v;
     busy := busy s; busyLabel := busyLabel s; busyStartedAt := busyStartedAt s;
     error := error s; activeWorkspaceRoot := activeWorkspaceRoot s |}.

Definition setBusyState (b : bool) (label : option jsstring) (startedAt : option Z)
    (s : State) : State :=
  {| templates := templates s; globalTemplatesLoaded := globalTemplatesLoaded s;
     busy := b; busyLabel := label; busyStartedAt := startedAt;
     error := error s; activeWorkspaceRoot := activeWorkspaceRoot s |}.

Definition setError (v : option jsstring) (s : State) : State :=
  {| templates := templates s; globalTemplatesLoaded := globalTemplatesLoaded s;
     busy := busy s; busyLabel := busyLabel s; busyStartedAt := busyStartedAt s;
     error := v; activeWorkspaceRoot := activeWorkspaceRoot s |}.

(** The calls [deleteTemplate] awaits.  [loadWorkspaceTemplates] is the
    sibling function of the application; what it does to the signals is
    left to the world. *)
Inductive Call :=
| WorkspaceTemplateDelete (workspacePath templateId : jsstring)
| LoadWorkspaceTemplates (workspaceRoot : jsstring) (quiet : bool).

Definition Resp (c : Call) : Type := unit.

Definition hasId (templateId : jsstring) (t : WorkspaceTemplate) : bool :=
  eqb (id t) templateId.

Section WithBuiltins.
Context `{Utils}.

(** The [finally] block. *)
Definition settle (s : State) : proc State Call Resp :=
  Done (setBusyState false None None s).

Definition deleteFailed (e : thrown) (s : State) : proc State Call Resp :=
  settle (setError (Some (errorMessage e)) s).

(** [now] is the reading of [Date.now()] at the call. *)
Definition deleteTemplate (isTauriRuntime : bool) (now : Z) (templateId : jsstring)
    (s : State) : proc State Call Resp :=
  match scope <$> List.find (hasId templateId) (templates s) with
  | Some WorkspaceScope =>
      if negb isTauriRuntime then Done s
      else
        let workspaceRoot := trim (activeWorkspaceRoot s) in
        if negb (truthy workspaceRoot) then Done s
        else
          let s1 := setError None
                      (setBusyState true (Some (lit "Deleting template")) (Some now) s) in
          Await s1 (WorkspaceTemplateDelete workspaceRoot templateId)
            (fun s2 r =>
               match r with
               | inl e => deleteFailed e s2
               | inr _ =>
                   Await s2 (LoadWorkspaceTemplates workspaceRoot true)
                     (fun s3 r' =>
                        match r' with
                        | inl e => deleteFailed e s3
                        | inr _ => settle s3
                        end)
               end)
  | _ =>
      Done (setGlobalTemplatesLoaded true
              (setTemplates (List.filter (fun t => negb (hasId templateId t))) s))
  end.

End WithBuiltins.

End TemplateStore.

(** ** Choosing a model (App.tsx, [applyModelSelection]) *)

Module ModelPicker.

Inductive Target := SessionTarget | DefaultTarget.

(** The signals of the prompt, and the two of the picker. *)
Record State := {
  core : Prompt.State;
  modelPickerTarget : Target;
  modelPickerOpen : bool
}.

Definition setDefaultModel (v : ModelRef) (p : Prompt.State) : Prompt.State :=
  {| Prompt.client := Prompt.client p;
     Prompt.selectedSessionId := Prompt.selectedSessionId p;
     Prompt.prompt := Prompt.prompt p;
     Prompt.lastPromptSent := Prompt.lastPromptSent p;
     Prompt.busy := Prompt.busy p;
     Prompt.busyLabel := Prompt.busyLabel p;
     Prompt.busyStartedAt := Prompt.busyStartedAt p;
     Prompt.error := Prompt.error p;
     Prompt.sessionModelById := Prompt.sessionModelById p;
     Prompt.sessionModelOverrideById := Prompt.sessionModelOverrideById p;
     Prompt.defaultModel := v;
     Prompt.modelVariant := Prompt.modelVariant p;
     Prompt.lastUserModel := Prompt.lastUserModel p;
     Prompt.activeWorkspaceRoot := Prompt.activeWorkspaceRoot p |}.

Definition setCore (f : Prompt.State -> Prompt.State) (s : State) : State :=
  {| core := f (core s); modelPickerTarget := modelPickerTarget s;
     modelPickerOpen := modelPickerOpen s |}.

Definition setModelPickerOpen (v : bool) (s : State) : State :=
  {| core := core s; modelPickerTarget := modelPickerTarget s; modelPickerOpen := v |}.

Definition applyModelSelection (next : ModelRef) (s : State) : State :=
  match modelPickerTarget s with
  | DefaultTarget => setModelPickerOpen false (setCore (setDefaultModel next) s)
  | SessionTarget =>
      match Prompt.selectedSessionId (core s) with
      | None => setModelPickerOpen false s
      | Some id =>
          if negb (truthy id) then setModelPickerOpen false s
          else
            setModelPickerOpen false
              (setCore (Prompt.setSessionModelOverrideById (insert id next)) s)
      end
  end.

(** A world in which no other handler runs while a call of [sendPrompt] is
    pending, and calls settle as [settles] says. *)
Definition quietWorld (settles : Prompt.Call -> thrown + unit)
    : world Prompt.State Prompt.Call Prompt.Resp :=
  fun c s => (s, settles c).

End ModelPicker.

(** ** Sessions that are running *)

Module Runs.

(** [anyActiveRuns], over the two signals it reads. *)
Definition anyActive (sessions : list Reset.Session)
    (sessionStatusById : gmap (list N) (list N)) : bool :=
  existsb (fun x =>
             match sessionStatusById !! Reset.session_id x with
             | Some status => eqb status (lit "running") || eqb status (lit "retry")
             | None => false
             end)
          sessions.

(** The mode of the application: ["host"] or ["client"]. *)
Inductive Mode := HostMode | ClientMode.

Definition isHost (mode : option Mode) : bool :=
  match mode with Some HostMode => true | _ => false end.

End Runs.

(** ** The reset modal (App.tsx, the [canReset] property of [ResetModal]) *)

Module ResetModal.

Import Reset.

Section WithBuiltins.
Context `{Unicode}.

(** [!resetModalBusy() && !anyActiveRuns()
     && resetModalText().trim().toUpperCase() === "RESET"] *)
Definition canReset (s : State) : bool :=
  negb (resetModalBusy s) && negb (anyActiveRuns s)
  && eqb (toUpperCase (trim (resetModalText s))) (lit "RESET").

End WithBuiltins.

End ResetModal.

(** ** Checking for updates (App.tsx, [checkForUpdates],
       [installUpdateAndRestart]) *)

Module UpdateCheck.

Import Updater.

(** What [updaterEnvironment] reports. *)
Record UpdaterEnvironment := {
  env_supported : bool;
  env_reason : option jsstring
}.

(** The signals of the updater, and those [anyActiveRuns] reads. *)
Record State := {
  base : Updater.State;
  updateEnv : option UpdaterEnvironment;
  sessions : list Reset.Session;
  sessionStatusById : gmap (list N) (list N)
}.

Definition setBase (f : Updater.State -> Updater.State) (s : State) : State :=
  {| base := f (base s); updateEnv := updateEnv s; sessions := sessions s;
     sessionStatusById := sessionStatusById s |}.

Definition setPendingUpdate (v : option PendingUpdate) (u : Updater.State)
    : Updater.State :=
  {| pendingUpdate := v; updateStatus := updateStatus u; error := error u |}.

Definition setStatus (v : UpdateStatus) : State -> State :=
  setBase (setUpdateStatus (fun _ => v)).

(** The environment does not rule updates out. *)
Definition supported (s : State) : Prop :=
  forall env, updateEnv s = Some env -> env_supported env = true.

(** The update that [check] found: the handle and the fields read of
    it. *)
Record FoundUpdate := {
  found_handle : UpdateHandle;
  found_version : jsstring;
  found_date : option jsstring;
  found_body : option json
}.

Inductive Call :=
| Check (timeout : Z)
| Install (update : UpdateHandle)
| Close (update : UpdateHandle)
| Relaunch.

Definition Resp (c : Call) : Type :=
  match c with
  | Check _ => option FoundUpdate          (* [null] is [None] *)
  | _ => unit
  end.

(** [typeof update.body === "string" ? update.body : undefined] *)
Definition notesOf (update : FoundUpdate) : option jsstring :=
  match found_body update with
  | Some (JStr body) => Some body
  | _ => None
  end.

Section WithBuiltins.
Context `{Utils}.

(** [startedAt] and [checkedAt] are the readings of [Date.now()] before
    and after the check. *)
Definition checkForUpdates (isTauriRuntime : bool) (quiet : bool)
    (startedAt checkedAt : Z) (s : State) : proc State Call Resp :=
  if negb isTauriRuntime then Done s
  else
    let unsupported :=
      match updateEnv s with
      | Some env => if negb (env_supported env) then Some env else None
      | None => None
      end in
    match unsupported with
    | Some env =>
        if negb quiet then
          Done (setStatus
                  (Failed
                     (match updateStatus (base s) with
                      | Idle lastCheckedAt => lastCheckedAt
                      | _ => None
                      end)
                     (default (lit "Updates are not supported in this environment.")
                              (env_reason env))) s)
        else Done s
    | None =>
        let prev := updateStatus (base s) in
        let s1 := setStatus (Checking startedAt) s in
        Await s1 (Check 8000)
          (fun s2 r =>
             match r with
             | inr None =>
                 Done (setStatus (Idle (Some checkedAt))
                         (setBase (setPendingUpdate None) s2))
             | inr (Some update) =>
                 let notes := notesOf update in
                 Done (setStatus
                         (Available checkedAt (found_version update)
                                    (found_date update) notes)
                         (setBase
                            (setPendingUpdate
                               (Some {| pending_update := found_handle update;
                                        pending_version := found_version update;
                                        pending_notes := notes |})) s2))
             | inl e =>
                 let message := errorMessage e in
                 if quiet then Done (setStatus prev s2)
                 else Done (setStatus (Failed None message)
                              (setBase (setPendingUpdate None) s2))
             end)
    end.

Definition installFailed (e : thrown) (s : State) : proc State Call Resp :=
  Done (setStatus (Failed None (errorMessage e)) s).

Definition installUpdateAndRestart (s : State) : proc State Call Resp :=
  match pendingUpdate (base s) with
  | None => Done s
  | Some pending =>
      if Runs.anyActive (sessions s) (sessionStatusById s) then
        Done (setBase (Updater.setError
                         (Some (lit "Stop active runs before installing an update."))) s)
      else
        let s1 := setBase (Updater.setError None) s in
        Await s1 (Install (pending_update pending))
          (fun s2 r =>
             match r with
             | inl e => installFailed e s2
             | inr _ =>
                 Await s2 (Close (pending_update pending))
                   (fun s3 r' =>
                      match r' with
                      | inl e => installFailed e s3
                      | inr _ =>
                          Await s3 Relaunch
                            (fun s4 r'' =>
                               match r'' with
                               | inl e => installFailed e s4
                               | inr _ => Done s4
                               end)
                      end)
             end)
  end.

End WithBuiltins.

(** A world in which no other handler runs while a call is pending, and
    calls settle as [settles] says. *)
Definition quietWorld (settles : forall c : Call, thrown + Resp c)
    : world State Call Resp :=
  fun c s => (s, settles c).

End UpdateCheck.

(** ** Reloading the engine (App.tsx, [canReloadEngine],
       [reloadEngineInstance]) *)

Module Reload.

Import Runs.

(** The signals the reload reads or writes.  The providers are kept as
    the values the engine returns. *)
Record State := {
  client : option Client;
  mode : option Mode;
  reloadRequired : bool;
  reloadReasons : list Extensions.ReloadReason;
  reloadBusy : bool;
  reloadError : option jsstring;
  sessions : list Reset.Session;
  sessionStatusById : gmap (list N) (list N);
  providers : list json;
  providerDefaults : json;
  providerConnectedIds : list jsstring
}.

Definition setReload (required : bool) (reasons : list Extensions.ReloadReason)
    (s : State) : State :=
  {| client := client s; mode := mode s; reloadRequired := required;
     reloadReasons := reasons; reloadBusy := reloadBusy s;
     reloadError := reloadError s; sessions := sessions s;
     sessionStatusById := sessionStatusById s; providers := providers s;
     providerDefaults := providerDefaults s;
     providerConnectedIds := providerConnectedIds s |}.

Definition setReloadBusy (v : bool) (s : State) : State :=
  {| client := client s; mode := mode s; reloadRequired := reloadRequired s;
     reloadReasons := reloadReasons s; reloadBusy := v;
     reloadError := reloadError s; sessions := sessions s;
     sessionStatusById := sessionStatusById s; providers := providers s;
     providerDefaults := providerDefaults s;
     providerConnectedIds := providerConnectedIds s |}.

Definition setReloadError (v : option jsstring) (s : State) : State :=
  {| client := client s; mode := mode s; reloadRequired := reloadRequired s;
     reloadReasons := reloadReasons s; reloadBusy := reloadBusy s;
     reloadError := v; sessions := sessions s;
     sessionStatusById := sessionStatusById s; providers := providers s;
     providerDefaults := providerDefaults s;
     providerConnectedIds := providerConnectedIds s |}.

Definition setProviders (all : list json) (defaults : json) (connected : list jsstring)
    (s : State) : State :=
  {| client := client s; mode := mode s; reloadRequired := reloadRequired s;
     reloadReasons := reloadReasons s; reloadBusy := reloadBusy s;
     reloadError := reloadError s; sessions := sessions s;
     sessionStatusById := sessionStatusById s; providers := all;
     providerDefaults := defaults; providerConnectedIds := connected |}.

Definition clearReloadRequired (s : State) : State :=
  setReloadError None (setReload false [] s).

(** The memo [canReloadEngine]. *)
Definition canReloadEngine (s : State) : bool :=
  if negb (reloadRequired s) then false
  else if negb (bool_decide (is_Some (client s))) then false
  else if reloadBusy s then false
  else if anyActive (sessions s) (sessionStatusById s) then false
  else if negb (isHost (mode s)) then false
  else true.

(** What [provider.list] and [config.providers] return. *)
Record ProviderList := {
  list_all : list json;
  list_default : json;
  list_connected : list jsstring
}.

Record ProviderConfig := {
  config_providers : list json;
  config_default : json
}.

Inductive Call :=
| Dispose (c : Client)
| WaitForHealthy (c : Client) (timeoutMs : Z)
| ListProviders (c : Client)
| ConfigProviders (c : Client)
| RefreshPlugins
| RefreshSkills.

Definition Resp (c : Call) : Type :=
  match c with
  | ListProviders _ => ProviderList
  | ConfigProviders _ => ProviderConfig
  | _ => unit
  end.

Section WithBuiltins.
Context `{Utils}.

(** The [finally] block. *)
Definition settle (s : State) : proc State Call Resp := Done (setReloadBusy false s).

Definition reloadFailed (e : thrown) (s : State) : proc State Call Resp :=
  settle (setReloadError (Some (errorMessage e)) s).

(** From [refreshPlugins()] on; the failures of the two refreshes are
    caught and dropped. *)
Definition refreshAndClear (s : State) : proc State Call Resp :=
  Await s RefreshPlugins
    (fun s' _ =>
       Await s' RefreshSkills
         (fun s'' _ => settle (clearReloadRequired s''))).

Definition reloadEngineInstance (s : State) : proc State Call Resp :=
  match client s with
  | None => Done s
  | Some c =>
      if negb (isHost (mode s)) then
        Done (setReloadError (Some (lit "Reload is only available in Host mode.")) s)
      else if anyActive (sessions s) (sessionStatusById s) then
        Done (setReloadError
                (Some (lit "A run is in progress. Stop it before reloading the engine."))
                s)
      else
        let s1 := setReloadError None (setReloadBusy true s) in
        Await s1 (Dispose c)
          (fun s2 r =>
             match r with
             | inl e => reloadFailed e s2
             | inr _ =>
                 Await s2 (WaitForHealthy c 12000)
                   (fun s3 r' =>
                      match r' with
                      | inl e => reloadFailed e s3
                      | inr _ =>
                          Await s3 (ListProviders c)
                            (fun s4 listed =>
                               match listed with
                               | inr l =>
                                   refreshAndClear
                                     (setProviders (list_all l) (list_default l)
                                                   (list_connected l) s4)
                               | inl _ =>
                                   Await s4 (ConfigProviders c)
                                     (fun s5 configured =>
                                        match configured with
                                        | inr cfg =>
                                            refreshAndClear
                                              (setProviders (config_providers cfg)
                                                            (config_default cfg) [] s5)
                                        | inl _ =>
                                            refreshAndClear
                                              (setProviders [] (JObj []) [] s5)
                                        end)
                               end)
                      end)
             end)
  end.

End WithBuiltins.

(** A world in which no other handler runs while a call is pending, and
    calls settle as [settles] says. *)
Definition quietWorld (settles : forall c : Call, thrown + Resp c)
    : world State Call Resp :=
  fun c s => (s, settles c).

End Reload.

(** ** Opening an artifact (views/SessionView.tsx, [handleOpenArtifact]) *)

Module OpenArtifact.

Import SessionView.

Record State := { artifactToast : option jsstring }.

Definition setArtifactToast (v : option jsstring) (s : State) : State :=
  {| artifactToast := v |}.

(** The dynamic import of the opener plugin, and its two functions. *)
Inductive Call :=
| ImportOpener
| OpenPath (path : jsstring)
| RevealItemInDir (path : jsstring).

Definition Resp (c : Call) : Type := unit.

Definition artifactActionToast (isWindowsPlatform : bool) : jsstring :=
  if isWindowsPlatform then lit "Opened in default app."
  else lit "Revealed in file manager.".

Definition openFailed (e : thrown) (s : State) : proc State Call Resp :=
  Done (setArtifactToast (Some (errorMessageOr (lit "Could not open artifact.") e)) s).

Definition handleOpenArtifact (isTauriRuntime isWindowsPlatform : bool)
    (workspace : WorkspaceDisplay) (artifact : ArtifactItem) (s : State)
    : proc State Call Resp :=
  match resolveArtifactPath workspace artifact with
  | None => Done (setArtifactToast (Some (lit "Artifact path missing.")) s)
  | Some resolvedPath =>
      if negb (truthy resolvedPath) then
        Done (setArtifactToast (Some (lit "Artifact path missing.")) s)
      else if negb isTauriRuntime then
        Done (setArtifactToast
                (Some (lit "Open is only available in the desktop app.")) s)
      else
        Await s ImportOpener
          (fun s' r =>
             match r with
             | inl e => openFailed e s'
             | inr _ =>
                 Await s' (if isWindowsPlatform then OpenPath resolvedPath
                           else RevealItemInDir resolvedPath)
                   (fun s'' r' =>
                      match r' with
                      | inl e => openFailed e s''
                      | inr _ =>
                          Done (setArtifactToast
                                  (Some (artifactActionToast isWindowsPlatform)) s'')
                      end)
             end)
  end.

End OpenArtifact.

(** ** Installing a package (app/extensions.ts, [installFromOpenPackage],
       [useCuratedPackage]) *)

Module OpenPackage.

Import Runs.

(** [String(e)] of the JavaScript engine, for a thrown value. *)
Class Coercion := {
  stringOfThrown : thrown -> jsstring
}.

(** The result of the package installer. *)
Record ExecResult := {
  exec_ok : bool;
  exec_status : Z;
  exec_stdout : jsstring;
  exec_stderr : jsstring
}.

(** The signals of the store that the installation reads or writes, the
    accessors and setters it is given, and the signals
    [markReloadRequired] writes (in [reload]). *)
Record State := {
  mode : option Mode;
  openPackageSource : jsstring;
  skillsStatus : option jsstring;
  busy : bool;
  error : option jsstring;
  reload : Extensions.State
}.

Definition setOpenPackageSource (v : jsstring) (s : State) : State :=
  {| mode := mode s; openPackageSource := v; skillsStatus := skillsStatus s;
     busy := busy s; error := error s; reload := reload s |}.

Definition setSkillsStatus (v : option jsstring) (s : State) : State :=
  {| mode := mode s; openPackageSource := openPackageSource s; skillsStatus := v;
     busy := busy s; error := error s; reload := reload s |}.

Definition setBusy (v : bool) (s : State) : State :=
  {| mode := mode s; openPackageSource := openPackageSource s;
     skillsStatus := skillsStatus s; busy := v; error := error s; reload := reload s |}.

Definition setError (v : option jsstring) (s : State) : State :=
  {| mode := mode s; openPackageSource := openPackageSource s;
     skillsStatus := skillsStatus s; busy := busy s; error := v; reload := reload s |}.

Definition setReload (f : Extensions.State -> Extensions.State) (s : State) : State :=
  {| mode := mode s; openPackageSource := openPackageSource s;
     skillsStatus := skillsStatus s; busy := busy s; error := error s;
     reload := f (reload s) |}.

(** [refreshSkills] is the sibling function of the store; what it does to
    the signals is left to the world. *)
Inductive Call :=
| OpkgInstall (targetDir pkg : jsstring)
| RefreshSkills.

Definition Resp (c : Call) : Type :=
  match c with
  | OpkgInstall _ _ => ExecResult
  | RefreshSkills => unit
  end.

(** A package of the curated list, as far as it is read. *)
Record CuratedPackage := { pkg_source : jsstring; pkg_installable : bool }.

(** The installation can start: host mode in the desktop runtime, a
    project folder and a package source. *)
Definition ready (isTauriRuntime : bool) (sourceOverride : option jsstring) (s : State)
    : Prop :=
  isHost (mode s) = true /\ isTauriRuntime = true
  /\ trim (Extensions.projectDir (reload s)) <> []
  /\ trim (default (openPackageSource s) sourceOverride) <> [].

(** [a || b] on strings *)
Definition orElse (a b : jsstring) : jsstring := if truthy a then a else b.

Section WithBuiltins.
Context `{NumberFormat} `{Coercion}.

(** The [finally] block. *)
Definition settle (s : State) : proc State Call Resp := Done (setBusy false s).

(** [e instanceof Error ? e.message : String(e)] *)
Definition installFailed (e : thrown) (s : State) : proc State Call Resp :=
  settle (setError (Some (match e with
                          | ThrownError m => m
                          | ThrownOther _ => stringOfThrown e
                          end)) s).

(** [now] is the reading of [Date.now()] in [markReloadRequired]. *)
Definition installFromOpenPackage (isTauriRuntime : bool) (now : Z)
    (sourceOverride : option jsstring) (s : State) : proc State Call Resp :=
  if negb (isHost (mode s)) || negb isTauriRuntime then
    Done (setError (Some (lit "OpenPackage installs are only available in Host mode.")) s)
  else
    let targetDir := trim (Extensions.projectDir (reload s)) in
    let pkg := trim (default (openPackageSource s) sourceOverride) in
    if negb (truthy targetDir) then
      Done (setError (Some (lit "Pick a project folder first.")) s)
    else if negb (truthy pkg) then
      Done (setError
              (Some (lit "Enter an OpenPackage source (e.g. github:anthropics/claude-code)."))
              s)
    else
      let s1 := setSkillsStatus (Some (lit "Installing OpenPackage..."))
                  (setError None (setBusy true (setOpenPackageSource pkg s))) in
      Await s1 (OpkgInstall targetDir pkg)
        (fun s2 r =>
           match r with
           | inl e => installFailed e s2
           | inr result =>
               let s3 :=
                 if negb (exec_ok result) then
                   setSkillsStatus
                     (Some (orElse (exec_stderr result)
                              (orElse (exec_stdout result)
                                 (lit "opkg failed (" ++ numberToString (exec_status result)
                                  ++ lit ")")))) s2
                 else
                   setReload (Extensions.markReloadRequired now Extensions.ReloadSkills)
                     (setSkillsStatus
                        (Some (orElse (exec_stdout result) (lit "Installed."))) s2) in
               Await s3 RefreshSkills
                 (fun s4 r' =>
                    match r' with
                    | inl e => installFailed e s4
                    | inr _ => settle s4
                    end)
           end).

Definition useCuratedPackage (isTauriRuntime : bool) (now : Z) (pkg : CuratedPackage)
    (s : State) : proc State Call Resp :=
  if pkg_installable pkg then
    installFromOpenPackage isTauriRuntime now (Some (pkg_source pkg)) s
  else
    Done (setSkillsStatus
            (Some (lit "This is a curated list, not an OpenPackage yet. Copy the link or watch the PRD for planned registry search integration."))
            (setOpenPackageSource (pkg_source pkg) s)).

End WithBuiltins.

(** A world in which no other handler runs while a call is pending, and
    calls settle as [settles] says. *)
Definition quietWorld (settles : forall c : Call, thrown + Resp c)
    : world State Call Resp :=
  fun c s => (s, settles c).

End OpenPackage.

(** ** Worlds for the plugin store *)

Module ExtensionsWorld.

Import Extensions.

(** A world in which no other handler runs while a call of the store is
    pending, and calls settle as [settles] says. *)
Definition quietWorld (settles : forall c : Call, thrown + Resp c)
    : world State Call Resp :=
  fun c s => (s, settles c).

(** The calls that write the configuration. *)
Definition isWrite (c : Call) : bool :=
  match c with WriteOpencodeConfig _ _ _ => true | _ => false end.

(** Some write of the configuration was made and succeeded. *)
Definition written (settles : forall c : Call, thrown + Resp c) (calls : list Call)
    : Prop :=
  exists scope targetDir content,
    WriteOpencodeConfig scope targetDir content ∈ calls
    /\ settles (WriteOpencodeConfig scope targetDir content) = inr tt.

(** The reload signals and the input field of [final] are those of [s]. *)
Definition untouched (s final : State) : Prop :=
  reloadRequired final = reloadRequired s
  /\ reloadReasons final = reloadReasons s
  /\ reloadLastTriggeredAt final = reloadLastTriggeredAt s
  /\ pluginInput final = pluginInput s.

(** A reload is required because of the plugins since [now], and the input
    field is cleared if the name was typed into it. *)
Definition marked (now : Z) (pluginNameOverride : option jsstring) (s final : State)
    : Prop :=
  reloadRequired final = true
  /\ ReloadPlugins ∈ reloadReasons final
  /\ reloadLastTriggeredAt final = Some now
  /\ pluginInput final = match pluginNameOverride with
                         | Some _ => pluginInput s
                         | None => []
                         end.

End ExtensionsWorld.

(** ** Counting the bytes of a download *)

Module DownloadCount.

Import Updater UpdaterSpec.

(** The bytes announced by the "Progress" events of a list of events. *)
Definition announced (events : list json) : Z :=
  foldr Z.add 0 (List.map chunkLengthOf (List.filter (eventIs "Progress") events)).

End DownloadCount.

(** ** What the jsonc-parser package promises of [applyEdits] *)

Module JsoncContract.

(** One edit applied: the range of the edit is replaced by its content. *)
Definition applyEdit (text : jsstring) (e : Edit) : jsstring :=
  take (edit_offset e) text ++ edit_content e
  ++ drop (edit_offset e + edit_length e) text.

(** The edits lie between [from] and [upto], each at or after the end of
    the one before. *)
Fixpoint inOrder (from : nat) (edits : list Edit) (upto : nat) : Prop :=
  match edits with
  | [] => (from <= upto)%nat
  | e :: rest =>
      (from <= edit_offset e)%nat
      /\ inOrder (edit_offset e + edit_length e) rest upto
  end.

(** The package's [applyEdits] sorts the edits by offset, refuses edits
    that overlap or run past the end of the text, and applies the others
    from the last to the first.  It is not part of the application: this is
    its contract, assumed where a statement says so. *)
Definition appliesEdits `{Jsonc} : Prop :=
  forall raw edits updated,
    applyEdits raw edits = inr updated ->
    exists ordered,
      Permutation ordered edits
      /\ inOrder 0 ordered (length raw)
      /\ updated = foldr (fun e text => applyEdit text e) raw ordered.

(** The text from [from] on, with the ranges of the edits replaced by
    their contents and every character outside the ranges kept. *)
Fixpoint spliced (raw : jsstring) (from : nat) (edits : list Edit) : jsstring :=
  match edits with
  | [] => drop from raw
  | e :: rest =>
      take (edit_offset e - from) (drop from raw) ++ edit_content e
      ++ spliced raw (edit_offset e + edit_length e) rest
  end.

End JsoncContract.

(** ** More concrete states and inputs for the examples *)

Module MoreExamples.

(** A question of the user and the answer of the assistant. *)
Definition question : SessionProgress.Message :=
  {| SessionProgress.msg_role := Some (lit "user");
     SessionProgress.msg_id := Some (lit "msg_1");
     SessionProgress.msg_parts :=
       [ {| SessionProgress.part_type := lit "text";
            SessionProgress.part_text := Some (lit "hello") |} ] |}.

Definition answer : SessionProgress.Message :=
  {| SessionProgress.msg_role := Some (lit "assistant");
     SessionProgress.msg_id := Some (lit "msg_2");
     SessionProgress.msg_parts :=
       [ {| SessionProgress.part_type := lit "tool";
            SessionProgress.part_text := None |};
         {| SessionProgress.part_type := lit "text";
            SessionProgress.part_text := Some (lit " hi ") |} ] |}.

(** A skills directory with two skills and a file; only the first skill
    has a readable [SKILL.md]. *)
Definition skillNodes : list Templates.FileNode :=
  [ {| Templates.node_name := lit "pdf";
       Templates.node_path := lit ".opencode/skill/pdf";
       Templates.node_type := Templates.DirectoryType;
       Templates.node_ignored := false |};
    {| Templates.node_name := lit "README.md";
       Templates.node_path := lit ".opencode/skill/README.md";
       Templates.node_type := Templates.FileType;
       Templates.node_ignored := false |};
    {| Templates.node_name := lit "draft";
       Templates.node_path := lit ".opencode/skill/draft";
       Templates.node_type := Templates.DirectoryType;
       Templates.node_ignored := false |} ].

Definition skillDoc : jsstring :=
  lit "# PDF" ++ [10%N] ++ [10%N] ++ lit "  Reads PDF files. " ++ [10%N]
  ++ lit "## Usage" ++ [10%N] ++ lit "Ask for a summary." ++ [10%N] ++ lit "More.".

Definition skillApi : Templates.FileApi :=
  {| Templates.api_list := fun directory path =>
       if eqb path (lit ".opencode/skill") then inr skillNodes
       else inl (ThrownError (lit "not found"));
     Templates.api_read := fun directory path =>
       if eqb path (lit ".opencode/skill/pdf/SKILL.md")
       then inr (Templates.TextContent skillDoc)
       else inl (ThrownError (lit "not found")) |}.

Definition browsingSkills : Skills.State :=
  {| Skills.client := Some Examples.engine;
     Skills.activeWorkspaceRoot := lit "/w";
     Skills.skills := [];
     Skills.skillsStatus := Some (lit "stale") |}.

Definition templateShelf : TemplateStore.State :=
  {| TemplateStore.templates :=
       [ Examples.staleTemplate; Examples.globalTemplate; Examples.staleTemplate ];
     TemplateStore.globalTemplatesLoaded := false;
     TemplateStore.busy := false;
     TemplateStore.busyLabel := None;
     TemplateStore.busyStartedAt := None;
     TemplateStore.error := None;
     TemplateStore.activeWorkspaceRoot := lit "/w" |}.

Definition sonnet : ModelRef :=
  {| providerID := lit "anthropic"; modelID := lit "sonnet" |}.

Definition pickingForSession : ModelPicker.State :=
  {| ModelPicker.core := Examples.typing;
     ModelPicker.modelPickerTarget := ModelPicker.SessionTarget;
     ModelPicker.modelPickerOpen := true |}.


Definition updateFound : UpdateCheck.FoundUpdate :=
  {| UpdateCheck.found_handle := {| Updater.handle_id := 7 |};
     UpdateCheck.found_version := lit "1.3.0";
     UpdateCheck.found_date := None;
     UpdateCheck.found_body := Some (JStr (lit "Fixes.")) |}.

Definition idleUpdater : UpdateCheck.State :=
  {| UpdateCheck.base :=
       {| Updater.pendingUpdate := None;
          Updater.updateStatus := Updater.Idle (Some 500);
          Updater.error := None |};
     UpdateCheck.updateEnv :=
       Some {| UpdateCheck.env_supported := true; UpdateCheck.env_reason := None |};
     UpdateCheck.sessions := [ {| Reset.session_id := lit "s1" |} ];
     UpdateCheck.sessionStatusById := {[ lit "s1" := lit "idle" ]} |}.

(** The check finds an update and every other call succeeds. *)
Definition updateAvailable : forall c : UpdateCheck.Call, thrown + UpdateCheck.Resp c :=
  fun c =>
    match c return thrown + UpdateCheck.Resp c with
    | UpdateCheck.Check _ => inr (Some updateFound)
    | UpdateCheck.Install _ => inr tt
    | UpdateCheck.Close _ => inr tt
    | UpdateCheck.Relaunch => inr tt
    end.

Definition reloadPending : Reload.State :=
  {| Reload.client := Some Examples.engine;
     Reload.mode := Some Runs.HostMode;
     Reload.reloadRequired := true;
     Reload.reloadReasons := [Extensions.ReloadPlugins];
     Reload.reloadBusy := false;
     Reload.reloadError := Some (lit "old");
     Reload.sessions := [ {| Reset.session_id := lit "s1" |} ];
     Reload.sessionStatusById := {[ lit "s1" := lit "idle" ]};
     Reload.providers := [];
     Reload.providerDefaults := JObj [];
     Reload.providerConnectedIds := [] |}.

(** The engine restarts, but neither way of listing the providers works. *)
Definition providersUnavailable : forall c : Reload.Call, thrown + Reload.Resp c :=
  fun c =>
    match c return thrown + Reload.Resp c with
    | Reload.ListProviders _ => inl (ThrownError (lit "no providers"))
    | Reload.ConfigProviders _ => inl (ThrownError (lit "no config"))
    | Reload.Dispose _ => inr tt
    | Reload.WaitForHealthy _ _ => inr tt
    | Reload.RefreshPlugins => inr tt
    | Reload.RefreshSkills => inr tt
    end.

Definition report : SessionView.ArtifactItem :=
  {| SessionView.artifact_path := Some (lit "out/report.md") |}.

Definition workspaceW : SessionView.WorkspaceDisplay :=
  {| SessionView.workspace_path := Some (lit "/w/") |}.

Definition installing : OpenPackage.State :=
  {| OpenPackage.mode := Some Runs.HostMode;
     OpenPackage.openPackageSource := lit " github:acme/skills ";
     OpenPackage.skillsStatus := None;
     OpenPackage.busy := false;
     OpenPackage.error := Some (lit "old");
     OpenPackage.reload := Examples.managingPlugins |}.

Definition installSucceeds : forall c : OpenPackage.Call, thrown + OpenPackage.Resp c :=
  fun c =>
    match c return thrown + OpenPackage.Resp c with
    | OpenPackage.OpkgInstall _ _ =>
        inr {| OpenPackage.exec_ok := true; OpenPackage.exec_status := 0;
               OpenPackage.exec_stdout := []; OpenPackage.exec_stderr := [] |}
    | OpenPackage.RefreshSkills => inr tt
    end.

(** [String(e)] left as a fixed text. *)
Definition plainCoercion : OpenPackage.Coercion :=
  {| OpenPackage.stringOfThrown := fun _ => lit "[thrown]" |}.


(** Every call of the plugin store succeeds; the configuration exists. *)
Definition configSettles : forall c : Extensions.Call, thrown + Extensions.Resp c :=
  fun c =>
    match c return thrown + Extensions.Resp c with
    | Extensions.ReadOpencodeConfig _ _ => inr Examples.existingConfig
    | Extensions.WriteOpencodeConfig _ _ _ => inr tt
    | Extensions.RefreshPlugins _ => inr tt
    end.

(** An editor that knows one shape: the last value is inserted before the
    bracket that closes the text, and one edit is applied at a time. *)
Definition insertingJsonc : Jsonc :=
  {| modify := fun raw path value options =>
       inr [ {| edit_offset := length raw - 2; edit_length := 0;
                edit_content := lit ", " ++ List.last value [] |} ];
     applyEdits := fun raw edits =>
       match edits with
       | [] => inr raw
       | [e] =>
           if (edit_offset e + edit_length e <=? length raw)%nat
           then inr (JsoncContract.applyEdit raw e)
           else inl (ThrownError (lit "Overlapping edit"))
       | _ => inl (ThrownError (lit "one edit at a time"))
       end |}.

(** The update was found, downloaded and is ready: the check time is part
    of a status that is not idle. *)
Definition checkedWhileReady : Prefs.Prefs :=
  Prefs.setUpdateStatus (Updater.Ready 1700000000000 (lit "1.3.0") None)
                        Examples.tunedPrefs.

(** A variant with white space around it. *)
Definition paddedVariant : Prefs.Prefs :=
  Prefs.setModelVariant (Some (lit " high ")) Examples.tunedPrefs.

(** A check time before the epoch. *)
Definition checkedBeforeEpoch : Prefs.Prefs :=
  Prefs.setUpdateStatus (Updater.Idle (Some (-5))) Examples.tunedPrefs.

(** The preferences after the effects stored [p] in an empty storage and
    the application was mounted afresh. *)
Definition remounted (p : Prefs.Prefs) : Prefs.Prefs :=
  (Prefs.remount (H := Reference.plainUtils) (H0 := Reference.decimal)
                 [] true (Updater.Idle None)
                 (Prefs.persist (H := Reference.plainUtils) (H0 := Reference.decimal)
                                (H1 := Reference.plainText) p ∅)).1.

(** The state of [Examples.typing], with another session selected. *)
Definition sessionNamed (id : jsstring) : Prompt.State :=
  {| Prompt.client := Some Examples.engine;
     Prompt.selectedSessionId := Some id;
     Prompt.prompt := lit "  hello  ";
     Prompt.lastPromptSent := [];
     Prompt.busy := false;
     Prompt.busyLabel := None;
     Prompt.busyStartedAt := None;
     Prompt.error := None;
     Prompt.sessionModelById := ∅;
     Prompt.sessionModelOverrideById := ∅;
     Prompt.defaultModel := DEFAULT_MODEL;
     Prompt.modelVariant := None;
     Prompt.lastUserModel := None;
     Prompt.activeWorkspaceRoot := lit "/w" |}.

End MoreExamples.

(** * Properties *)

(** ** Strings *)

Module JSFacts.

Lemma eqb_spec (s t : jsstring) : eqb s t = true <-> s = t.
Proof. unfold eqb. apply bool_decide_eq_true. Qed.

Lemma eqb_refl (s : jsstring) : eqb s s = true.
Proof. by apply eqb_spec. Qed.

Lemma eqb_neq (s t : jsstring) : eqb s t = false <-> s <> t.
Proof. unfold eqb. apply bool_decide_eq_false. Qed.

Lemma truthy_spec (s : jsstring) : truthy s = true <-> s <> [].
Proof. destruct s; simpl; split; congruence. Qed.

Lemma truthy_false (s : jsstring) : truthy s = false <-> s = [].
Proof. destruct s; simpl; split; congruence. Qed.

Lemma startsWith_spec (p s : jsstring) :
  startsWith p s = true <-> exists rest, s = p ++ rest.
Proof.
  revert s. induction p as [|a p IH]; intros s; simpl.
  - split; eauto.
  - destruct s as [|b s]; simpl.
    + split; [discriminate | intros [rest Hrest]; discriminate].
    + rewrite andb_true_iff, N.eqb_eq, IH. split.
      * intros [-> [rest ->]]. eauto.
      * intros [rest Hrest]. injection Hrest as -> ->. eauto.
Qed.

(** What [dropWhile] removes satisfies the class, and what it leaves does
    not begin with a character of the class. *)
Lemma dropWhile_split {A} (p : A -> bool) (l : list A) :
  exists removed, l = removed ++ dropWhile p l
                  /\ Forall (fun x => p x = true) removed.
Proof.
  induction l as [|x l (removed & Heq & Hall)]; simpl.
  - exists []. auto.
  - destruct (p x) eqn:Hp.
    + exists (x :: removed). simpl. rewrite <- Heq. auto.
    + exists []. auto.
Qed.

Lemma dropWhile_head {A} (p : A -> bool) (l : list A) (x : A) (rest : list A) :
  dropWhile p l = x :: rest -> p x = false.
Proof.
  induction l as [|y l IH]; simpl; [discriminate|].
  destruct (p y) eqn:Hp; [exact IH|]. intros [= -> _]. exact Hp.
Qed.

Lemma stripLeading_spec (p : N -> bool) (s : jsstring) :
  exists removed, s = removed ++ stripLeading p s
                  /\ Forall (fun c => p c = true) removed
                  /\ forall c rest, stripLeading p s = c :: rest -> p c = false.
Proof.
  destruct (dropWhile_split p s) as (removed & Heq & Hall).
  exists removed. repeat split; auto. intros c rest. apply dropWhile_head.
Qed.

Lemma stripTrailing_spec (p : N -> bool) (s : jsstring) :
  exists removed, s = stripTrailing p s ++ removed
                  /\ Forall (fun c => p c = true) removed
                  /\ forall front c, stripTrailing p s = front ++ [c] -> p c = false.
Proof.
  unfold stripTrailing.
  destruct (dropWhile_split p (rev s)) as (removed & Heq & Hall).
  exists (rev removed). repeat split.
  - rewrite <- rev_app_distr, <- Heq. by rewrite rev_involutive.
  - by apply Forall_rev.
  - intros front c Hfront. apply (f_equal (@rev N)) in Hfront.
    rewrite rev_involutive, rev_unit in Hfront.
    by apply dropWhile_head in Hfront.
Qed.

Lemma includesChar_spec (c : N) (s : jsstring) : includesChar c s = true <-> c ∈ s.
Proof.
  unfold includesChar. rewrite existsb_exists. split.
  - intros (x & Hin & Heq). apply N.eqb_eq in Heq. subst. by apply list_elem_of_In.
  - intros Hin. exists c. split; [by apply list_elem_of_In | apply N.eqb_refl].
Qed.

End JSFacts.

Import JSFacts.

(** ** MCP server names *)

Module McpFacts.

Import Mcp.

Lemma isNameChar_spec (c : N) :
  isNameChar c = true <->
  isAsciiLetter c = true \/ isDigit c = true \/ c = 45%N \/ c = 95%N.
Proof.
  unfold isNameChar. rewrite !orb_true_iff, !N.eqb_eq. tauto.
Qed.

Lemma nameChars_spec (t : jsstring) :
  forallb isNameChar t = true <->
  Forall (fun c => isAsciiLetter c = true \/ isDigit c = true
                   \/ c = 45%N \/ c = 95%N) t.
Proof.
  rewrite forallb_forall, List.Forall_forall.
  split; intros Hall c Hin; apply isNameChar_spec, Hall, Hin.
Qed.

Lemma startsWithDash_spec (t : jsstring) :
  startsWith (lit "-") t = true <-> exists rest, t = 45%N :: rest.
Proof. apply (startsWith_spec (lit "-")). Qed.

(** C9. [validateMcpServerName] returns the trimmed name exactly when the
    trimmed name is non-empty, does not start with ['-'] and consists only
    of ASCII letters, digits, ['-'] and ['_']; exactly in the other cases it
    throws. *)
Theorem validateMcpServerName_returns_iff (name : jsstring) :
  (validateMcpServerName name = inr (trim name) <-> wellFormedName (trim name))
  /\ ((exists message, validateMcpServerName name = inl message)
      <-> ~ wellFormedName (trim name))
  /\ (forall result, validateMcpServerName name = inr result -> result = trim name).
Proof.
  unfold validateMcpServerName, wellFormedName, nameRegexTest.
  destruct (truthy (trim name)) eqn:Hne; cbn [negb andb].
  2: { apply truthy_false in Hne. rewrite Hne.
       split; [|split]; [split | split |]; try discriminate; eauto.
       - intros (Hnil & _). congruence.
       - intros _ (Hnil & _). congruence. }
  pose proof (proj1 (truthy_spec _) Hne) as Hnonempty.
  destruct (startsWith (lit "-") (trim name)) eqn:Hdash; cbn [negb andb].
  { apply startsWithDash_spec in Hdash as [rest Hrest].
    split; [|split]; [split | split |]; try discriminate; eauto.
    - intros (_ & Hno & _). by destruct (Hno rest).
    - intros _ (_ & Hno & _). by destruct (Hno rest). }
  assert (Hnodash : forall rest, trim name <> 45%N :: rest).
  { intros rest Heq. assert (startsWith (lit "-") (trim name) = true) as Hs
      by (apply startsWithDash_spec; eauto). congruence. }
  destruct (forallb isNameChar (trim name)) eqn:Hchars; cbn [negb andb].
  - apply nameChars_spec in Hchars.
    split; [|split]; [split | split |]; auto.
    + intros [message Hm]. discriminate.
    + intros Hnot. destruct Hnot. auto.
    + congruence.
  - assert (Hbad : ~ Forall (fun c => isAsciiLetter c = true \/ isDigit c = true
                                      \/ c = 45%N \/ c = 95%N) (trim name)).
    { intros Hall. apply nameChars_spec in Hall. congruence. }
    split; [|split]; [split | split |]; try discriminate; eauto.
    + intros (_ & _ & Hall). by destruct Hbad.
    + intros _ (_ & _ & Hall). by destruct Hbad.
Qed.

Example validateMcpServerName_accepts :
  validateMcpServerName (lit "  my-server_1 ") = inr (lit "my-server_1").
Proof. reflexivity. Qed.

Example validateMcpServerName_rejects_dash :
  validateMcpServerName (lit " -x") = inl (lit "server_name must not start with '-'").
Proof. reflexivity. Qed.

Example validateMcpServerName_rejects_space :
  validateMcpServerName (lit "a b")
  = inl (lit "server_name must be alphanumeric with '-' or '_'").
Proof. reflexivity. Qed.

End McpFacts.

(** ** Artifact paths *)

Module SessionViewFacts.

Import SessionView.

Lemma isSeparator_spec (c : N) : isSeparator c = true <-> slashOrBackslash c.
Proof.
  unfold isSeparator, slashOrBackslash. rewrite orb_true_iff, !N.eqb_eq. tauto.
Qed.

Lemma isSeparator_false (c : N) : isSeparator c = false -> ~ slashOrBackslash c.
Proof. intros Hc Hs. apply isSeparator_spec in Hs. congruence. Qed.

Lemma absoluteRegexTest_spec (p : jsstring) :
  absoluteRegexTest p = true <-> isAbsolute p.
Proof.
  unfold absoluteRegexTest, isAbsolute, startsWithDrive, startsWithHome, startsWithSlash.
  rewrite !orb_true_iff. split.
  - intros [[Hd | Hh] | Hs].
    + destruct p as [|d [|colon [|c rest]]]; try discriminate.
      apply andb_true_iff in Hd as [Hd Hc]. apply andb_true_iff in Hd as [Hd Hcolon].
      apply N.eqb_eq in Hcolon as ->. apply isSeparator_spec in Hc.
      left. eauto 8.
    + destruct p as [|t [|c rest]]; try discriminate.
      apply andb_true_iff in Hh as [Ht Hc].
      apply N.eqb_eq in Ht as ->. apply isSeparator_spec in Hc.
      right. left. eauto.
    + destruct p as [|c rest]; try discriminate.
      apply N.eqb_eq in Hs as ->. right. right. eauto.
  - intros [(d & c & rest & -> & Hd & Hc) | [(c & rest & -> & Hc) | (rest & ->)]].
    + left. left. apply isSeparator_spec in Hc. rewrite Hd, Hc. reflexivity.
    + left. right. apply isSeparator_spec in Hc. rewrite Hc. reflexivity.
    + right. reflexivity.
Qed.

Lemma stripTrailing_separators (s : jsstring) :
  withoutTrailingSeparators s (stripTrailing isSeparator s).
Proof.
  destruct (stripTrailing_spec isSeparator s) as (seps & Heq & Hall & Hlast).
  exists seps. repeat split; auto.
  - eapply Forall_impl; [exact Hall|]. intros c. apply isSeparator_spec.
  - intros front c Hfront. eapply isSeparator_false, Hlast, Hfront.
Qed.

Lemma stripLeading_separators (s : jsstring) :
  withoutLeadingSeparators s (stripLeading isSeparator s).
Proof.
  destruct (stripLeading_spec isSeparator s) as (seps & Heq & Hall & Hfirst).
  exists seps. repeat split; auto.
  - eapply Forall_impl; [exact Hall|]. intros c. apply isSeparator_spec.
  - intros c rest Hbody. eapply isSeparator_false, Hfirst, Hbody.
Qed.

(** C8. [resolveArtifactPath] returns [null] when the artifact's trimmed
    path is empty; the trimmed path itself when it is absolute, or when the
    trimmed workspace root is empty; and otherwise the root without its
    trailing separators, one separator (a backslash when the root contains
    one, a slash otherwise) and the path without its leading separators. *)
Theorem resolveArtifactPath_cases (workspace : WorkspaceDisplay) (artifact : ArtifactItem) :
  let raw := trimmedPathOf artifact in
  let root := trimmedRootOf workspace in
  let result := resolveArtifactPath workspace artifact in
  (raw = [] /\ result = None)
  \/ (raw <> [] /\ isAbsolute raw /\ result = Some raw)
  \/ (raw <> [] /\ ~ isAbsolute raw /\ root = [] /\ result = Some raw)
  \/ (raw <> [] /\ ~ isAbsolute raw /\ root <> [] /\
      exists rootBody separator pathBody,
        withoutTrailingSeparators root rootBody
        /\ withoutLeadingSeparators raw pathBody
        /\ (((92%N ∈ root) /\ separator = lit "\") \/ ((92%N ∉ root) /\ separator = lit "/"))
        /\ result = Some (rootBody ++ separator ++ pathBody)).
Proof.
  unfold trimmedPathOf, trimmedRootOf, resolveArtifactPath.
  destruct (artifact_path artifact) as [path|]; cbn [fmap option_fmap option_map default from_option id];
    [|left; auto].
  destruct (truthy (trim path)) eqn:Hraw; cbn [negb].
  2: { left. apply truthy_false in Hraw. auto. }
  apply truthy_spec in Hraw. right.
  destruct (absoluteRegexTest (trim path)) eqn:Habs.
  { left. apply absoluteRegexTest_spec in Habs. auto. }
  assert (Hrel : ~ isAbsolute (trim path)).
  { intros Ha. apply absoluteRegexTest_spec in Ha. congruence. }
  right.
  destruct (workspace_path workspace) as [wpath|];
    cbn [fmap option_fmap option_map default from_option id]; [|left; auto].
  destruct (truthy (trim wpath)) eqn:Hroot; cbn [negb].
  2: { left. apply truthy_false in Hroot. auto. }
  apply truthy_spec in Hroot. right.
  repeat split; auto.
  exists (stripTrailing isSeparator (trim wpath)),
         (if includesChar 92 (trim wpath) then lit "\" else lit "/"),
         (stripLeading isSeparator (trim path)).
  repeat split.
  - apply stripTrailing_separators.
  - apply stripLeading_separators.
  - destruct (includesChar 92 (trim wpath)) eqn:Hinc.
    + left. apply includesChar_spec in Hinc. auto.
    + right. split; [|reflexivity]. intros Hin.
      apply includesChar_spec in Hin. congruence.
Qed.

Example resolveArtifactPath_windows :
  resolveArtifactPath {| workspace_path := Some (lit "C:\work\") |}
                      {| artifact_path := Some (lit " \\out/a.txt ") |}
  = Some (lit "C:\work\out/a.txt").
Proof. reflexivity. Qed.

Example resolveArtifactPath_home :
  resolveArtifactPath {| workspace_path := Some (lit "/w") |}
                      {| artifact_path := Some (lit "~/notes.md") |}
  = Some (lit "~/notes.md").
Proof. reflexivity. Qed.

Example resolveArtifactPath_missing :
  resolveArtifactPath {| workspace_path := Some (lit "/w") |}
                      {| artifact_path := Some (lit "   ") |}
  = None.
Proof. reflexivity. Qed.

End SessionViewFacts.

(** ** Clearing the local storage *)

Module StorageFacts.

Lemma removeItem_lookup (k key : jsstring) (st : storage) :
  removeItem k st !! key = if decide (k = key) then None else st !! key.
Proof. unfold removeItem. apply lookup_delete. Qed.

(** The loop over the keys removes a key when it has the prefix and was
    listed, and touches nothing else. *)
Lemma sweep_lookup (prefix : jsstring) (listed : list jsstring) (st : storage)
    (key : jsstring) :
  foldl (fun acc k => if startsWith prefix k then removeItem k acc else acc)
        st listed !! key
  = if startsWith prefix key && bool_decide (key ∈ listed) then None else st !! key.
Proof.
  revert st. induction listed as [|k listed IH]; intros st; simpl.
  - by rewrite andb_false_r.
  - rewrite IH. clear IH.
    assert (Hstep : (if startsWith prefix k then removeItem k st else st) !! key
                    = if startsWith prefix key && bool_decide (key = k)
                      then None else st !! key).
    { destruct (startsWith prefix k) eqn:Hk.
      - rewrite removeItem_lookup. destruct (decide (k = key)) as [Heq|Hne].
        + subst key. rewrite Hk. by rewrite bool_decide_eq_true_2.
        + rewrite bool_decide_eq_false_2 by congruence. by rewrite andb_false_r.
      - destruct (bool_decide (key = k)) eqn:Heq.
        + apply bool_decide_eq_true in Heq. subst key. by rewrite Hk.
        + by rewrite andb_false_r. }
    rewrite Hstep.
    assert (Hmem : bool_decide (key ∈ k :: listed)
                   = bool_decide (key = k) || bool_decide (key ∈ listed)).
    { destruct (bool_decide (key = k)) eqn:Heq; simpl.
      - apply bool_decide_eq_true in Heq. apply bool_decide_eq_true_2.
        subst key. apply list_elem_of_here.
      - apply bool_decide_eq_false in Heq. apply bool_decide_ext.
        rewrite elem_of_cons. tauto. }
    rewrite Hmem.
    destruct (startsWith prefix key), (bool_decide (key = k)),
             (bool_decide (key ∈ listed)); reflexivity.
Qed.

Lemma keys_spec (st : storage) (key : jsstring) :
  key ∈ keys st <-> is_Some (st !! key).
Proof.
  unfold keys. rewrite list_elem_of_fmap. split.
  - intros ([k v] & -> & Hin). apply elem_of_map_to_list in Hin. eauto.
  - intros [v Hv]. exists (key, v). split; [done|]. by apply elem_of_map_to_list.
Qed.

(** C10. [clearOpenworkLocalStorage] removes exactly the entries whose key
    starts with ["openwork."] and the legacy key ["openwork_mode_pref"];
    every other entry keeps its value. *)
Theorem clearOpenworkLocalStorage_lookup (st : storage) (key : jsstring) :
  clearOpenworkLocalStorage st !! key
  = if startsWith (lit "openwork.") key || eqb key (lit "openwork_mode_pref")
    then None else st !! key.
Proof.
  unfold clearOpenworkLocalStorage. rewrite removeItem_lookup.
  destruct (eqb key (lit "openwork_mode_pref")) eqn:Hlegacy.
  - apply eqb_spec in Hlegacy. subst key. rewrite decide_True by done.
    by rewrite orb_true_r.
  - apply eqb_neq in Hlegacy. rewrite decide_False by congruence.
    rewrite orb_false_r, sweep_lookup.
    destruct (startsWith (lit "openwork.") key); [|done]. simpl.
    destruct (bool_decide (key ∈ keys st)) eqn:Hin; [done|].
    apply bool_decide_eq_false in Hin. rewrite keys_spec in Hin.
    by apply eq_None_not_Some in Hin.
Qed.

Example clearOpenworkLocalStorage_example :
  clearOpenworkLocalStorage
    (<[lit "openwork.baseUrl" := lit "http://h"]>
       (<[lit "openwork_mode_pref" := lit "host"]>
          (<[lit "theme" := lit "dark"]> ∅)))
  = <[lit "theme" := lit "dark"]> ∅.
Proof. vm_compute. reflexivity. Qed.

End StorageFacts.

(** ** Replying to a permission request *)

Module PermissionFacts.

Import Permission.

(** C5. [respondPermissionAndRemember] does what [respondPermission] does
    and nothing else: from every state, for every request and reply, both
    leave the same state and settle the same way. *)
Theorem respondPermissionAndRemember_is_respondPermission
    {St : Type} (respondPermission : jsstring -> Reply -> St -> outcome)
    (requestID : jsstring) (reply : Reply) (s : St) :
  respondPermissionAndRemember respondPermission requestID reply s
  = respondPermission requestID reply s.
Proof.
  unfold respondPermissionAndRemember, awaitAndReturn.
  destruct (respondPermission requestID reply s) as [s' [e | []]]; reflexivity.
Qed.

End PermissionFacts.

(** ** Resetting the application *)

Module ResetFacts.

Import Reset ResetSpec.

Lemma anyActiveRuns_spec (s : State) : anyActiveRuns s = true <-> activeRunExists s.
Proof.
  unfold anyActiveRuns, activeRunExists. rewrite existsb_exists. split.
  - intros (x & Hin & Hx). exists x.
    destruct (sessionStatusById s !! session_id x) as [status|]; [|discriminate].
    exists status. split; [by apply list_elem_of_In|]. split; [done|].
    apply orb_true_iff in Hx as [Hx | Hx]; apply eqb_spec in Hx; auto.
  - intros (x & status & Hin & Hlook & Hst). exists x.
    split; [by apply list_elem_of_In|]. rewrite Hlook.
    apply orb_true_iff. destruct Hst as [-> | ->]; [left | right]; apply eqb_refl.
Qed.

Lemma anyActiveRuns_false (s : State) : anyActiveRuns s = false <-> ~ activeRunExists s.
Proof.
  rewrite <- anyActiveRuns_spec. destruct (anyActiveRuns s); split; congruence.
Qed.

Section WithBuiltins.
Context `{Unicode} `{Utils}.

Lemma confirmationGiven_spec (s : State) : confirmationGiven s = true <-> confirmed s.
Proof. unfold confirmationGiven, confirmed. apply eqb_spec. Qed.

Lemma confirmationGiven_false (s : State) : confirmationGiven s = false <-> ~ confirmed s.
Proof. unfold confirmationGiven, confirmed. apply eqb_neq. Qed.

(** C4, as amended.  [confirmReset] goes on to the native reset, the
    clearing of the local storage and the relaunch or reload only when the
    modal is not busy, no session is running or retrying and the
    confirmation text, trimmed and uppercased, is ["RESET"].  In every
    other case it returns at once, issues no call and leaves the local
    storage as it is: it changes nothing, except that with active runs and
    a modal that is not busy it sets the error message. *)
Theorem confirmReset_guarded (isTauriRuntime : bool) (s : State) :
  (* the modal is busy: nothing happens *)
  (resetModalBusy s = true -> confirmReset isTauriRuntime s = Done s)
  (* active runs, modal not busy: only the error message is set *)
  /\ (resetModalBusy s = false -> activeRunExists s ->
      confirmReset isTauriRuntime s = Done (setError (Some stopActiveRuns) s)
      /\ exists final,
           confirmReset isTauriRuntime s = Done final
           /\ error final = Some stopActiveRuns
           /\ resetModalBusy final = false
           /\ resetModalText final = resetModalText s
           /\ resetModalMode final = resetModalMode s
           /\ sessions final = sessions s
           /\ sessionStatusById final = sessionStatusById s
           /\ localStorage final = localStorage s)
  (* the text is not the confirmation: nothing happens *)
  /\ (resetModalBusy s = false -> ~ activeRunExists s -> ~ confirmed s ->
      confirmReset isTauriRuntime s = Done s)
  (* whenever one of the three conditions fails, nothing is cleared *)
  /\ (~ (resetModalBusy s = false /\ ~ activeRunExists s /\ confirmed s) ->
      forall w, trace w (confirmReset isTauriRuntime s) = []
                /\ localStorage (run w (confirmReset isTauriRuntime s)) = localStorage s
                /\ resetModalBusy (run w (confirmReset isTauriRuntime s))
                   = resetModalBusy s)
  (* all three hold: the reset starts, and the storage is cleared once the
     native reset has succeeded *)
  /\ (resetModalBusy s = false -> ~ activeRunExists s -> confirmed s ->
      let started := setError None (setResetModalBusy true s) in
      (resetModalBusy started = true /\ error started = None
       /\ localStorage started = localStorage s)
      /\ if isTauriRuntime then
           exists k, confirmReset isTauriRuntime s
                     = Await started (ResetOpenworkState (resetModalMode s)) k
                     /\ forall s', k s' (inr tt)
                          = clearAndRestart true s'
         else confirmReset isTauriRuntime s = clearAndRestart false started).
Proof.
  unfold confirmReset.
  destruct (resetModalBusy s) eqn:Hbusy.
  { split; [done|]. split; [discriminate|]. split; [discriminate|].
    split; [|discriminate]. intros _ w. done. }
  destruct (anyActiveRuns s) eqn:Hactive.
  { apply anyActiveRuns_spec in Hactive.
    split; [discriminate|]. split.
    - intros _ _. split; [reflexivity|]. eexists. split; [reflexivity|].
      cbn. done.
    - split; [tauto|]. split; [|tauto]. intros _ w. done. }
  apply anyActiveRuns_false in Hactive.
  destruct (confirmationGiven s) eqn:Hconf; cbn [negb].
  - apply confirmationGiven_spec in Hconf.
    split; [discriminate|]. split; [tauto|]. split; [tauto|]. split; [tauto|].
    intros _ _ _. cbv zeta. split; [done|].
    destruct isTauriRuntime; [|reflexivity].
    eexists. split; [reflexivity|]. reflexivity.
  - apply confirmationGiven_false in Hconf.
    split; [discriminate|]. split; [tauto|]. split; [done|]. split; [|tauto].
    intros _ w. done.
Qed.

End WithBuiltins.

(** C4, as stated, fails: with an active run and a busy modal the error
    message is not set. *)
Lemma confirmReset_busy_sets_no_error :
  ~ (forall (U : Unicode) (Ut : Utils) (isTauriRuntime : bool) (s : State),
       activeRunExists s ->
       exists final, confirmReset isTauriRuntime s = Done final
                     /\ error final = Some stopActiveRuns).
Proof.
  intros Hclaim.
  destruct (Hclaim Reference.asciiUnicode Reference.plainUtils true Examples.busyWithActiveRun)
    as (final & Hrun & Herr).
  - exists {| session_id := lit "s1" |}, (lit "running").
    split; [apply list_elem_of_here|]. split; [reflexivity | by left].
  - injection Hrun as <-. discriminate Herr.
Qed.

Lemma confirmReset_guarded_witness :
  exists k,
    confirmReset (H := Reference.asciiUnicode) (H0 := Reference.plainUtils)
                 true Examples.readyToReset
    = Await (setError None (setResetModalBusy true Examples.readyToReset))
            (ResetOpenworkState ResetAll) k.
Proof.
  destruct (confirmReset_guarded (H := Reference.asciiUnicode)
              (H0 := Reference.plainUtils) true Examples.readyToReset)
    as (_ & _ & _ & _ & Hstart).
  destruct Hstart as (_ & k & Hk & _).
  - reflexivity.
  - apply anyActiveRuns_false. reflexivity.
  - reflexivity.
  - exists k. exact Hk.
Defined.

Example confirmReset_runs :
  let final := run Examples.resetSucceeds
                 (confirmReset (H := Reference.asciiUnicode) (H0 := Reference.plainUtils)
                               true Examples.readyToReset) in
  localStorage final = {[ lit "theme" := lit "dark" ]}
  /\ trace Examples.resetSucceeds
           (confirmReset (H := Reference.asciiUnicode) (H0 := Reference.plainUtils)
                         true Examples.readyToReset)
     = [ResetOpenworkState ResetAll; Relaunch].
Proof. vm_compute. split; reflexivity. Qed.

End ResetFacts.

(** ** Sending a prompt *)

Module PromptFacts.

Import Prompt PromptSpec.

Section WithBuiltins.
Context `{Utils} `{ObjectPrototype}.

(** Whatever state the [finally] block starts from, it leaves the
    application idle. *)
Lemma settle_idle (w : world State Call Resp) (s : State) :
  let final := run w (settle s) in
  busy final = false /\ busyLabel final = None /\ busyStartedAt final = None.
Proof. simpl. auto. Qed.

Lemma sendPrompt_not_ready (now : Z) (s : State) :
  ~ canSend s -> sendPrompt now s = Done s.
Proof.
  unfold canSend, sendPrompt. intros Hnot.
  destruct (client s) as [c|]; [|reflexivity].
  destruct (selectedSessionId s) as [sessionID|]; [|reflexivity].
  destruct (truthy sessionID) eqn:Hid; cbn [negb]; [|reflexivity].
  destruct (truthy (trim (prompt s))) eqn:Hcontent; cbn [negb]; [|reflexivity].
  destruct Hnot. apply truthy_spec in Hid, Hcontent. eauto.
Qed.

(** C6. With a connected client, a selected session and a prompt that is
    not blank, [sendPrompt] suspends at [session.promptAsync] having
    already recorded the trimmed prompt as [lastPromptSent], cleared the
    input and set [busy] with the label ["Running"]; however the call
    settles, and whatever state the application is in by then, it ends with
    [busy] false and the label and start time cleared.  Otherwise it
    returns at once and changes nothing. *)
Theorem sendPrompt_optimistic (now : Z) (s : State) :
  (canSend s ->
   exists c sessionID suspendedAt k,
     client s = Some c /\ selectedSessionId s = Some sessionID
     /\ sendPrompt now s
        = Await suspendedAt
            (PromptAsync c {| req_sessionID := sessionID;
                              req_model := selectedSessionModel s;
                              req_variant := modelVariant s;
                              req_text := trim (prompt s) |}) k
     /\ lastPromptSent suspendedAt = trim (prompt s)
     /\ prompt suspendedAt = []
     /\ busy suspendedAt = true
     /\ busyLabel suspendedAt = Some (lit "Running")
     /\ busyStartedAt suspendedAt = Some now
     /\ forall (w : world State Call Resp) (resumedAt : State) (r : thrown + unit),
          let final := run w (k resumedAt r) in
          busy final = false /\ busyLabel final = None /\ busyStartedAt final = None)
  /\ (~ canSend s -> sendPrompt now s = Done s).
Proof.
  split; [|apply sendPrompt_not_ready].
  intros ([c Hc] & (sessionID & Hsel & Hid) & Hcontent).
  unfold sendPrompt. rewrite Hc, Hsel.
  apply truthy_spec in Hid, Hcontent. rewrite Hid, Hcontent. cbn [negb].
  eexists c, sessionID, _, _.
  do 2 (split; [reflexivity|]).
  split; [unfold selectedSessionModel; cbn; reflexivity|].
  do 5 (split; [reflexivity|]).
  intros w resumedAt r. destruct r as [e | []].
  - apply settle_idle.
  - cbn [run]. destruct (w _ _) as [s5 r5]. apply settle_idle.
Qed.

End WithBuiltins.

Lemma sendPrompt_optimistic_witness :
  exists suspendedAt k,
    sendPrompt (H := Reference.plainUtils) (H0 := Reference.standardPrototype) 42 Examples.typing
    = Await suspendedAt
        (PromptAsync Examples.engine
           {| req_sessionID := lit "ses_1"; req_model := Model DEFAULT_MODEL;
              req_variant := None; req_text := lit "hello" |}) k
    /\ busy suspendedAt = true /\ prompt suspendedAt = [].
Proof.
  destruct (proj1 (sendPrompt_optimistic (H := Reference.plainUtils) (H0 := Reference.standardPrototype) 42 Examples.typing))
    as (c & sessionID & suspendedAt & k & Hc & Hid & Hrun & _ & Hprompt & Hbusy & _).
  - split; [by eexists|]. split; [|discriminate].
    eexists. split; [reflexivity | discriminate].
  - injection Hc as <-. injection Hid as <-.
    exists suspendedAt, k. split; [exact Hrun|]. split; [exact Hbusy | exact Hprompt].
Defined.

Example sendPrompt_example :
  exists k,
    sendPrompt (H := Reference.plainUtils) (H0 := Reference.standardPrototype) 42 Examples.typing
    = Await (setPrompt [] (setLastPromptSent (lit "hello")
               (setError None (setBusyStartedAt (Some 42)
                  (setBusyLabel (Some (lit "Running")) (setBusy true Examples.typing))))))
        (PromptAsync Examples.engine
           {| req_sessionID := lit "ses_1"; req_model := Model DEFAULT_MODEL;
              req_variant := None; req_text := lit "hello" |}) k.
Proof. eexists. reflexivity. Qed.

End PromptFacts.

(** ** Downloading an update *)

Module UpdaterFacts.

Import Updater UpdaterSpec.

(** The guard [record.data && typeof record.data.key === "number"] selects
    the objects that carry a number under the key. *)
Lemma dataNumber_contentLength (record : json) :
  dataNumber "contentLength" Some None record = contentLengthOf record.
Proof.
  unfold dataNumber, contentLengthOf, numberField.
  destruct (get "data" record) as [data|]; [|reflexivity].
  destruct data as [| b | n | str | items | fields]; cbn;
    try reflexivity; repeat case_match; reflexivity.
Qed.

Lemma dataNumber_chunkLength (record : json) :
  dataNumber "chunkLength" (fun n => n) 0 record = chunkLengthOf record.
Proof.
  unfold dataNumber, chunkLengthOf, numberField.
  destruct (get "data" record) as [data|]; [|reflexivity].
  destruct data as [| b | n | str | items | fields]; cbn;
    try reflexivity; repeat case_match; reflexivity.
Qed.

(** An event that has a name is an object. *)
Lemma eventIs_object (name : String.string) (record : json) :
  eventIs name record = true ->
  negb (truthyValue record) || negb (typeofObject record) = false.
Proof.
  unfold eventIs. destruct record; cbn; try discriminate. reflexivity.
Qed.

Lemma eventIs_Progress_not_Started (record : json) :
  eventIs "Progress" record = true -> eventIs "Started" record = false.
Proof.
  unfold eventIs. destruct (get "event" record) as [[| | | e | |]|]; try discriminate.
  intros He. apply eqb_spec in He. subst e. reflexivity.
Qed.

Lemma onDownloadEvent_not_downloading (event : json) (s : State) :
  ~ isDownloading (updateStatus s) -> onDownloadEvent event s = s.
Proof.
  unfold onDownloadEvent. intros Hnot.
  destruct (negb (truthyValue event) || negb (typeofObject event)); [reflexivity|].
  destruct s as [pending status err]. unfold setUpdateStatus. cbn in *.
  destruct status; cbn in *; try reflexivity. tauto.
Qed.

Lemma onDownloadEvent_started (record : json) (s : State)
    checked version total downloaded notes :
  updateStatus s = Downloading checked version total downloaded notes ->
  eventIs "Started" record = true ->
  updateStatus (onDownloadEvent record s)
  = Downloading checked version (contentLengthOf record) downloaded notes.
Proof.
  intros Hst Hev. unfold onDownloadEvent. rewrite (eventIs_object _ _ Hev).
  cbn. rewrite Hst. cbn. rewrite Hev. by rewrite dataNumber_contentLength.
Qed.

Lemma onDownloadEvent_progress (record : json) (s : State)
    checked version total downloaded notes :
  updateStatus s = Downloading checked version total downloaded notes ->
  eventIs "Progress" record = true ->
  updateStatus (onDownloadEvent record s)
  = Downloading checked version total (downloaded + chunkLengthOf record) notes.
Proof.
  intros Hst Hev. unfold onDownloadEvent. rewrite (eventIs_object _ _ Hev).
  cbn. rewrite Hst. cbn. rewrite (eventIs_Progress_not_Started _ Hev), Hev.
  unfold id. by rewrite <- dataNumber_chunkLength.
Qed.

(** One event moves the byte count by the chunk length of the event, or
    not at all. *)
Lemma onDownloadEvent_count (record : json) (s : State) (d : Z) :
  downloadedSoFar (updateStatus s) = Some d ->
  downloadedSoFar (updateStatus (onDownloadEvent record s)) = Some d
  \/ downloadedSoFar (updateStatus (onDownloadEvent record s))
     = Some (d + chunkLengthOf record).
Proof.
  intros Hd. unfold onDownloadEvent.
  destruct (negb (truthyValue record) || negb (typeofObject record)); [by left|].
  cbn. destruct (updateStatus s); try discriminate. cbn in *.
  injection Hd as ->.
  destruct (eventIs "Started" record); [by left|].
  destruct (eventIs "Progress" record); [|by left].
  right. cbn. unfold id. by rewrite <- dataNumber_chunkLength.
Qed.

Lemma deliver_monotone (events : list json) (s : State) (d : Z) :
  Forall (fun ev => 0 <= chunkLengthOf ev) events ->
  downloadedSoFar (updateStatus s) = Some d ->
  exists d', downloadedSoFar (updateStatus (deliver events s)) = Some d' /\ d <= d'.
Proof.
  unfold deliver. intros Hall. revert s d.
  induction Hall as [|ev events Hev _ IH]; intros s d Hd; simpl.
  - exists d. split; [done | lia].
  - destruct (onDownloadEvent_count ev s d Hd) as [Hsame | Hmore].
    + apply IH, Hsame.
    + destruct (IH _ _ Hmore) as (d' & Hd' & Hle). exists d'. split; [done | lia].
Qed.

Section WithBuiltins.
Context `{Utils}.

(** C7, as amended.  While the status is "downloading", a "Started" event
    sets [totalBytes] to the numeric [contentLength] of the event ([null]
    otherwise) and a "Progress" event adds its numeric [chunkLength] ([0]
    otherwise) to [downloadedBytes], so that [downloadedBytes] never
    decreases as long as no chunk length is negative; an event that arrives
    in another status changes nothing; when the download completes the
    status is "ready" with the version and notes of the pending update, and
    when it fails the status is "error" with the message of the failure. *)
Theorem downloadUpdate_progress :
  (forall record s checked version total downloaded notes,
     updateStatus s = Downloading checked version total downloaded notes ->
     (eventIs "Started" record = true ->
      updateStatus (onDownloadEvent record s)
      = Downloading checked version (contentLengthOf record) downloaded notes)
     /\ (eventIs "Progress" record = true ->
         updateStatus (onDownloadEvent record s)
         = Downloading checked version total (downloaded + chunkLengthOf record) notes))
  /\ (forall events s d,
        Forall (fun ev => 0 <= chunkLengthOf ev) events ->
        downloadedSoFar (updateStatus s) = Some d ->
        exists d', downloadedSoFar (updateStatus (deliver events s)) = Some d'
                   /\ d <= d')
  /\ (forall event s, ~ isDownloading (updateStatus s) -> onDownloadEvent event s = s)
  /\ (forall now s pending,
        pendingUpdate s = Some pending ->
        exists checked suspendedAt k,
          downloadUpdate now s
          = Await suspendedAt (Download (pending_update pending) onDownloadEvent) k
          /\ updateStatus suspendedAt
             = Downloading checked (pending_version pending) None 0
                           (pending_notes pending)
          /\ forall (w : world State Call Resp) (resumedAt : State),
               updateStatus (run w (k resumedAt (inr tt)))
               = Ready checked (pending_version pending) (pending_notes pending)
               /\ forall e,
                    updateStatus (run w (k resumedAt (inl e)))
                    = Failed (Some checked) (errorMessage e)).
Proof.
  split; [|split; [|split]].
  - intros record s checked version total downloaded notes Hst. split.
    + by apply (onDownloadEvent_started record s checked version total).
    + by apply onDownloadEvent_progress.
  - apply deliver_monotone.
  - apply onDownloadEvent_not_downloading.
  - intros now s pending Hp. unfold downloadUpdate. rewrite Hp.
    eexists _, _, _. split; [reflexivity|]. split; [reflexivity|].
    intros w resumedAt. split; [reflexivity|]. intros e. reflexivity.
Qed.

End WithBuiltins.

(** C7, as stated, fails: a "Progress" event whose chunk length is negative
    lowers [downloadedBytes]. *)
Lemma progress_can_decrease :
  ~ (forall (record : json) (s : State) (d d' : Z),
       downloadedSoFar (updateStatus s) = Some d ->
       downloadedSoFar (updateStatus (onDownloadEvent record s)) = Some d' ->
       d <= d').
Proof.
  intros Hclaim.
  specialize (Hclaim Examples.negativeChunk Examples.halfway 10 5 eq_refl eq_refl).
  lia.
Qed.

Lemma downloadUpdate_progress_witness :
  exists d,
    downloadedSoFar
      (updateStatus
         (deliver [ downloadEvent "Progress" [ (lit "chunkLength", JNum 120) ] ]
                  Examples.halfway)) = Some d
    /\ 10 <= d.
Proof.
  apply (proj1 (proj2 (downloadUpdate_progress (H := Reference.plainUtils)))).
  - repeat constructor. vm_compute. discriminate.
  - reflexivity.
Defined.

Example deliver_example :
  updateStatus
    (deliver [ downloadEvent "Started" [ (lit "contentLength", JNum 300) ];
               downloadEvent "Progress" [ (lit "chunkLength", JNum 120) ];
               JStr (lit "noise");
               downloadEvent "Progress" [ (lit "chunkLength", JStr (lit "7")) ];
               downloadEvent "Progress" [ (lit "chunkLength", JNum 30) ] ]
             Examples.halfway)
  = Downloading 1000 (lit "1.2.0") (Some 300) 160 None.
Proof. reflexivity. Qed.

End UpdaterFacts.

(** ** Workspace templates *)

Module TemplatesFacts.

Import Templates TemplatesSpec.

(** *** Sorting *)

Lemma insertByCreatedAt_perm (t : WorkspaceTemplate) (l : list WorkspaceTemplate) :
  Permutation (insertByCreatedAt t l) (t :: l).
Proof.
  induction l as [|u l IH]; simpl; [reflexivity|].
  destruct (createdAt t <? createdAt u); [|reflexivity].
  rewrite IH. apply perm_swap.
Qed.

Lemma sortByCreatedAtDesc_perm (l : list WorkspaceTemplate) :
  Permutation (sortByCreatedAtDesc l) l.
Proof.
  induction l as [|t l IH]; simpl; [reflexivity|].
  rewrite insertByCreatedAt_perm. by constructor.
Qed.

Lemma insertByCreatedAt_sorted (t : WorkspaceTemplate) (l : list WorkspaceTemplate) :
  newestFirst l -> newestFirst (insertByCreatedAt t l).
Proof.
  unfold newestFirst. induction 1 as [|u l Hsorted IH Hhead]; simpl.
  - repeat constructor.
  - destruct (createdAt t <? createdAt u) eqn:Hcmp.
    + apply Z.ltb_lt in Hcmp. constructor; [exact IH|].
      rewrite (insertByCreatedAt_perm t l). constructor; [lia | exact Hhead].
    + apply Z.ltb_ge in Hcmp. constructor.
      * by constructor.
      * constructor; [exact Hcmp|].
        eapply Forall_impl; [exact Hhead|]. simpl. intros v Hv. lia.
Qed.

Lemma sortByCreatedAtDesc_sorted (l : list WorkspaceTemplate) :
  newestFirst (sortByCreatedAtDesc l).
Proof.
  induction l as [|t l IH]; simpl; [constructor|].
  by apply insertByCreatedAt_sorted.
Qed.

(** *** File names *)

Lemma lower_json_length (ext : jsstring) :
  List.map asciiLower ext = lit ".json" -> length ext = 5%nat.
Proof.
  intros Heq. apply (f_equal (@length N)) in Heq.
  by rewrite length_map in Heq.
Qed.

Lemma stripJsonExtension_spec (name : jsstring) :
  baseName name (stripJsonExtension name).
Proof.
  unfold baseName, stripJsonExtension.
  destruct (eqb (List.map asciiLower (drop (length name - 5) name)) (lit ".json")) eqn:Hext.
  - left. apply eqb_spec in Hext. eexists. split; [|exact Hext].
    symmetry. apply take_drop.
  - right. split; [|reflexivity]. intros front ext -> Hlower.
    apply eqb_neq in Hext. apply Hext.
    pose proof (lower_json_length _ Hlower) as Hlen.
    rewrite length_app, Hlen.
    replace (length front + 5 - 5)%nat with (length front) by lia.
    by rewrite drop_app_length.
Qed.

Lemma baseName_unique (name base : jsstring) :
  baseName name base -> base = stripJsonExtension name.
Proof.
  intros Hbase. destruct (stripJsonExtension_spec name) as [(ext' & Hn' & Hl') | [Hno' ->]];
    destruct Hbase as [(ext & Hn & Hl) | [Hno ->]].
  - pose proof (lower_json_length _ Hl) as Hlen.
    pose proof (lower_json_length _ Hl') as Hlen'.
    rewrite Hn in Hn' at 1.
    apply app_inj_2 in Hn'; [tauto | lia].
  - by destruct (Hno _ _ Hn').
  - by destruct (Hno' _ _ Hn).
  - reflexivity.
Qed.

Section WithBuiltins.
Context `{Unicode} `{Utils}.

(** *** The files kept *)

Lemma jsonFilesOf_spec (nodes : list FileNode) (n : FileNode) :
  n ∈ jsonFilesOf nodes <->
  n ∈ nodes /\ node_type n = FileType /\ node_ignored n = false
  /\ endsWith (lit ".json") (toLowerCase (node_name n)) = true.
Proof.
  unfold jsonFilesOf. rewrite !list_elem_of_In, !filter_In, andb_true_iff.
  unfold isFileNode. destruct (node_type n), (node_ignored n); simpl; intuition congruence.
Qed.

(** The loop keeps a file exactly when it holds a template, and fills the
    fields that are missing with the defaults. *)
Lemma templateOfFile_spec (now : Z) (node : FileNode) (content : FileContent)
    (t : WorkspaceTemplate) :
  templateOfFile now node content = Some t <->
  exists parsed,
    holdsTemplate content parsed
    /\ t = {| id := default (stripJsonExtension (node_name node)) (stringAt "id" parsed);
              title := default (lit "Untitled") (stringAt "title" parsed);
              description := default [] (stringAt "description" parsed);
              prompt := default [] (stringAt "prompt" parsed);
              createdAt := default now (numberAt "createdAt" parsed);
              scope := WorkspaceScope |}.
Proof.
  assert (Hstr : forall key dflt v,
             stringField key dflt v = default dflt (stringAt key v)).
  { intros key dflt v. unfold stringField, stringAt.
    by destruct (get key v) as [[]|]. }
  assert (Hnum : forall key dflt v,
             numberField key (fun n => n) dflt v = default dflt (numberAt key v)).
  { intros key dflt v. unfold numberField, numberAt.
    by destruct (get key v) as [[]|]. }
  unfold templateOfFile, holdsTemplate. split.
  - destruct content as [text|]; [|discriminate].
    destruct (safeParseJson text) as [parsed|] eqn:Hparse; [|discriminate].
    destruct (truthyValue parsed); cbn [negb]; [|discriminate].
    destruct (truthy (trim (stringField "prompt" [] parsed))) eqn:Hprompt;
      cbn [negb]; [|discriminate].
    intros [= <-]. exists parsed. split.
    + exists text, (stringField "prompt" [] parsed).
      apply truthy_spec in Hprompt. repeat split; auto.
      unfold stringField in *. destruct (get "prompt" parsed) as [[]|]; try done.
    + rewrite !Hstr, Hnum. reflexivity.
  - intros (parsed & (text & promptText & -> & Hparse & Hget & Hblank) & ->).
    rewrite Hparse.
    assert (Htruthy : truthyValue parsed = true).
    { destruct parsed; try discriminate Hget. reflexivity. }
    rewrite Htruthy. cbn [negb].
    assert (Hfield : stringField "prompt" [] parsed = promptText).
    { unfold stringField. by rewrite Hget. }
    rewrite Hfield. apply truthy_spec in Hblank. rewrite Hblank. cbn [negb].
    rewrite <- Hfield, !Hstr, Hnum. reflexivity.
Qed.

Lemma templateOfFile_scope (now : Z) (node : FileNode) (content : FileContent)
    (t : WorkspaceTemplate) :
  templateOfFile now node content = Some t -> isWorkspace t = true.
Proof. intros Ht. apply templateOfFile_spec in Ht as (parsed & _ & ->). reflexivity. Qed.

Lemma loadedFrom_workspace api root clock i files :
  Forall (fun t => isWorkspace t = true) (loadedFrom api root clock i files).
Proof.
  revert i. induction files as [|node rest IH]; intros i; simpl; [constructor|].
  destruct (api_read api root (node_path node)) as [e|content]; [apply IH|].
  destruct (templateOfFile (clock i) node content) as [t|] eqn:Ht; [|apply IH].
  constructor; [|apply IH]. eapply templateOfFile_scope, Ht.
Qed.

(** *** The loop *)

Lemma run_readTemplates (api : FileApi) (c : Client) (root : jsstring)
    (clock : nat -> Z) finish fail (files : list FileNode) :
  Forall (fun n => exists content, api_read api root (node_path n) = inr content) files ->
  forall i loaded s,
    run (quietWorld api) (readTemplates c root clock i files loaded finish fail s)
    = run (quietWorld api) (finish (loaded ++ loadedFrom api root clock i files) s).
Proof.
  induction 1 as [|node rest [content Hread] _ IH]; intros i loaded s; simpl.
  - by rewrite app_nil_r.
  - rewrite Hread. simpl. rewrite IH.
    destruct (templateOfFile (clock i) node content) as [t|]; simpl; [|reflexivity].
    by rewrite <- app_assoc.
Qed.

Lemma filter_none {A} (f : A -> bool) (l : list A) :
  Forall (fun x => f x = false) l -> List.filter f l = [].
Proof.
  induction 1 as [|x l Hx _ IH]; simpl; [reflexivity|]. by rewrite Hx.
Qed.

Lemma filter_all {A} (f : A -> bool) (l : list A) :
  Forall (fun x => f x = true) l -> List.filter f l = l.
Proof.
  induction 1 as [|x l Hx _ IH]; simpl; [reflexivity|]. by rewrite Hx, IH.
Qed.

Lemma isGlobal_not_workspace (t : WorkspaceTemplate) : isGlobal t = negb (isWorkspace t).
Proof. unfold isGlobal, isWorkspace. by destruct (scope t). Qed.

(** C2. With a connected client and a workspace root that is not blank,
    when the listing of [.openwork/templates] and the reads of its JSON
    files succeed, [loadWorkspaceTemplates] keeps exactly the files that
    are not ignored, whose names end in [.json] in any case and whose text
    parses as JSON with a string [prompt] that is not blank; makes of each
    a workspace template with the defaults for [id], [title] and
    [description]; sorts them newest first; and puts them in the place of
    the workspace templates of the store, whose global templates stay. *)
Theorem loadWorkspaceTemplates_replaces
    (clock : nat -> Z) (options : option Options) (s : State)
    (c : Client) (api : FileApi) (nodes : list FileNode) :
  let root := trim (default (activeWorkspaceRoot s) (options ≫= opt_workspaceRoot)) in
  let final := run (quietWorld api) (loadWorkspaceTemplates clock options s) in
  let loaded := loadedFrom api root clock 0 (jsonFilesOf nodes) in
  client s = Some c ->
  root <> [] ->
  api_list api root (lit ".openwork/templates") = inr nodes ->
  Forall (fun n => exists content, api_read api root (node_path n) = inr content)
         (jsonFilesOf nodes) ->
  (* the files that are read *)
  (forall n, n ∈ jsonFilesOf nodes <->
             n ∈ nodes /\ node_type n = FileType /\ node_ignored n = false
             /\ endsWith (lit ".json") (toLowerCase (node_name n)) = true)
  (* the files that are kept, and the template made of each *)
  /\ (forall now node content t,
        templateOfFile now node content = Some t <->
        exists parsed base,
          holdsTemplate content parsed
          /\ baseName (node_name node) base
          /\ t = {| id := default base (stringAt "id" parsed);
                    title := default (lit "Untitled") (stringAt "title" parsed);
                    description := default [] (stringAt "description" parsed);
                    prompt := default [] (stringAt "prompt" parsed);
                    createdAt := default now (numberAt "createdAt" parsed);
                    scope := WorkspaceScope |})
  (* the store afterwards *)
  /\ templates final = sortByCreatedAtDesc loaded ++ List.filter isGlobal (templates s)
  /\ newestFirst (sortByCreatedAtDesc loaded)
  /\ Permutation (sortByCreatedAtDesc loaded) loaded
  /\ List.filter isWorkspace (templates final) = sortByCreatedAtDesc loaded
  /\ List.filter isGlobal (templates final) = List.filter isGlobal (templates s)
  /\ workspaceTemplatesLoaded final = true.
Proof.
  intros root final loaded Hclient Hroot Hlist Hreads.
  assert (Hfinal : final
            = setWorkspaceTemplatesLoaded true
                (setTemplates
                   (fun current => sortByCreatedAtDesc loaded
                                     ++ List.filter isGlobal current) s)).
  { subst final. unfold loadWorkspaceTemplates. rewrite Hclient.
    fold root. apply truthy_spec in Hroot. rewrite Hroot. cbn [negb run quietWorld].
    rewrite Hlist. rewrite run_readTemplates by exact Hreads. reflexivity. }
  assert (Hws : Forall (fun t => isWorkspace t = true) (sortByCreatedAtDesc loaded)).
  { rewrite (sortByCreatedAtDesc_perm loaded). apply loadedFrom_workspace. }
  split; [apply jsonFilesOf_spec|].
  split.
  { intros now node content t. rewrite templateOfFile_spec. split.
    - intros (parsed & Hholds & ->). exists parsed, (stripJsonExtension (node_name node)).
      split; [done|]. split; [apply stripJsonExtension_spec | reflexivity].
    - intros (parsed & base & Hholds & Hbase & ->). exists parsed. split; [done|].
      by rewrite (baseName_unique _ _ Hbase). }
  rewrite Hfinal. cbn [templates workspaceTemplatesLoaded setTemplates
                       setWorkspaceTemplatesLoaded].
  split; [reflexivity|].
  split; [apply sortByCreatedAtDesc_sorted|].
  split; [apply sortByCreatedAtDesc_perm|].
  split; [|split; [|reflexivity]].
  - rewrite List.filter_app, (filter_all _ _ Hws), filter_none; [by rewrite app_nil_r|].
    apply List.Forall_forall. intros t Ht. apply filter_In in Ht as [_ Hg].
    rewrite isGlobal_not_workspace in Hg. by destruct (isWorkspace t).
  - rewrite List.filter_app, filter_none.
    + simpl. apply filter_all. apply List.Forall_forall. intros t Ht.
      by apply filter_In in Ht as [_ Hg].
    + eapply Forall_impl; [exact Hws|]. intros t Ht.
      rewrite isGlobal_not_workspace, Ht. reflexivity.
Qed.

End WithBuiltins.

Lemma loadWorkspaceTemplates_replaces_witness :
  Templates.templates
    (run (quietWorld Examples.templateApi)
         (loadWorkspaceTemplates (H := Reference.asciiUnicode) (H0 := Reference.plainUtils)
                                 (fun _ => 77) None Examples.browsing))
  = [ {| id := lit "Daily"; title := lit "Untitled"; description := [];
         prompt := lit "hello"; createdAt := 77; scope := WorkspaceScope |};
      Examples.globalTemplate ].
Proof.
  pose proof (loadWorkspaceTemplates_replaces
                (H := Reference.asciiUnicode) (H0 := Reference.plainUtils)
                (fun _ => 77) None Examples.browsing Examples.engine
                Examples.templateApi Examples.templateNodes) as Hspec.
  cbv zeta in Hspec.
  destruct Hspec as (_ & _ & Htemplates & _).
  - reflexivity.
  - discriminate.
  - reflexivity.
  - repeat constructor. eexists. reflexivity.
  - rewrite Htemplates. reflexivity.
Defined.

End TemplatesFacts.

(** ** Preferences in local storage *)

Module PrefsFacts.

Import Updater Prefs PrefsSpec StorageFacts.

Lemma setItem_lookup (k v key : jsstring) (st : storage) :
  setItem k v st !! key = if decide (k = key) then Some v else st !! key.
Proof. unfold setItem. apply lookup_insert. Qed.

(** Two literals of the source that differ, differ. *)
Ltac distinct_keys :=
  let Hk := fresh "Hk" in
  intros Hk; vm_compute in Hk; discriminate Hk.

Ltac other_key := rewrite decide_False by distinct_keys.
Ltac same_key := rewrite decide_True by reflexivity.

Lemma parseBoolean_stringifyBool (b : bool) : parseBoolean (stringifyBool b) = Some b.
Proof. by destruct b. Qed.

Section WithBuiltins.
Context `{Utils} `{NumberFormat} `{JsonText}.

(** *** What the effects leave in the storage *)

Lemma persistTemplates_lookup (p : Prefs) (st : storage) (key : jsstring) :
  persistTemplates p st !! key
  = if globalTemplatesLoaded p && bool_decide (lit "openwork.templates" = key)
    then Some (stringify (JArr (List.map templatePayload
                                         (List.filter isGlobal (templates p)))))
    else st !! key.
Proof.
  unfold persistTemplates. destruct (globalTemplatesLoaded p); cbn [negb andb].
  - rewrite setItem_lookup. by case_bool_decide; case_decide.
  - reflexivity.
Qed.

Lemma persistModelVariant_lookup (p : Prefs) (st : storage) (key : jsstring) :
  persistModelVariant p st !! key
  = if decide (VARIANT_PREF_KEY = key)
    then match modelVariant p with
         | Some v => if truthy v then Some v else None
         | None => None
         end
    else st !! key.
Proof.
  unfold persistModelVariant.
  destruct (modelVariant p) as [v|]; [destruct (truthy v)|];
    rewrite ?setItem_lookup, ?removeItem_lookup; reflexivity.
Qed.

Lemma persistUpdateCheckedAt_lookup (p : Prefs) (st : storage) (key : jsstring) :
  persistUpdateCheckedAt p st !! key
  = match updateStatus p with
    | Idle (Some t) =>
        if negb (t =? 0)
        then if decide (lit "openwork.updateLastCheckedAt" = key)
             then Some (numberToString t) else st !! key
        else st !! key
    | _ => st !! key
    end.
Proof.
  unfold persistUpdateCheckedAt.
  destruct (updateStatus p) as [[t|] | | | | |]; try reflexivity.
  destruct (negb (t =? 0)); [apply setItem_lookup | reflexivity].
Qed.

(** The storage after all the effects, key by key. *)
Lemma persist_lookup (p : Prefs) (st : storage) (key : jsstring) :
  persist p st !! key
  = if decide (lit "openwork.updateLastCheckedAt" = key) then
      match updateStatus p with
      | Idle (Some t) => if negb (t =? 0) then Some (numberToString t) else st !! key
      | _ => st !! key
      end
    else if decide (VARIANT_PREF_KEY = key) then
      match modelVariant p with
      | Some v => if truthy v then Some v else None
      | None => None
      end
    else if decide (THINKING_PREF_KEY = key) then Some (stringifyBool (showThinking p))
    else if decide (lit "openwork.updateAutoCheck" = key)
      then Some (if updateAutoCheck p then lit "1" else lit "0")
    else if decide (MODEL_PREF_KEY = key) then Some (formatModelRef (defaultModel p))
    else if globalTemplatesLoaded p && bool_decide (lit "openwork.templates" = key)
      then Some (stringify (JArr (List.map templatePayload
                                           (List.filter isGlobal (templates p)))))
    else if decide (lit "openwork.engineSource" = key)
      then Some (engineSourceText (engineSource p))
    else if decide (lit "openwork.projectDir" = key) then Some (workspaceProjectDir p)
    else if decide (lit "openwork.clientDirectory" = key) then Some (clientDirectory p)
    else if decide (lit "openwork.baseUrl" = key) then Some (baseUrl p)
    else st !! key.
Proof.
  unfold persist. rewrite persistUpdateCheckedAt_lookup, persistModelVariant_lookup.
  unfold persistShowThinking, persistUpdateAutoCheck, persistDefaultModel.
  rewrite !setItem_lookup, persistTemplates_lookup.
  unfold persistEngineSource, persistProjectDir, persistClientDirectory, persistBaseUrl.
  rewrite !setItem_lookup.
  destruct (decide (lit "openwork.updateLastCheckedAt" = key)) as [<-|Hne].
  - rewrite (bool_decide_eq_false_2 (lit "openwork.templates" = _)) by distinct_keys.
    rewrite andb_false_r.
    destruct (updateStatus p) as [[t|] | | | | |]; try reflexivity;
      try (destruct (negb (t =? 0))); reflexivity.
  - destruct (updateStatus p) as [[t|] | | | | |]; try reflexivity.
    destruct (negb (t =? 0)); reflexivity.
Qed.

Lemma persist_frame (p : Prefs) (st : storage) (key : jsstring) :
  key ∉ persistedKeys -> persist p st !! key = st !! key.
Proof.
  intros Hkey. rewrite persist_lookup.
  assert (Hother : forall k, k ∈ persistedKeys -> k <> key) by (by intros k Hk <-).
  rewrite (bool_decide_eq_false_2 (lit "openwork.templates" = key))
    by (apply Hother; unfold persistedKeys;
        repeat (apply list_elem_of_here || apply list_elem_of_further)).
  rewrite andb_false_r.
  repeat (rewrite decide_False;
          [| apply Hother; unfold persistedKeys;
             repeat (apply list_elem_of_here || apply list_elem_of_further)]).
  by destruct (updateStatus p) as [[t|] | | | | |].
Qed.

Lemma persistedKeys_prefixed :
  Forall (fun k => startsWith (lit "openwork.") k = true) persistedKeys.
Proof. repeat constructor. Qed.

(** *** What [onMount] makes of the storage: each step sets one signal *)

Lemma restoreBaseUrl_set (st : storage) (p : Prefs) :
  restoreBaseUrl st p
  = setBaseUrl (match st !! lit "openwork.baseUrl" with
                | Some v => if truthy v then v else baseUrl p
                | None => baseUrl p
                end) p.
Proof. unfold restoreBaseUrl, getItem. destruct p. repeat case_match; reflexivity. Qed.

Lemma restoreClientDirectory_set (st : storage) (p : Prefs) :
  restoreClientDirectory st p
  = setClientDirectory (match st !! lit "openwork.clientDirectory" with
                        | Some v => if truthy v then v else clientDirectory p
                        | None => clientDirectory p
                        end) p.
Proof.
  unfold restoreClientDirectory, getItem. destruct p. repeat case_match; reflexivity.
Qed.

Lemma restoreEngineSource_set (st : storage) (p : Prefs) :
  restoreEngineSource st p
  = setEngineSource (match st !! lit "openwork.engineSource" with
                     | Some v => if eqb v (lit "path") then PathSource
                                 else if eqb v (lit "sidecar") then SidecarSource
                                 else engineSource p
                     | None => engineSource p
                     end) p.
Proof.
  unfold restoreEngineSource, getItem. destruct p. repeat case_match; reflexivity.
Qed.

Lemma restoreShowThinking_set (st : storage) (p : Prefs) :
  restoreShowThinking st p
  = setShowThinking (match st !! THINKING_PREF_KEY ≫= parseBoolean with
                     | Some b => b
                     | None => showThinking p
                     end) p.
Proof.
  unfold restoreShowThinking, getItem. destruct p.
  destruct (st !! THINKING_PREF_KEY) as [v|]; cbn; [|reflexivity].
  destruct (parseBoolean v); reflexivity.
Qed.

Lemma restoreModelVariant_set (st : storage) (p : Prefs) :
  restoreModelVariant st p
  = setModelVariant (match st !! VARIANT_PREF_KEY with
                     | Some v => if truthy v && truthy (trim v) then Some (trim v)
                                 else modelVariant p
                     | None => modelVariant p
                     end) p.
Proof.
  unfold restoreModelVariant, getItem. destruct p. repeat case_match; reflexivity.
Qed.

Lemma restoreUpdateAutoCheck_set (st : storage) (p : Prefs) :
  restoreUpdateAutoCheck st p
  = setUpdateAutoCheck (match st !! lit "openwork.updateAutoCheck" with
                        | Some v => if eqb v (lit "0") || eqb v (lit "1")
                                    then eqb v (lit "1") else updateAutoCheck p
                        | None => updateAutoCheck p
                        end) p.
Proof.
  unfold restoreUpdateAutoCheck, getItem. destruct p. repeat case_match; reflexivity.
Qed.

Lemma restoreUpdateCheckedAt_set (st : storage) (p : Prefs) :
  restoreUpdateCheckedAt st p
  = Prefs.setUpdateStatus
      (match st !! lit "openwork.updateLastCheckedAt" with
       | Some v => if truthy v then
                     match stringToNumber v with
                     | Some t => if 0 <? t then Idle (Some t) else updateStatus p
                     | None => updateStatus p
                     end
                   else updateStatus p
       | None => updateStatus p
       end) p.
Proof.
  unfold restoreUpdateCheckedAt, getItem. destruct p. repeat case_match; reflexivity.
Qed.

(** With the stored reference unparsable, the default model falls back
    to [DEFAULT_MODEL], which is written to the storage. *)
Lemma restore_fallback (st : storage) (p : Prefs) :
  parseModelRef (getItem MODEL_PREF_KEY st) = None ->
  defaultModel (restore st p).1 = DEFAULT_MODEL
  /\ getItem MODEL_PREF_KEY (restore st p).2 = Some (formatModelRef DEFAULT_MODEL).
Proof.
  intros Hparse. unfold restore, restoreDefaultModel. rewrite Hparse.
  cbn [fst snd]. split.
  - rewrite restoreUpdateCheckedAt_set, restoreUpdateAutoCheck_set,
      restoreModelVariant_set, restoreShowThinking_set. reflexivity.
  - unfold getItem. rewrite setItem_lookup. by same_key.
Qed.

Lemma trim_truthy (v : jsstring) : truthy (trim v) = true -> truthy v = true.
Proof. destruct v; [discriminate | reflexivity]. Qed.

(** C3, as amended.  Every persistence effect writes under a key that
    starts with ["openwork."] and leaves the other keys alone, and [onMount]
    reads the same keys back.  The effects store the base URL, the client
    directory, the engine source, the reference of the default model, the
    show-thinking flag, the update auto-check flag and a model variant that
    is not empty; the time of the last update check is stored only while
    the update status is idle with a check time, and is otherwise left as
    the storage had it.  Mounting the application afresh after the effects
    have stored the preferences [p] restores the client directory, the
    engine source, the show-thinking flag and the update auto-check flag as
    they were; the base URL unless it is empty, in which case the signal
    keeps the address it is created with; the model variant trimmed, hence
    as it was when it had no white space around it; the default model as
    [parseModelRef] reads its stored reference, hence as it was when the
    reference parses back to it, and [DEFAULT_MODEL], written to the
    storage, when a stored reference does not parse; and a stored check
    time that is positive and reads back from its text. *)
Theorem preferences_round_trip (p : Prefs) (st : storage)
    (projectDir : jsstring) (autoCheck : bool) (status : UpdateStatus) :
  let stored := persist p st in
  let restored := (remount projectDir autoCheck status stored).1 in
  (* the keys *)
  Forall (fun k => startsWith (lit "openwork.") k = true) persistedKeys
  /\ (forall key, key ∉ persistedKeys -> stored !! key = st !! key)
  (* what is stored *)
  /\ (stored !! lit "openwork.baseUrl" = Some (baseUrl p)
      /\ stored !! lit "openwork.clientDirectory" = Some (clientDirectory p)
      /\ stored !! lit "openwork.engineSource" = Some (engineSourceText (engineSource p))
      /\ stored !! MODEL_PREF_KEY = Some (formatModelRef (defaultModel p))
      /\ stored !! THINKING_PREF_KEY = Some (stringifyBool (showThinking p))
      /\ stored !! VARIANT_PREF_KEY
         = match modelVariant p with
           | Some v => if truthy v then Some v else None
           | None => None
           end
      /\ stored !! lit "openwork.updateAutoCheck"
         = Some (if updateAutoCheck p then lit "1" else lit "0")
      /\ stored !! lit "openwork.updateLastCheckedAt"
         = match updateStatus p with
           | Idle (Some t) =>
               if t =? 0 then st !! lit "openwork.updateLastCheckedAt"
               else Some (numberToString t)
           | _ => st !! lit "openwork.updateLastCheckedAt"
           end)
  (* what is restored *)
  /\ baseUrl restored
     = (if truthy (baseUrl p) then baseUrl p else lit "http://127.0.0.1:4096")
  /\ (baseUrl p <> [] -> baseUrl restored = baseUrl p)
  /\ clientDirectory restored = clientDirectory p
  /\ engineSource restored = engineSource p
  /\ defaultModel restored
     = default DEFAULT_MODEL (parseModelRef (Some (formatModelRef (defaultModel p))))
  /\ (modelRoundTrips (defaultModel p) -> defaultModel restored = defaultModel p)
  /\ showThinking restored = showThinking p
  /\ modelVariant restored
     = match modelVariant p with
       | Some v => if truthy (trim v) then Some (trim v) else None
       | None => None
       end
  /\ (variantNormalised (modelVariant p) -> modelVariant restored = modelVariant p)
  /\ updateAutoCheck restored = updateAutoCheck p
  /\ (forall t, updateStatus p = Idle (Some t) ->
                0 < t -> numberToString t <> [] ->
                stringToNumber (numberToString t) = Some t ->
                updateStatus restored = Idle (Some t))
  /\ (forall st0 p0,
        parseModelRef (getItem MODEL_PREF_KEY st0) = None ->
        defaultModel (restore st0 p0).1 = DEFAULT_MODEL
        /\ getItem MODEL_PREF_KEY (restore st0 p0).2
           = Some (formatModelRef DEFAULT_MODEL)).
Proof.
  intros stored restored.
  split; [apply persistedKeys_prefixed|].
  split; [intros key; apply persist_frame|].
  assert (Hmodel : stored !! MODEL_PREF_KEY = Some (formatModelRef (defaultModel p))).
  { subst stored. rewrite persist_lookup. do 4 other_key. by same_key. }
  split.
  { subst stored. rewrite !persist_lookup.
    repeat first [ other_key | same_key
                 | rewrite (bool_decide_eq_false_2 (lit "openwork.templates" = _))
                     by distinct_keys ].
    rewrite ?andb_false_r.
    repeat split; try reflexivity.
    destruct (updateStatus p) as [[t|] | | | | |]; try reflexivity.
    by destruct (t =? 0). }
  set (model := default DEFAULT_MODEL
                  (parseModelRef (Some (formatModelRef (defaultModel p))))).
  assert (Hrestored : restored
            = restoreUpdateCheckedAt (remount projectDir autoCheck status stored).2
                (restoreUpdateAutoCheck (remount projectDir autoCheck status stored).2
                   (restoreModelVariant (remount projectDir autoCheck status stored).2
                      (restoreShowThinking (remount projectDir autoCheck status stored).2
                         (setDefaultModel model
                            (restoreEngineSource stored
                               (restoreClientDirectory stored
                                  (restoreBaseUrl stored
                                     (initial projectDir autoCheck status))))))))).
  { subst restored model. unfold remount, restore, restoreDefaultModel, getItem.
    rewrite Hmodel.
    by destruct (parseModelRef (Some (formatModelRef (defaultModel p)))). }
  assert (Hafter : forall key, key <> MODEL_PREF_KEY ->
            (remount projectDir autoCheck status stored).2 !! key = stored !! key).
  { intros key Hkey. unfold remount, restore, restoreDefaultModel, getItem.
    rewrite Hmodel.
    destruct (parseModelRef (Some (formatModelRef (defaultModel p)))); cbn [snd];
      [reflexivity|].
    rewrite setItem_lookup. by rewrite decide_False by congruence. }
  rewrite Hrestored, restoreUpdateCheckedAt_set, restoreUpdateAutoCheck_set,
    restoreModelVariant_set, restoreShowThinking_set, restoreEngineSource_set,
    restoreClientDirectory_set, restoreBaseUrl_set.
  cbn [baseUrl clientDirectory engineSource defaultModel showThinking modelVariant
       updateAutoCheck updateStatus Prefs.setUpdateStatus setUpdateAutoCheck
       setModelVariant setShowThinking setDefaultModel setEngineSource
       setClientDirectory setBaseUrl initial].
  rewrite !Hafter by distinct_keys.
  subst stored. rewrite !persist_lookup.
  repeat first [ other_key | same_key
               | rewrite (bool_decide_eq_false_2 (lit "openwork.templates" = _))
                   by distinct_keys ].
  rewrite ?andb_false_r.
  split; [reflexivity|].
  split.
  { intros Hurl. apply truthy_spec in Hurl. by rewrite Hurl. }
  split.
  { by destruct (clientDirectory p). }
  split.
  { by destruct (engineSource p). }
  split; [reflexivity|].
  split.
  { intros Hparses. subst model. unfold modelRoundTrips in Hparses.
    by rewrite Hparses. }
  split.
  { cbn. by rewrite parseBoolean_stringifyBool. }
  assert (Hvariant :
            match
              match modelVariant p with
              | Some v => if truthy v then Some v else None
              | None => None
              end
            with
            | Some v => if truthy v && truthy (trim v) then Some (trim v) else None
            | None => None
            end
            = match modelVariant p with
              | Some v => if truthy (trim v) then Some (trim v) else None
              | None => None
              end).
  { destruct (modelVariant p) as [v|]; [|reflexivity].
    destruct (truthy (trim v)) eqn:Htrim.
    - rewrite (trim_truthy v Htrim). cbn beta iota.
      by rewrite (trim_truthy v Htrim), Htrim.
    - destruct (truthy v) eqn:Hv; cbn beta iota; [by rewrite Hv, Htrim | reflexivity]. }
  split; [exact Hvariant|].
  split.
  { intros Hnormal. rewrite Hvariant.
    destruct (modelVariant p) as [v|] eqn:Hv; [|reflexivity].
    destruct (Hnormal v eq_refl) as [Hne Htrim].
    apply truthy_spec in Hne. by rewrite Htrim, Hne. }
  split.
  { by destruct (updateAutoCheck p). }
  split; [|intros st0 p0; apply restore_fallback].
  intros t Hidle Hpos Htext Hread. rewrite Hidle.
  assert (Hzero : (t =? 0) = false) by (apply Z.eqb_neq; lia).
  rewrite Hzero. cbn [negb].
  apply truthy_spec in Htext. rewrite Htext, Hread.
  apply Z.ltb_lt in Hpos. by rewrite Hpos.
Qed.

End WithBuiltins.

(** An empty base URL is stored, and on the next mount the signal keeps
    the address it is created with. *)
Lemma empty_baseUrl_not_restored :
  ~ (forall (Ut : Utils) (Nf : NumberFormat) (Jt : JsonText) (p : Prefs) (st : storage)
            (projectDir : jsstring) (autoCheck : bool) (status : UpdateStatus),
       baseUrl (remount projectDir autoCheck status (persist p st)).1 = baseUrl p).
Proof.
  intros Hclaim.
  specialize (Hclaim Reference.plainUtils Reference.decimal Reference.plainText
                     Examples.emptiedBaseUrl ∅ [] true (Idle None)).
  vm_compute in Hclaim. discriminate Hclaim.
Qed.

(** C3, as stated, fails.  An empty base URL is stored, and on the next
    mount the signal keeps the address it is created with.  A time of the
    last check that is part of a status other than idle is not stored, so
    that the next mount knows of no check.  A model variant with white
    space around it is stored as it is and restored trimmed.  A check time
    that is not positive is stored and not restored. *)
Lemma preferences_not_all_restored :
  baseUrl (MoreExamples.remounted Examples.emptiedBaseUrl)
  <> baseUrl Examples.emptiedBaseUrl
  /\ (persist (H := Reference.plainUtils) (H0 := Reference.decimal)
              (H1 := Reference.plainText) MoreExamples.checkedWhileReady ∅
        !! lit "openwork.updateLastCheckedAt" = None
      /\ updateStatus (MoreExamples.remounted MoreExamples.checkedWhileReady)
         = Idle None)
  /\ (persist (H := Reference.plainUtils) (H0 := Reference.decimal)
              (H1 := Reference.plainText) MoreExamples.paddedVariant ∅
        !! VARIANT_PREF_KEY = Some (lit " high ")
      /\ modelVariant (MoreExamples.remounted MoreExamples.paddedVariant)
         = Some (lit "high"))
  /\ (persist (H := Reference.plainUtils) (H0 := Reference.decimal)
              (H1 := Reference.plainText) MoreExamples.checkedBeforeEpoch ∅
        !! lit "openwork.updateLastCheckedAt" = Some (lit "-5")
      /\ updateStatus (MoreExamples.remounted MoreExamples.checkedBeforeEpoch)
         = Idle None).
Proof.
  split; [vm_compute; discriminate|].
  repeat split; vm_compute; reflexivity.
Qed.

Lemma preferences_round_trip_witness :
  MoreExamples.remounted Examples.tunedPrefs
  = Prefs.setUpdateStatus (Idle (Some 1700000000000))
      (setUpdateAutoCheck false
         (setModelVariant (Some (lit "high"))
            (setShowThinking true
               (setDefaultModel {| providerID := lit "anthropic"; modelID := lit "sonnet" |}
                  (setEngineSource SidecarSource
                     (setClientDirectory (lit "/home/me/project")
                        (setBaseUrl (lit "http://10.0.0.2:4096")
                           (initial [] true (Idle None)))))))))
  /\ baseUrl (MoreExamples.remounted Examples.tunedPrefs) = lit "http://10.0.0.2:4096"
  /\ modelVariant (MoreExamples.remounted Examples.tunedPrefs) = Some (lit "high")
  /\ updateStatus (MoreExamples.remounted Examples.tunedPrefs)
     = Idle (Some 1700000000000).
Proof.
  split; [vm_compute; reflexivity|].
  destruct (preferences_round_trip (H := Reference.plainUtils) (H0 := Reference.decimal)
              (H1 := Reference.plainText) Examples.tunedPrefs ∅ [] true (Idle None))
    as (_ & _ & _ & _ & Hurl & _ & _ & _ & _ & _ & _ & Hvariant & _ & Htime & _).
  split; [apply Hurl; discriminate|].
  split.
  - apply Hvariant. intros v [= <-]. split; [discriminate | reflexivity].
  - apply (Htime 1700000000000 eq_refl); [reflexivity | discriminate | reflexivity].
Defined.

End PrefsFacts.

(** ** Plugins listed in opencode.json *)

Module ExtensionsFacts.

Import Extensions ExtensionsSpec JsoncContract.

Lemma inOrder_bound (from : nat) (edits : list Edit) (upto : nat) :
  inOrder from edits upto -> (from <= upto)%nat.
Proof.
  revert from. induction edits as [|e rest IH]; intros from; cbn [inOrder].
  - done.
  - intros [Hfrom Hrest]. apply IH in Hrest. lia.
Qed.

(** Applying the edits from the last to the first keeps the text before
    them and splices the rest. *)
Lemma applied_from (raw : jsstring) (edits : list Edit) (from : nat) :
  inOrder from edits (length raw) ->
  foldr (fun e text => applyEdit text e) raw edits
  = take from raw ++ spliced raw from edits.
Proof.
  revert from. induction edits as [|e rest IH]; intros from; cbn [inOrder foldr spliced].
  - intros _. by rewrite take_drop.
  - intros [Hfrom Hrest]. pose proof (inOrder_bound _ _ _ Hrest) as Hend.
    rewrite (IH _ Hrest). unfold applyEdit.
    set (o := edit_offset e) in *. set (l := edit_length e) in *.
    rewrite take_app_le by (rewrite length_take; lia).
    rewrite take_take, Nat.min_l by lia.
    rewrite drop_app_ge by (rewrite length_take; lia).
    rewrite length_take, Nat.min_l, Nat.sub_diag, drop_0 by lia.
    assert (Hsplit : take o raw = take from raw ++ take (o - from) (drop from raw)).
    { rewrite <- (take_drop from (take o raw)). f_equal.
      - rewrite take_take. f_equal. lia.
      - rewrite take_drop_commute. do 2 f_equal. lia. }
    rewrite Hsplit. by rewrite <- app_assoc.
Qed.

Lemma applied_spliced (raw : jsstring) (edits : list Edit) :
  inOrder 0 edits (length raw) ->
  foldr (fun e text => applyEdit text e) raw edits = spliced raw 0 edits.
Proof. intros Horder. by rewrite (applied_from raw edits 0 Horder). Qed.

Section WithBuiltins.
Context `{Unicode} `{JsonPrinter} `{Plugins} `{Jsonc}.

Lemma alreadyListed_spec (plugins : list jsstring) (name : jsstring) :
  alreadyListed plugins name = true <-> listed plugins name.
Proof.
  unfold alreadyListed, listed, pluginKey. rewrite existsb_exists. split.
  - intros (entry & Hin & Heq). exists entry.
    split; [by apply list_elem_of_In | by apply eqb_spec].
  - intros (entry & Hin & Heq). exists entry.
    split; [by apply list_elem_of_In | by apply eqb_spec].
Qed.

Lemma alreadyListed_false (plugins : list jsstring) (name : jsstring) :
  alreadyListed plugins name = false <-> ~ listed plugins name.
Proof.
  rewrite <- alreadyListed_spec. destruct (alreadyListed plugins name); split; congruence.
Qed.

Lemma targetResolvable_guard (s : State) :
  targetResolvable s -> isProject (pluginScope s) && negb (truthy (trim (projectDir s))) = false.
Proof.
  unfold targetResolvable, targetDirOf. intros [Hscope | Hdir].
  - by rewrite Hscope.
  - apply truthy_spec in Hdir. rewrite Hdir. apply andb_false_r.
Qed.

(** C1. In the desktop runtime, with a plugin name that is not blank and a
    target configuration that can be resolved, [addPlugin] reads the
    configuration, and once it is read: if its content is blank, the
    document with the schema and the one plugin is written; if the list of
    plugins parsed from it has an entry equal to the name after stripping
    versions and lowercasing, nothing is written and the status is
    "Plugin already listed in opencode.json."; otherwise the file is
    written with the text that the jsonc edit of the property [plugin], set
    to the list with the name appended, makes of the text read.  With an
    [applyEdits] that applies the edits it is given, as the package
    promises, the text written is the text read with the ranges of these
    edits replaced: every character outside them is kept, in its order. *)
Theorem addPlugin_cases (now : Z) (pluginNameOverride : option jsstring) (s : State) :
  let name := pluginNameOf pluginNameOverride s in
  let scope := pluginScope s in
  let targetDir := targetDirOf s in
  name <> [] ->
  targetResolvable s ->
  exists k,
    addPlugin true now pluginNameOverride s
    = Await (setPluginStatus None s) (ReadOpencodeConfig scope targetDir) k
    /\ pluginStatus (setPluginStatus None s) = None
    /\ forall (resumedAt : State) (config : OpencodeConfigFile),
         let raw := default [] (config_content config) in
         (* blank content: a fresh document *)
         (trim raw = [] ->
          exists k',
            k resumedAt (inr config)
            = Await resumedAt
                (WriteOpencodeConfig scope targetDir
                   (stringifyIndent2
                      (JObj [ (lit "$schema", JStr (lit "https://opencode.ai/config.json"));
                              (lit "plugin", JArr [JStr name]) ])
                    ++ [10%N])) k')
         /\ (forall plugins,
               trim raw <> [] ->
               parsePluginListFromContent raw = inr plugins ->
               (* already listed: no write, a status *)
               (listed plugins name ->
                k resumedAt (inr config)
                = Done (setPluginStatus (Some alreadyListedStatus) resumedAt)
                /\ exists final,
                     k resumedAt (inr config) = Done final
                     /\ pluginStatus final = Some alreadyListedStatus
                     /\ pluginInput final = pluginInput resumedAt
                     /\ reloadRequired final = reloadRequired resumedAt
                     /\ reloadReasons final = reloadReasons resumedAt
                     /\ reloadLastTriggeredAt final = reloadLastTriggeredAt resumedAt)
               (* otherwise: the edited text *)
               /\ (~ listed plugins name ->
                   forall edits updated,
                     modify raw [lit "plugin"] (plugins ++ [name])
                            {| insertSpaces := true; tabSize := 2 |} = inr edits ->
                     applyEdits raw edits = inr updated ->
                     (exists k',
                        k resumedAt (inr config)
                        = Await resumedAt
                            (WriteOpencodeConfig scope targetDir updated) k')
                     (* the rest of the text: what lies outside the edits *)
                     /\ (appliesEdits ->
                         exists ordered,
                           Permutation ordered edits
                           /\ inOrder 0 ordered (length raw)
                           /\ updated = spliced raw 0 ordered))).
Proof.
  intros name scope targetDir Hname Htarget.
  unfold addPlugin. cbn [negb].
  fold (pluginNameOf pluginNameOverride s). fold name.
  apply truthy_spec in Hname. rewrite Hname. cbn [negb].
  rewrite (targetResolvable_guard s Htarget).
  eexists. split; [reflexivity|]. split; [reflexivity|].
  intros resumedAt config. cbv zeta. cbn beta iota.
  set (raw := default [] (config_content config)). split.
  - intros Hblank. apply truthy_false in Hblank. rewrite Hblank. cbn [negb].
    unfold writeAndRefresh. eexists. reflexivity.
  - intros plugins Hraw Hparse. apply truthy_spec in Hraw.
    rewrite Hraw, Hparse. cbn [negb]. split.
    + intros Hlisted. apply alreadyListed_spec in Hlisted. rewrite Hlisted.
      split; [reflexivity|]. eexists. split; [reflexivity|]. by repeat split.
    + intros Hnot edits updated Hmodify Happly.
      apply alreadyListed_false in Hnot. rewrite Hnot, Hmodify, Happly. split.
      * unfold writeAndRefresh. eexists. reflexivity.
      * intros Hcontract.
        destruct (Hcontract raw edits updated Happly) as (ordered & Hperm & Horder & ->).
        exists ordered. split; [exact Hperm|]. split; [exact Horder|].
        by apply applied_spliced.
Qed.

End WithBuiltins.

Example addPlugin_appends :
  trace Examples.configWorld
    (addPlugin (H := Reference.asciiUnicode) (H0 := Reference.plainPrinter)
               (H1 := Reference.plainPlugins) (H2 := Reference.plainJsonc)
               true 7 None Examples.managingPlugins)
  = [ ReadOpencodeConfig ProjectScope (lit "/w");
      WriteOpencodeConfig ProjectScope (lit "/w") (lit "{plugin: [alpha@1beta@2]}");
      RefreshPlugins ProjectScope ].
Proof. vm_compute. reflexivity. Qed.

Example addPlugin_listed :
  run Examples.configWorld
    (addPlugin (H := Reference.asciiUnicode) (H0 := Reference.plainPrinter)
               (H1 := Reference.plainPlugins) (H2 := Reference.plainJsonc)
               true 7 (Some (lit "Alpha@9")) Examples.managingPlugins)
  = setPluginStatus (Some alreadyListedStatus) Examples.managingPlugins.
Proof. vm_compute. reflexivity. Qed.

Lemma insertingJsonc_appliesEdits : appliesEdits (H := MoreExamples.insertingJsonc).
Proof.
  intros raw edits updated. cbn [applyEdits MoreExamples.insertingJsonc].
  destruct edits as [|e [|e' rest]]; [| |discriminate].
  - intros [= <-]. exists []. split; [done|]. split; [cbn; lia | reflexivity].
  - destruct (edit_offset e + edit_length e <=? length raw)%nat eqn:Hfits; [|discriminate].
    intros [= <-]. apply Nat.leb_le in Hfits.
    exists [e]. split; [done|]. split; [cbn; lia | reflexivity].
Qed.

Lemma addPlugin_cases_witness :
  (exists k,
     addPlugin (H := Reference.asciiUnicode) (H0 := Reference.plainPrinter)
               (H1 := Reference.plainPlugins) (H2 := MoreExamples.insertingJsonc)
               true 7 None Examples.managingPlugins
     = Await (setPluginStatus None Examples.managingPlugins)
             (ReadOpencodeConfig ProjectScope (lit "/w")) k)
  /\ exists ordered,
       lit "{plugin: [alpha@1, beta@2]}"
       = spliced (lit "{plugin: [alpha@1]}") 0 ordered.
Proof.
  destruct (addPlugin_cases (H := Reference.asciiUnicode) (H0 := Reference.plainPrinter)
              (H1 := Reference.plainPlugins) (H2 := MoreExamples.insertingJsonc)
              7 None Examples.managingPlugins) as (k & Hk & _ & Hcases).
  - discriminate.
  - right. discriminate.
  - split; [exists k; exact Hk|].
    destruct (Hcases Examples.managingPlugins
                {| config_path := lit "/w/opencode.json"; config_exists := true;
                   config_content := Some (lit "{plugin: [alpha@1]}") |})
      as [_ Hparsed].
    destruct (Hparsed [lit "alpha@1"] ltac:(discriminate) eq_refl) as [_ Happend].
    destruct (Happend ltac:(vm_compute; intros (entry & Hin & Heq);
                            apply list_elem_of_singleton in Hin; subst entry;
                            discriminate Heq)
                      _ (lit "{plugin: [alpha@1, beta@2]}") eq_refl eq_refl)
      as [_ Hrest].
    destruct (Hrest insertingJsonc_appliesEdits) as (ordered & _ & _ & Hspliced).
    exists ordered. exact Hspliced.
Defined.

End ExtensionsFacts.

(** * Properties of the rest of the application *)

(** ** Lists *)

Module ListFacts.

Lemma find_first {A} (p : A -> bool) (l : list A) (x : A) :
  List.find p l = Some x ->
  exists before after,
    l = before ++ x :: after /\ p x = true /\ Forall (fun y => p y = false) before.
Proof.
  induction l as [|y l IH]; simpl; [discriminate|].
  destruct (p y) eqn:Hy.
  - intros [= ->]. exists [], l. auto.
  - intros Hfind. destruct (IH Hfind) as (before & after & -> & Hx & Hbefore).
    exists (y :: before), after. auto.
Qed.

Lemma find_none {A} (p : A -> bool) (l : list A) :
  List.find p l = None <-> Forall (fun y => p y = false) l.
Proof.
  induction l as [|y l IH]; simpl.
  - split; auto.
  - destruct (p y) eqn:Hy.
    + split; [discriminate|]. intros Hall. inversion Hall; congruence.
    + rewrite IH. split; [by constructor|]. intros Hall. by inversion Hall.
Qed.

Lemma find_skip {A} (p : A -> bool) (skipped rest : list A) :
  Forall (fun y => p y = false) skipped ->
  List.find p (skipped ++ rest) = List.find p rest.
Proof. induction 1 as [|y l Hy _ IH]; simpl; [reflexivity|]. by rewrite Hy. Qed.

End ListFacts.

Import ListFacts.

(** ** Configured MCP servers *)

Module McpConfigFacts.

Import McpConfig.

Lemma entryOf_spec (pair : jsstring * json) (e : McpServerEntry) :
  e ∈ entryOf pair <->
  e = {| entry_name := pair.1; entry_config := pair.2 |}
  /\ (get "type" pair.2 = Some (JStr (lit "remote"))
      \/ get "type" pair.2 = Some (JStr (lit "local"))).
Proof.
  destruct pair as [name value]. unfold entryOf, unknownType. cbn [fst snd]. split.
  - destruct (negb (truthyValue value) || negb (typeofObject value));
      [by intros ?%elem_of_nil|].
    destruct (get "type" value) as [[| | | t | |]|]; try by intros ?%elem_of_nil.
    destruct (eqb t (lit "remote")) eqn:Hr; cbn [negb andb].
    + apply eqb_spec in Hr as ->. intros ->%list_elem_of_singleton. auto.
    + destruct (eqb t (lit "local")) eqn:Hl; cbn [negb]; [|by intros ?%elem_of_nil].
      apply eqb_spec in Hl as ->. intros ->%list_elem_of_singleton. auto.
  - intros [-> Htype].
    assert (Hobj : negb (truthyValue value) || negb (typeofObject value) = false).
    { destruct value; try (destruct Htype; discriminate). reflexivity. }
    rewrite Hobj. destruct Htype as [-> | ->]; cbn; apply list_elem_of_here.
Qed.

Section WithBuiltins.
Context `{JsoncParse}.

(** X1. The servers read from a configuration are exactly the entries of
    its [mcp] property whose [type] is ["remote"] or ["local"], each under
    its key; a blank text or a text that does not parse gives none. *)
Theorem parseMcpServersFromContent_spec (content : jsstring) :
  (forall name config,
     {| entry_name := name; entry_config := config |}
       ∈ parseMcpServersFromContent content
     <->
     trim content <> []
     /\ exists parsed mcp,
          parse content = inr (Some parsed)
          /\ get "mcp" parsed = Some mcp
          /\ (name, config) ∈ entries mcp
          /\ (get "type" config = Some (JStr (lit "remote"))
              \/ get "type" config = Some (JStr (lit "local"))))
  /\ (trim content = [] -> parseMcpServersFromContent content = [])
  /\ (forall e, parse content = inl e -> parseMcpServersFromContent content = []).
Proof.
  unfold parseMcpServersFromContent. split; [|split].
  - intros name config.
    destruct (truthy (trim content)) eqn:Hblank; cbn [negb].
    2: { apply truthy_false in Hblank. split; [by intros ?%elem_of_nil|].
         intros [Hne _]. congruence. }
    apply truthy_spec in Hblank.
    destruct (parse content) as [e|parsed] eqn:Hparse.
    { split; [by intros ?%elem_of_nil|]. intros (_ & p & m & [=] & _). }
    destruct parsed as [parsed|]; cbn [mbind option_bind].
    2: { split; [by intros ?%elem_of_nil|]. intros (_ & p & m & [=] & _). }
    destruct (get "mcp" parsed) as [mcp|] eqn:Hmcp.
    2: { split; [by intros ?%elem_of_nil|].
         intros (_ & p & m & [= <-] & Hm & _). congruence. }
    split.
    + destruct (negb (truthyValue mcp) || negb (typeofObject mcp));
        [by intros ?%elem_of_nil|].
      intros Hin. apply list_elem_of_In, in_flat_map in Hin as (pair & Hpair & Hentry).
      apply list_elem_of_In, entryOf_spec in Hentry as [[= -> ->] Htype].
      split; [done|]. exists parsed, mcp. repeat split; auto.
      destruct pair. by apply list_elem_of_In.
    + intros (_ & p & m & [= <-] & Hm & Hin & Htype).
      rewrite Hmcp in Hm. injection Hm as <-.
      assert (Hobj : negb (truthyValue mcp) || negb (typeofObject mcp) = false).
      { destruct mcp; try (by apply elem_of_nil in Hin); reflexivity. }
      rewrite Hobj. apply list_elem_of_In, in_flat_map. exists (name, config).
      split; [by apply list_elem_of_In|]. apply list_elem_of_In, entryOf_spec. auto.
  - intros Hblank. apply truthy_false in Hblank. by rewrite Hblank.
  - intros e ->. by destruct (negb (truthy (trim content))).
Qed.

End WithBuiltins.

End McpConfigFacts.

(** ** The thinking block *)

Module ThinkingBlockFacts.

Import ThinkingBlock.

(** X2. The active step is absent exactly for an empty list of steps; it
    is the first running step when there is one, and the last step
    otherwise. *)
Theorem activeStep_spec (steps : list ThinkingStep) :
  (activeStep steps = None <-> steps = [])
  /\ forall s,
       activeStep steps = Some s ->
       (exists before after,
          steps = before ++ s :: after /\ isRunning s = true
          /\ Forall (fun x => isRunning x = false) before)
       \/ (Forall (fun x => isRunning x = false) steps
           /\ exists front, steps = front ++ [s]).
Proof.
  unfold activeStep. split.
  - destruct (List.find isRunning steps) as [r|] eqn:Hfind.
    + split; [discriminate|]. intros ->. discriminate.
    + apply last_None.
  - intros s. destruct (List.find isRunning steps) as [r|] eqn:Hfind.
    + intros [= ->]. left. by apply find_first.
    + intros Hlast. right. split; [by apply find_none|]. by apply last_Some.
Qed.

End ThinkingBlockFacts.

(** ** Whether a new task can be started *)

Module NewTaskFacts.

Import NewTask.

(** X3. A new task is refused exactly while the application is busy with
    something other than a run: the list of transition labels in the
    source adds nothing. *)
Theorem newTaskDisabled_iff (busy : bool) (busyLabel : option jsstring) :
  newTaskDisabled busy busyLabel = busy && negb (labelIs busyLabel "Running").
Proof.
  unfold newTaskDisabled. destruct busy; cbn [andb]; [|reflexivity].
  destruct (labelIs busyLabel "Running"); [reflexivity|].
  by destruct (labelIs busyLabel "Connecting" || labelIs busyLabel "Starting engine"
               || labelIs busyLabel "Disconnecting").
Qed.

End NewTaskFacts.

(** ** Marking that a reload is required *)

Module ReloadReasonFacts.

Import Extensions.

Lemma reasonEqb_spec (a b : ReloadReason) : reasonEqb a b = true <-> a = b.
Proof. destruct a, b; simpl; split; congruence. Qed.

Lemma includes_reason (reason : ReloadReason) (reasons : list ReloadReason) :
  existsb (reasonEqb reason) reasons = true <-> reason ∈ reasons.
Proof.
  rewrite existsb_exists. split.
  - intros (r & Hin & Heq). apply reasonEqb_spec in Heq as ->. by apply list_elem_of_In.
  - intros Hin. exists reason. split; [by apply list_elem_of_In | by apply reasonEqb_spec].
Qed.

(** X4. [markReloadRequired] records the reason without ever listing a
    reason twice: the reasons stay free of duplicates, the reason is among
    them, the ones recorded before stay in front in their order, and
    marking the same reason again changes no reason. *)
Theorem markReloadRequired_reasons (now now' : Z) (reason : ReloadReason) (s : State) :
  NoDup (reloadReasons s) ->
  let marked := markReloadRequired now reason s in
  NoDup (reloadReasons marked)
  /\ reason ∈ reloadReasons marked
  /\ (exists added, reloadReasons marked = reloadReasons s ++ added
                    /\ (added = [] \/ added = [reason]))
  /\ reloadReasons (markReloadRequired now' reason marked) = reloadReasons marked
  /\ reloadRequired marked = true
  /\ reloadLastTriggeredAt marked = Some now.
Proof.
  intros Hnodup. cbn [markReloadRequired reloadReasons reloadRequired reloadLastTriggeredAt].
  destruct (existsb (reasonEqb reason) (reloadReasons s)) eqn:Hin.
  - rewrite Hin. apply includes_reason in Hin.
    repeat split; auto. exists []. rewrite app_nil_r. auto.
  - assert (Hnot : reason ∉ reloadReasons s).
    { intros Hr. apply includes_reason in Hr. congruence. }
    assert (Hnow : existsb (reasonEqb reason) (reloadReasons s ++ [reason]) = true).
    { apply includes_reason. set_solver. }
    rewrite Hnow. repeat split; auto.
    + apply NoDup_app. repeat split; auto.
      * intros r Hr ->%list_elem_of_singleton. done.
      * apply NoDup_singleton.
    + set_solver.
    + exists [reason]. auto.
Qed.

Lemma markReloadRequired_reasons_witness :
  reloadReasons
    (markReloadRequired 9 ReloadSkills
       (markReloadRequired 8 ReloadPlugins
          (markReloadRequired 7 ReloadSkills Examples.managingPlugins)))
  = [ReloadSkills; ReloadPlugins]
  /\ NoDup (reloadReasons (markReloadRequired 7 ReloadSkills Examples.managingPlugins)).
Proof.
  split; [reflexivity|].
  apply (markReloadRequired_reasons 7 7 ReloadSkills Examples.managingPlugins).
  simpl. constructor.
Defined.

End ReloadReasonFacts.

(** ** The session view *)

Module SessionProgressFacts.

Import SessionProgress.

Lemma dots_from (completed start count : nat) :
  List.map (fun idx => (idx <? completed)%nat) (seq start count)
  = replicate (min count (completed - start)) true
    ++ replicate (count - (completed - start)) false.
Proof.
  revert start. induction count as [|count IH]; intros start; simpl; [reflexivity|].
  rewrite IH. destruct (start <? completed)%nat eqn:Hlt.
  - apply Nat.ltb_lt in Hlt.
    replace (completed - start)%nat with (S (completed - S start)) by lia.
    simpl. reflexivity.
  - apply Nat.ltb_ge in Hlt.
    replace (completed - start)%nat with 0%nat by lia.
    replace (completed - S start)%nat with 0%nat by lia.
    rewrite !Nat.min_0_r. simpl. by rewrite Nat.sub_0_r.
Qed.

(** X5. The progress dots are one per todo with a content that is not
    blank: as many lit dots as such todos are completed, then the unlit
    ones. *)
Theorem progressDots_shape (todos : list Todo) :
  let total := length (realTodos todos) in
  let completed := length (List.filter isCompleted (realTodos todos)) in
  progressDots todos = replicate completed true ++ replicate (total - completed) false
  /\ (completed <= total)%nat
  /\ length (progressDots todos) = total.
Proof.
  intros total completed.
  assert (Hle : (completed <= total)%nat) by apply filter_length_le.
  assert (Hshape : progressDots todos
                   = replicate completed true ++ replicate (total - completed) false).
  { unfold progressDots. fold total. fold completed.
    destruct (total =? 0)%nat eqn:Hzero.
    - apply Nat.eqb_eq in Hzero. replace completed with 0%nat by lia.
      rewrite Hzero. reflexivity.
    - rewrite dots_from, Nat.sub_0_r. by rewrite Nat.min_r by lia. }
  split; [exact Hshape|]. split; [exact Hle|].
  rewrite Hshape, length_app, !length_replicate. lia.
Qed.

(** X6. Toggling a step flips the membership of that step and of no
    other, so that toggling twice restores the set. *)
Theorem toggleSteps_flip (id : jsstring) (current : gset (list N)) :
  (id ∈ toggleSteps id current <-> id ∉ current)
  /\ (forall other, other <> id -> (other ∈ toggleSteps id current <-> other ∈ current))
  /\ toggleSteps id (toggleSteps id current) = current.
Proof.
  assert (Hflip : forall c : gset (list N), id ∈ toggleSteps id c <-> id ∉ c).
  { intros c. unfold toggleSteps. case_bool_decide; set_solver. }
  assert (Hother : forall (c : gset (list N)) other,
             other <> id -> (other ∈ toggleSteps id c <-> other ∈ c)).
  { intros c other Hne. unfold toggleSteps. case_bool_decide; set_solver. }
  split; [apply Hflip|]. split; [apply Hother|].
  apply set_eq. intros x. destruct (decide (x = id)) as [->|Hne].
  - rewrite Hflip, Hflip. destruct (decide (id ∈ current)); tauto.
  - by rewrite !Hother.
Qed.

Lemma findIndex_skip {A} (p : A -> bool) (skipped : list A) (x : A) (rest : list A) :
  Forall (fun y => p y = false) skipped -> p x = true ->
  findIndex p (skipped ++ x :: rest) = Some (length skipped).
Proof.
  intros Hskipped Hx. induction Hskipped as [|y l Hy _ IH]; simpl.
  - by rewrite Hx.
  - by rewrite Hy, IH.
Qed.

Lemma lastUserMessageId_last (before : list Message) (u : Message) (after : list Message) :
  isUserMessage u = true ->
  Forall (fun m => isUserMessage m = false) after ->
  lastUserMessageId (before ++ u :: after) = idText u.
Proof.
  intros Hu Hafter. unfold lastUserMessageId.
  rewrite rev_app_distr. simpl. rewrite <- app_assoc. simpl.
  rewrite find_skip by (by apply Forall_rev). simpl. by rewrite Hu.
Qed.

(** X7. When the messages have distinct identifiers and the last message
    of the user has one, an assistant text counts as following the last
    message of the user exactly when some assistant message after it has a
    text part that is not blank; without a message of the user there is
    none. *)
Theorem hasAssistantTextAfterLastUser_spec
    (before : list Message) (u : Message) (after : list Message) :
  NoDup (idText <$> (before ++ u :: after)) ->
  isUserMessage u = true ->
  Forall (fun m => isUserMessage m = false) after ->
  idText u <> [] ->
  hasAssistantTextAfterLastUser (before ++ u :: after)
  = existsb (fun msg => isAssistantMessage msg && existsb hasText (msg_parts msg)) after
  /\ forall others,
       Forall (fun m => isUserMessage m = false) others ->
       hasAssistantTextAfterLastUser others = false.
Proof.
  intros Hnodup Hu Hafter Hid. split.
  - unfold hasAssistantTextAfterLastUser.
    rewrite (lastUserMessageId_last before u after Hu Hafter).
    apply truthy_spec in Hid. rewrite Hid. cbn [negb].
    rewrite findIndex_skip.
    + assert (drop (S (length before)) (before ++ u :: after) = after) as ->; [|done].
      rewrite (cons_middle u), app_assoc. apply drop_app_length'.
      rewrite length_app. simpl. lia.
    + rewrite fmap_app, fmap_cons in Hnodup.
      apply NoDup_app in Hnodup as (_ & Hdisjoint & _).
      apply List.Forall_forall. intros m Hm. apply eqb_neq. intros Heq.
      apply (Hdisjoint (idText m)).
      * apply list_elem_of_fmap. exists m. split; [done | by apply list_elem_of_In].
      * rewrite Heq. apply list_elem_of_here.
    + apply eqb_refl.
  - intros others Hothers. unfold hasAssistantTextAfterLastUser, lastUserMessageId.
    assert (List.find isUserMessage (rev others) = None) as ->.
    { apply find_none. by apply Forall_rev. }
    reflexivity.
Qed.

Lemma hasAssistantTextAfterLastUser_spec_witness :
  hasAssistantTextAfterLastUser [MoreExamples.question; MoreExamples.answer] = true.
Proof.
  pose proof (proj1 (hasAssistantTextAfterLastUser_spec
                       [] MoreExamples.question [MoreExamples.answer]
                       ltac:(repeat constructor; set_solver) eq_refl
                       ltac:(repeat constructor) ltac:(discriminate))) as Hspec.
  exact Hspec.
Defined.

End SessionProgressFacts.

(** ** The status bar *)

Module StatusBarFacts.

Import StatusBar.

(** X8. With a known status of the bridge, the bar says that the bridge is
    ready exactly when it has nothing left to hint at, and that it is
    offline exactly when nothing is linked, configured or running; with no
    status there is no hint. *)
Theorem messaging_ready_iff_no_hint (status : OwpenbotStatus) :
  (messagingLabel (Some status) = lit "Messaging bridge ready"
   <-> messagingHint (Some status) = [])
  /\ (messagingLabel (Some status) = lit "Messaging bridge offline"
      <-> whatsapp_linked status = false /\ telegram_configured status = false
          /\ running status = false)
  /\ messagingHint None = [].
Proof.
  destruct status as [[] [] []]; cbn; repeat split; intros; try discriminate;
    try reflexivity; try tauto; intuition discriminate.
Qed.

End StatusBarFacts.

(** ** Splitting and joining *)

Module TextFacts.

Import Text.

Lemma splitOn_nonempty (c : N) (s : jsstring) : splitOn c s <> [].
Proof.
  destruct s as [|x rest]; simpl; [discriminate|].
  destruct (x =? c)%N; [discriminate|]. by destruct (splitOn c rest).
Qed.

(** No piece contains the separator. *)
Lemma splitOn_no_separator (c : N) (s : jsstring) :
  Forall (fun piece => c ∉ piece) (splitOn c s).
Proof.
  induction s as [|x rest IH]; simpl.
  - repeat constructor. apply not_elem_of_nil.
  - destruct (x =? c)%N eqn:Hx.
    + constructor; [apply not_elem_of_nil | exact IH].
    + apply N.eqb_neq in Hx. destruct (splitOn c rest) as [|piece pieces].
      * repeat constructor. set_solver.
      * inversion IH as [|? ? Hpiece Hpieces]; subst. constructor; [|done]. set_solver.
Qed.

(** Joining the pieces with the separator gives the string back. *)
Lemma joinWith_splitOn (c : N) (s : jsstring) : joinWith [c] (splitOn c s) = s.
Proof.
  induction s as [|x rest IH]; simpl; [reflexivity|].
  destruct (x =? c)%N eqn:Hx.
  - apply N.eqb_eq in Hx as ->.
    pose proof (splitOn_nonempty c rest) as Hne.
    destruct (splitOn c rest) as [|piece pieces]; [done|].
    simpl in *. by rewrite IH.
  - pose proof (splitOn_nonempty c rest) as Hne.
    destruct (splitOn c rest) as [|piece pieces]; [done|].
    destruct pieces as [|piece' pieces]; simpl in *; by rewrite <- IH.
Qed.

Lemma joinWith_elem (sep : jsstring) (parts : list jsstring) (x : N) :
  x ∈ joinWith sep parts -> x ∈ sep \/ exists p, p ∈ parts /\ x ∈ p.
Proof.
  induction parts as [|p [|q rest] IH]; simpl.
  - by intros ?%elem_of_nil.
  - intros Hx. right. exists p. split; [apply list_elem_of_here | done].
  - rewrite !elem_of_app. intros [Hx | [Hx | Hx]].
    + right. exists p. split; [apply list_elem_of_here | done].
    + by left.
    + destruct (IH Hx) as [Hsep | (r & Hr & Hxr)]; [by left|].
      right. exists r. split; [by apply list_elem_of_further | done].
Qed.

Lemma joinWith_head (sep : jsstring) (p : jsstring) (rest : list jsstring) :
  p <> [] -> exists tail, joinWith sep (p :: rest) = p ++ tail.
Proof.
  intros _. destruct rest as [|q rest]; simpl.
  - exists []. by rewrite app_nil_r.
  - eauto.
Qed.

Lemma trim_elem (s : jsstring) (x : N) : x ∈ trim s -> x ∈ s.
Proof.
  unfold trim. intros Hx.
  destruct (stripLeading_spec isWhiteSpace s) as (removed & Hs & _).
  destruct (stripTrailing_spec isWhiteSpace (stripLeading isWhiteSpace s))
    as (removed' & Hs' & _).
  rewrite Hs, Hs'. set_solver.
Qed.

End TextFacts.

(** ** Installed skills *)

Module SkillsFacts.

Import Templates Skills Text TextFacts.

Lemma bodyLines_spec (lines : list jsstring) :
  List.filter isBodyLine (List.map trim lines) = []
  <-> Forall (fun line => trim line = [] \/ startsWith (lit "#") (trim line) = true) lines.
Proof.
  induction lines as [|line lines IH]; cbn [List.filter List.map].
  - split; auto.
  - unfold isBodyLine at 1. destruct (truthy (trim line)) eqn:Hne; cbn [andb].
    + destruct (startsWith (lit "#") (trim line)) eqn:Hhash; cbn [negb].
      * rewrite IH. split; [by constructor; auto|]. intros Hall. by inversion Hall.
      * split; [discriminate|]. intros Hall. inversion Hall as [|? ? [Hnil | Hh] _]; subst.
        -- apply truthy_spec in Hne. congruence.
        -- congruence.
    + apply truthy_false in Hne. rewrite IH.
      split; [by constructor; auto|]. intros Hall. by inversion Hall.
Qed.

(** X9. The description of a skill is made of at most two lines of its
    [SKILL.md]: it is never empty, never contains a line feed and never
    starts with ["#"]; a skill has no description exactly when every line
    of the file is blank or a heading. *)
Theorem describe_spec (content : jsstring) :
  (forall d, describe content = Some d ->
             d <> [] /\ (10%N ∉ d) /\ startsWith (lit "#") d = false)
  /\ (describe content = None
      <-> Forall (fun line => trim line = [] \/ startsWith (lit "#") (trim line) = true)
                 (splitOn 10 content)).
Proof.
  unfold describe.
  set (body := List.filter isBodyLine (List.map trim (splitOn 10 content))).
  assert (Hbody : Forall (fun l => l <> [] /\ startsWith (lit "#") l = false
                                   /\ 10%N ∉ l) body).
  { apply List.Forall_forall. intros l Hl. subst body.
    apply filter_In in Hl as [Hin Hl]. unfold isBodyLine in Hl.
    apply andb_true_iff in Hl as [Hne Hhash]. apply truthy_spec in Hne.
    apply negb_true_iff in Hhash. repeat split; auto.
    apply in_map_iff in Hin as (line & <- & Hline). intros Hnl%trim_elem.
    pose proof (splitOn_no_separator 10 content) as Hsep.
    rewrite List.Forall_forall in Hsep. by apply (Hsep line). }
  split.
  - intros d. destruct (truthy (joinWith (lit " ") (take 2 body))) eqn:Hd; [|discriminate].
    intros [= <-]. apply truthy_spec in Hd. split; [done|].
    destruct body as [|l1 rest]; [done|].
    inversion Hbody as [|? ? (Hne1 & Hhash1 & Hnl1) Hrest]; subst. split.
    + intros Hin. apply joinWith_elem in Hin as [Hsep | (p & Hp & Hin)].
      * apply list_elem_of_singleton in Hsep. discriminate.
      * assert (Hall : Forall (fun l => 10%N ∉ l) (take 2 (l1 :: rest))).
        { apply Forall_take. eapply Forall_impl; [exact Hbody|]. naive_solver. }
        rewrite List.Forall_forall in Hall. apply (Hall p); [by apply list_elem_of_In|done].
    + destruct (joinWith_head (lit " ") l1 (take 1 rest) Hne1) as [tail Htail].
      change (take 2 (l1 :: rest)) with (l1 :: take 1 rest).
      rewrite Htail. destruct l1 as [|x l1]; [done|]. exact Hhash1.
  - rewrite <- bodyLines_spec. fold body.
    destruct body as [|l1 rest]; [done|].
    inversion Hbody as [|? ? (Hne1 & _) _]; subst.
    destruct (joinWith_head (lit " ") l1 (take 1 rest) Hne1) as [tail Htail].
    change (take 2 (l1 :: rest)) with (l1 :: take 1 rest).
    rewrite Htail. destruct l1 as [|x l1]; [done|]. split; discriminate.
Qed.

(** What the listing of the skills ends in, for the cards [next]. *)
Lemma run_readSkills (api : FileApi) (c : Client) (dirs : list FileNode) :
  forall (next : list SkillCard) (s : State),
    let cards :=
      next ++ List.map (fun dir =>
                          cardOf dir (descriptionOf
                                        (api_read api (trim (activeWorkspaceRoot s))
                                                  (skillDocPath dir)))) dirs in
    skills (run (quietWorld api) (readSkills c dirs next s)) = cards
    /\ skillsStatus (run (quietWorld api) (readSkills c dirs next s))
       = if (length cards =? 0)%nat
         then Some (lit "No skills found in .opencode/skill")
         else skillsStatus s.
Proof.
  induction dirs as [|dir rest IH]; intros next s; cbn zeta.
  - rewrite app_nil_r. cbn [readSkills run]. by destruct (length next =? 0)%nat.
  - cbn [readSkills run quietWorld List.map].
    destruct (IH (next ++ [cardOf dir (descriptionOf
                             (api_read api (trim (activeWorkspaceRoot s))
                                       (skillDocPath dir)))]) s) as [Hskills Hstatus].
    cbn zeta in Hskills, Hstatus. rewrite <- app_assoc in Hskills, Hstatus.
    split; assumption.
Qed.

(** X10. When the listing of [.opencode/skill] succeeds, the skills shown
    are the directories of the listing that are not ignored, one card each
    and in the order of the listing, whether or not their [SKILL.md] can be
    read: a skill whose file cannot be read or is not text is listed
    without a description.  When the listing fails, no skill is shown. *)
Theorem refreshSkills_lists (s : State) (c : Client) (api : FileApi) :
  client s = Some c ->
  let root := trim (activeWorkspaceRoot s) in
  let final := run (quietWorld api) (refreshSkills s) in
  (forall nodes,
     api_list api root (lit ".opencode/skill") = inr nodes ->
     let dirs := List.filter (fun n => isDirectoryNode n && negb (node_ignored n)) nodes in
     skills final
     = List.map (fun dir =>
                   {| skill_name := node_name dir; skill_path := node_path dir;
                      skill_description :=
                        match api_read api root (skillDocPath dir) with
                        | inr (TextContent content) => describe content
                        | _ => None
                        end |}) dirs
     /\ skillsStatus final
        = if (length dirs =? 0)%nat then Some (lit "No skills found in .opencode/skill")
          else None)
  /\ (forall e,
        api_list api root (lit ".opencode/skill") = inl e ->
        skills final = []
        /\ skillsStatus final = Some (errorMessageOr (lit "Failed to load skills") e)).
Proof.
  intros Hclient root final. subst final. unfold refreshSkills. rewrite Hclient.
  cbn [run quietWorld activeWorkspaceRoot setSkillsStatus]. fold root. split.
  - intros nodes Hlist. rewrite Hlist. cbn zeta.
    destruct (run_readSkills api c
                (List.filter (fun n => isDirectoryNode n && negb (node_ignored n)) nodes)
                [] (setSkillsStatus None s)) as [Hskills Hstatus].
    cbn zeta in Hskills, Hstatus.
    cbn [app activeWorkspaceRoot setSkillsStatus skillsStatus] in Hskills, Hstatus.
    fold root in Hskills, Hstatus.
    rewrite Hskills, Hstatus. rewrite length_map. split; reflexivity.
  - intros e Hlist. rewrite Hlist. split; reflexivity.
Qed.

Lemma refreshSkills_lists_witness :
  List.map skill_name
    (skills (run (quietWorld MoreExamples.skillApi)
                 (refreshSkills MoreExamples.browsingSkills)))
  = [lit "pdf"; lit "draft"].
Proof.
  destruct (proj1 (refreshSkills_lists MoreExamples.browsingSkills Examples.engine
                     MoreExamples.skillApi eq_refl)
                  MoreExamples.skillNodes eq_refl) as [Hskills _].
  cbv zeta in Hskills. rewrite Hskills. reflexivity.
Defined.

End SkillsFacts.

(** ** Deleting a template *)

Module TemplateStoreFacts.

Import Templates TemplateStore.

Section WithBuiltins.
Context `{Utils}.

(** X11. Deleting a template whose first entry under the identifier is not
    a workspace template issues no call: every template with the identifier
    is dropped from the store, the others stay in their order, and the
    global templates count as loaded.  Deleting a workspace template
    outside the desktop runtime, or without a workspace root, changes
    nothing; otherwise the file is deleted under the trimmed root, and
    however the calls settle the application is not left busy. *)
Theorem deleteTemplate_cases (isTauriRuntime : bool) (now : Z) (templateId : jsstring)
    (s : State) :
  (* global, or unknown *)
  ((forall t, List.find (hasId templateId) (templates s) = Some t ->
              scope t = GlobalScope) ->
   exists final,
     deleteTemplate isTauriRuntime now templateId s = Done final
     /\ templates final = List.filter (fun t => negb (hasId templateId t)) (templates s)
     /\ Forall (fun t => id t <> templateId) (templates final)
     /\ (forall t, t ∈ templates s -> id t <> templateId -> t ∈ templates final)
     /\ globalTemplatesLoaded final = true
     /\ busy final = busy s /\ error final = error s)
  (* workspace *)
  /\ (forall t, List.find (hasId templateId) (templates s) = Some t ->
                scope t = WorkspaceScope ->
                (isTauriRuntime = false \/ trim (activeWorkspaceRoot s) = [] ->
                 deleteTemplate isTauriRuntime now templateId s = Done s)
                /\ (isTauriRuntime = true -> trim (activeWorkspaceRoot s) <> [] ->
                    exists suspendedAt k,
                      deleteTemplate isTauriRuntime now templateId s
                      = Await suspendedAt
                          (WorkspaceTemplateDelete (trim (activeWorkspaceRoot s))
                                                   templateId) k
                      /\ busy suspendedAt = true
                      /\ templates suspendedAt = templates s
                      /\ forall (w : world State Call Resp) resumedAt r,
                           let final := run w (k resumedAt r) in
                           busy final = false /\ busyLabel final = None
                           /\ busyStartedAt final = None)).
Proof.
  unfold deleteTemplate. split.
  - intros Hglobal.
    assert (Hscope : scope <$> List.find (hasId templateId) (templates s)
                     <> Some WorkspaceScope).
    { destruct (List.find (hasId templateId) (templates s)) as [t|] eqn:Hfind;
        [|discriminate]. cbn. rewrite (Hglobal t eq_refl). discriminate. }
    eexists. split.
    { destruct (scope <$> List.find (hasId templateId) (templates s)) as [[]|];
        [done | reflexivity | reflexivity]. }
    cbn [templates globalTemplatesLoaded busy error setTemplates setGlobalTemplatesLoaded].
    repeat split.
    + apply List.Forall_forall. intros t Ht. apply filter_In in Ht as [_ Ht].
      apply negb_true_iff in Ht. by apply eqb_neq in Ht.
    + intros t Hin Hid. apply list_elem_of_In, filter_In.
      split; [by apply list_elem_of_In|]. apply negb_true_iff. by apply eqb_neq.
  - intros t Hfind Hscope. rewrite Hfind. cbn [fmap option_fmap option_map].
    rewrite Hscope. split.
    + intros [-> | Hroot]; [reflexivity|].
      destruct isTauriRuntime; [|reflexivity]. cbn [negb].
      apply truthy_false in Hroot. by rewrite Hroot.
    + intros -> Hroot. apply truthy_spec in Hroot. rewrite Hroot. cbn [negb].
      eexists _, _. split; [reflexivity|]. split; [reflexivity|]. split; [reflexivity|].
      intros w resumedAt r. destruct r as [e | []]; [done|].
      cbn [run]. destruct (w _ _) as [s3 [e | []]]; done.
Qed.

End WithBuiltins.

Lemma deleteTemplate_cases_witness :
  exists final,
    deleteTemplate (H := Reference.plainUtils) true 3 (lit "g1") MoreExamples.templateShelf
    = Done final
    /\ templates final = [Examples.staleTemplate; Examples.staleTemplate]
    /\ globalTemplatesLoaded final = true.
Proof.
  destruct (proj1 (deleteTemplate_cases (H := Reference.plainUtils) true 3 (lit "g1")
                     MoreExamples.templateShelf))
    as (final & Hrun & Htemplates & _ & _ & Hloaded & _).
  - intros t [= <-]. reflexivity.
  - exists final. split; [exact Hrun|]. split; [|exact Hloaded].
    rewrite Htemplates. reflexivity.
Defined.

End TemplateStoreFacts.

(** ** Choosing a model *)

Module ModelPickerFacts.

Import Prompt ModelPicker.

(** X12. Choosing a model for the session makes it the model of the
    selected session at once, whatever was known of the session before,
    and leaves the default model and the other sessions alone; choosing
    the default model changes no session.  The picker is closed in every
    case, and without a selected session nothing else changes. *)
Theorem applyModelSelection_effect `{ObjectPrototype} (next : ModelRef) (s : State) :
  modelPickerOpen (applyModelSelection next s) = false
  /\ (modelPickerTarget s = SessionTarget ->
      forall sessionID,
        selectedSessionId (core s) = Some sessionID -> sessionID <> [] ->
        selectedSessionModel (core (applyModelSelection next s)) = Model next
        /\ defaultModel (core (applyModelSelection next s)) = defaultModel (core s)
        /\ sessionModelById (core (applyModelSelection next s))
           = sessionModelById (core s)
        /\ forall other, other <> sessionID ->
             sessionModelOverrideById (core (applyModelSelection next s)) !! other
             = sessionModelOverrideById (core s) !! other)
  /\ (modelPickerTarget s = SessionTarget ->
      (selectedSessionId (core s) = None \/ selectedSessionId (core s) = Some []) ->
      core (applyModelSelection next s) = core s)
  /\ (modelPickerTarget s = DefaultTarget ->
      defaultModel (core (applyModelSelection next s)) = next
      /\ sessionModelOverrideById (core (applyModelSelection next s))
         = sessionModelOverrideById (core s)
      /\ sessionModelById (core (applyModelSelection next s))
         = sessionModelById (core s)).
Proof.
  unfold applyModelSelection. split; [|split; [|split]].
  - destruct (modelPickerTarget s); [|reflexivity].
    destruct (selectedSessionId (core s)) as [sessionID|]; [|reflexivity].
    by destruct (negb (truthy sessionID)).
  - intros -> sessionID Hsel Hne. rewrite Hsel.
    apply truthy_spec in Hne. rewrite Hne. cbn [negb].
    cbn [core setModelPickerOpen setCore]. repeat split.
    + unfold selectedSessionModel. cbn. rewrite Hsel, Hne. cbn [negb].
      by rewrite lookup_insert_eq.
    + intros other Hother. cbn. by rewrite lookup_insert_ne.
  - intros -> [Hsel | Hsel]; rewrite Hsel; reflexivity.
  - intros ->. cbn. auto.
Qed.

Lemma applyModelSelection_effect_witness :
  selectedSessionModel (H := Reference.standardPrototype)
    (core (applyModelSelection MoreExamples.sonnet MoreExamples.pickingForSession))
  = Model MoreExamples.sonnet.
Proof.
  apply (proj1 (proj2 (applyModelSelection_effect (H := Reference.standardPrototype)
                         MoreExamples.sonnet MoreExamples.pickingForSession))
               eq_refl (lit "ses_1")).
  - reflexivity.
  - discriminate.
Defined.

Section WithBuiltins.
Context `{Utils} `{ObjectPrototype}.

(** X13. When a prompt is sent and nothing else happens meanwhile: if the
    engine accepts it, the model it was sent with is recorded as the model
    of the session and the override of the session is dropped; the model
    shown for the session is then still the one that was used, unless the
    identifier of the session names a property that plain objects inherit,
    such as ["constructor"]: then the memo reads the inherited value in
    place of the override that was dropped.  If the engine refuses the
    prompt, the models are as before and the error is shown.  In both cases
    the text is gone from the input and kept as the last prompt sent. *)
Theorem sendPrompt_bookkeeping (now : Z) (s : Prompt.State)
    (settles : Prompt.Call -> thrown + unit) :
  PromptSpec.canSend s ->
  let final := run (quietWorld settles) (sendPrompt now s) in
  prompt final = [] /\ lastPromptSent final = trim (prompt s)
  /\ busy final = false
  /\ ((forall c req, settles (PromptAsync c req) = inr tt) ->
      (forall sessionID, selectedSessionId s = Some sessionID ->
         sessionModelById final !! sessionID = Some (selectedSessionModel s)
         /\ sessionModelOverrideById final !! sessionID = None
         /\ (inheritsTruthy sessionID = false ->
             selectedSessionModel final = selectedSessionModel s)
         /\ (inheritsTruthy sessionID = true ->
             selectedSessionModel final = Inherited sessionID))
      /\ error final = None)
  /\ (forall e, (forall c req, settles (PromptAsync c req) = inl e) ->
        sessionModelById final = sessionModelById s
        /\ sessionModelOverrideById final = sessionModelOverrideById s
        /\ error final = Some (errorMessage e)).
Proof.
  intros ([c Hc] & (sessionID & Hsel & Hid) & Hcontent) final. subst final.
  unfold sendPrompt. rewrite Hc, Hsel.
  apply truthy_spec in Hid, Hcontent. rewrite Hid, Hcontent. cbn [negb].
  cbn [run quietWorld].
  match goal with
  | |- context [settles ?call] => destruct (settles call) as [e | []] eqn:Hcall
  end.
  - cbn. split; [reflexivity|]. split; [reflexivity|]. split; [reflexivity|]. split.
    + intros Hok. rewrite Hok in Hcall. discriminate.
    + intros e' Hfail. rewrite Hfail in Hcall. injection Hcall as ->. auto.
  - cbn [run quietWorld settle].
    split; [reflexivity|]. split; [reflexivity|]. split; [reflexivity|]. split.
    2: { intros e' Hfail. rewrite Hfail in Hcall. discriminate. }
    intros _. split; [|reflexivity].
    intros sid [= <-].
    split; [apply lookup_insert_eq|]. split; [apply lookup_delete_eq|].
    assert (Hfinal : forall base,
              selectedSessionModel
                (setBusyStartedAt None (setBusyLabel None (setBusy false
                   (setSessionModelOverrideById (delete sessionID)
                      (setSessionModelById (insert sessionID base)
                         (setPrompt [] (setLastPromptSent (trim (prompt s))
                            (setError None (setBusyStartedAt (Some now)
                               (setBusyLabel (Some (lit "Running"))
                                  (setBusy true s)))))))))))
              = (if inheritsTruthy sessionID then Inherited sessionID else base)).
    { intros base. unfold selectedSessionModel. cbn. rewrite Hsel, Hid. cbn [negb].
      rewrite lookup_delete_eq, lookup_insert_eq. cbn.
      by destruct (inheritsTruthy sessionID). }
    split; intros Hinherits.
    + rewrite Hfinal, Hinherits. unfold selectedSessionModel. cbn.
      by rewrite Hsel, Hid.
    + by rewrite Hfinal, Hinherits.
Qed.

End WithBuiltins.

Lemma sendPrompt_bookkeeping_witness :
  let final := run (quietWorld (fun _ => inr tt))
                   (sendPrompt (H := Reference.plainUtils)
                               (H0 := Reference.standardPrototype)
                               42 Examples.typing) in
  prompt final = [] /\ lastPromptSent final = lit "hello" /\ busy final = false
  /\ selectedSessionModel (H := Reference.standardPrototype) final
     = Model DEFAULT_MODEL.
Proof.
  destruct (sendPrompt_bookkeeping (H := Reference.plainUtils)
              (H0 := Reference.standardPrototype) 42 Examples.typing
              (fun _ => inr tt))
    as (Hprompt & Hlast & Hbusy & Hok & _).
  - split; [by eexists|]. split; [|discriminate].
    eexists. split; [reflexivity | discriminate].
  - cbv zeta. split; [exact Hprompt|]. split; [exact Hlast|]. split; [exact Hbusy|].
    destruct (Hok ltac:(reflexivity)) as [Hsession _].
    destruct (Hsession (lit "ses_1") eq_refl) as (_ & _ & Hshown & _).
    exact (Hshown eq_refl).
Defined.

(** With a session named ["constructor"] and an override for it, the prompt
    is sent with the override, and the model shown afterwards is the
    inherited property. *)
Example sendPrompt_inherited_name :
  let s := Prompt.setSessionModelOverrideById
             (insert (lit "constructor") MoreExamples.sonnet)
             (MoreExamples.sessionNamed (lit "constructor")) in
  let final := run (quietWorld (fun _ => inr tt))
                   (sendPrompt (H := Reference.plainUtils)
                               (H0 := Reference.standardPrototype) 42 s) in
  selectedSessionModel (H := Reference.standardPrototype) s = Model MoreExamples.sonnet
  /\ selectedSessionModel (H := Reference.standardPrototype) final
     = Inherited (lit "constructor").
Proof. vm_compute. split; reflexivity. Qed.

End ModelPickerFacts.

(** ** Preferences after a reset *)

Module ResetPrefsFacts.

Import Updater Prefs StorageFacts PrefsFacts.


Section WithBuiltins.
Context `{Utils} `{NumberFormat} `{JsonText}.


End WithBuiltins.


End ResetPrefsFacts.

(** ** The reset modal *)

Module ResetModalFacts.

Import Reset ResetModal.

Section WithBuiltins.
Context `{Unicode} `{Utils}.

(** X15. The confirmation button of the reset modal is enabled exactly
    when [confirmReset] would go ahead: with [canReset] the reset suspends
    at its first call, and without it [confirmReset] returns at once and
    leaves the local storage as it is. *)
Theorem canReset_iff_confirmReset_proceeds (isTauriRuntime : bool) (s : State) :
  (canReset s = true ->
   exists suspendedAt c k, confirmReset isTauriRuntime s = Await suspendedAt c k)
  /\ (canReset s = false ->
      exists final, confirmReset isTauriRuntime s = Done final
                    /\ localStorage final = localStorage s
                    /\ resetModalBusy final = resetModalBusy s).
Proof.
  unfold canReset, confirmReset, confirmationGiven, clearAndRestart.
  destruct (resetModalBusy s) eqn:Hbusy; cbn [negb andb].
  { split; [discriminate|]. intros _. exists s. auto. }
  destruct (anyActiveRuns s); cbn [negb andb].
  { split; [discriminate|]. intros _. eexists. split; [reflexivity|]. auto. }
  destruct (eqb (toUpperCase (trim (resetModalText s))) (lit "RESET")); cbn [negb].
  - split; [|discriminate]. intros _. destruct isTauriRuntime; eauto.
  - split; [discriminate|]. intros _. exists s. auto.
Qed.

End WithBuiltins.

Lemma canReset_iff_confirmReset_proceeds_witness :
  exists suspendedAt c k,
    confirmReset (H := Reference.asciiUnicode) (H0 := Reference.plainUtils)
                 false Examples.readyToReset
    = Await suspendedAt c k.
Proof.
  apply (proj1 (canReset_iff_confirmReset_proceeds
                  (H := Reference.asciiUnicode) (H0 := Reference.plainUtils)
                  false Examples.readyToReset)).
  reflexivity.
Defined.

End ResetModalFacts.

(** ** Checking for updates *)

Module UpdateCheckFacts.

Import Updater UpdateCheck.

Section WithBuiltins.
Context `{Utils}.

Lemma supported_guard (s : State) :
  supported s ->
  match updateEnv s with
  | Some env => if negb (env_supported env) then Some env else None
  | None => None
  end = None.
Proof.
  unfold supported. intros Hs. destruct (updateEnv s) as [env|]; [|reflexivity].
  by rewrite (Hs env eq_refl).
Qed.

(** X16. In the desktop runtime, where updates are supported, a check
    suspends with the status "checking".  A quiet check that fails puts
    back the status that held before the check, whatever the status was
    meanwhile, and keeps the pending update; a check that fails otherwise
    shows the error and drops the pending update; a check that finds
    nothing leaves the status idle at the time of the check.  Where updates
    are not supported no check is made, and a quiet check changes nothing;
    outside the desktop runtime nothing happens at all. *)
Theorem checkForUpdates_outcomes (quiet : bool) (startedAt checkedAt : Z) (s : State) :
  (supported s ->
   exists k,
     checkForUpdates true quiet startedAt checkedAt s
     = Await (setStatus (Checking startedAt) s) (Check 8000) k
     /\ forall resumedAt,
          (forall final, k resumedAt (inr None) = Done final ->
             updateStatus (base final) = Idle (Some checkedAt)
             /\ pendingUpdate (base final) = None)
          /\ (forall update final, k resumedAt (inr (Some update)) = Done final ->
                updateStatus (base final)
                = Available checkedAt (found_version update) (found_date update)
                            (notesOf update)
                /\ pendingUpdate (base final)
                   = Some {| pending_update := found_handle update;
                             pending_version := found_version update;
                             pending_notes := notesOf update |})
          /\ (forall e final, k resumedAt (inl e) = Done final ->
                if quiet
                then updateStatus (base final) = updateStatus (base s)
                     /\ pendingUpdate (base final) = pendingUpdate (base resumedAt)
                else updateStatus (base final) = Failed None (errorMessage e)
                     /\ pendingUpdate (base final) = None)
          /\ forall r, exists final, k resumedAt r = Done final)
  /\ (forall env, updateEnv s = Some env -> env_supported env = false ->
        exists final,
          checkForUpdates true quiet startedAt checkedAt s = Done final
          /\ pendingUpdate (base final) = pendingUpdate (base s)
          /\ (quiet = true -> final = s))
  /\ checkForUpdates false quiet startedAt checkedAt s = Done s.
Proof.
  split; [|split; [|reflexivity]].
  - intros Hs. unfold checkForUpdates. cbn [negb]. rewrite (supported_guard s Hs).
    eexists. split; [reflexivity|]. intros resumedAt.
    split; [|split; [|split]].
    + intros final [= <-]. split; reflexivity.
    + intros update final [= <-]. split; reflexivity.
    + intros e final. destruct quiet; intros [= <-]; split; reflexivity.
    + intros [e | [update|]]; [destruct quiet|..]; eauto.
  - intros env Henv Hunsupported. unfold checkForUpdates. cbn [negb].
    rewrite Henv, Hunsupported. cbn [negb].
    destruct quiet; cbn [negb]; eexists; (split; [reflexivity|]); split;
      try reflexivity; try discriminate.
Qed.

(** X17. A download that follows a check carries over what the check
    found: it starts with the version and the notes of the update found,
    counts from zero, and is stamped, at the start and at the end, with the
    time of the check rather than the time of the download.  After a check
    that found nothing there is nothing to download. *)
Theorem download_after_check (quiet : bool) (startedAt checkedAt now : Z) (s : State)
    (settles : forall c : Call, thrown + Resp c) :
  supported s ->
  let checked := run (quietWorld settles)
                     (checkForUpdates true quiet startedAt checkedAt s) in
  (forall update,
     settles (Check 8000) = inr (Some update) ->
     exists suspendedAt k,
       downloadUpdate now (base checked)
       = Await suspendedAt (Download (found_handle update) onDownloadEvent) k
       /\ updateStatus suspendedAt
          = Downloading checkedAt (found_version update) None 0 (notesOf update)
       /\ forall (w : world Updater.State Updater.Call Updater.Resp) resumedAt,
            updateStatus (run w (k resumedAt (inr tt)))
            = Ready checkedAt (found_version update) (notesOf update))
  /\ (settles (Check 8000) = inr None ->
      downloadUpdate now (base checked) = Done (base checked)).
Proof.
  intros Hs checked. subst checked. unfold checkForUpdates. cbn [negb].
  rewrite (supported_guard s Hs). cbn [run quietWorld]. split.
  - intros update ->. cbn. eexists _, _. split; [reflexivity|].
    split; [reflexivity|]. intros w resumedAt. reflexivity.
  - intros ->. reflexivity.
Qed.

(** X18. An update is never installed while a session is running or
    retrying: then no call is made, the error message is "Stop active runs
    before installing an update." and nothing else changes.  Otherwise the
    error message is cleared and the calls are install, close, relaunch in
    this order, each made only when the one before succeeded: the first
    call that fails ends the installation and its message becomes the status
    of the updater.  Without a pending update nothing happens. *)
Theorem installUpdateAndRestart_guarded (s : State)
    (settles : forall call : Call, thrown + Resp call) :
  let calls := trace (quietWorld settles) (installUpdateAndRestart s) in
  let final := run (quietWorld settles) (installUpdateAndRestart s) in
  (pendingUpdate (base s) = None -> installUpdateAndRestart s = Done s)
  /\ (forall pending, pendingUpdate (base s) = Some pending ->
        let update := pending_update pending in
        (* a run is active *)
        (Runs.anyActive (sessions s) (sessionStatusById s) = true ->
         exists refused,
           installUpdateAndRestart s = Done refused
           /\ error (base refused)
              = Some (lit "Stop active runs before installing an update.")
           /\ pendingUpdate (base refused) = pendingUpdate (base s)
           /\ updateStatus (base refused) = updateStatus (base s)
           /\ updateEnv refused = updateEnv s)
        (* no run is active: the calls, by the outcome of each *)
        /\ (Runs.anyActive (sessions s) (sessionStatusById s) = false ->
            error (base final) = None
            /\ pendingUpdate (base final) = pendingUpdate (base s)
            /\ match settles (Install update) with
               | inl e =>
                   calls = [Install update]
                   /\ updateStatus (base final) = Failed None (errorMessage e)
               | inr _ =>
                   match settles (Close update) with
                   | inl e =>
                       calls = [Install update; Close update]
                       /\ updateStatus (base final) = Failed None (errorMessage e)
                   | inr _ =>
                       calls = [Install update; Close update; Relaunch]
                       /\ updateStatus (base final)
                          = match settles Relaunch with
                            | inl e => Failed None (errorMessage e)
                            | inr _ => updateStatus (base s)
                            end
                   end
               end)
        (* whatever else happens meanwhile *)
        /\ forall w : world State Call Resp,
             trace w (installUpdateAndRestart s)
               `prefix_of` [ Install update; Close update; Relaunch ]).
Proof.
  cbv zeta. unfold installUpdateAndRestart. split.
  - by intros ->.
  - intros pending Hpending. rewrite Hpending. split; [|split].
    + intros ->. eexists. split; [reflexivity|]. repeat split; exact Hpending.
    + intros ->. cbn [trace run quietWorld].
      destruct (settles (Install (pending_update pending))) as [e | []];
        cbn [trace run quietWorld installFailed];
        [repeat split; exact Hpending|].
      destruct (settles (Close (pending_update pending))) as [e | []];
        cbn [trace run quietWorld installFailed];
        [repeat split; exact Hpending|].
      destruct (settles Relaunch) as [e | []];
        cbn [trace run quietWorld installFailed]; repeat split; exact Hpending.
    + intros w. destruct (Runs.anyActive (sessions s) (sessionStatusById s)).
      { apply prefix_nil. }
      cbn [trace]. destruct (w _ _) as [s2 [e | []]]; cbn [trace installFailed].
      { by exists [Close (pending_update pending); Relaunch]. }
      destruct (w _ _) as [s3 [e | []]]; cbn [trace installFailed].
      { by exists [Relaunch]. }
      destruct (w _ _) as [s4 [e | []]]; cbn [trace installFailed].
      all: by exists [].
Qed.

End WithBuiltins.

Lemma checkForUpdates_outcomes_witness :
  exists k,
    checkForUpdates (H := Reference.plainUtils) true true 600 700 MoreExamples.idleUpdater
    = Await (setStatus (Checking 600) MoreExamples.idleUpdater) (Check 8000) k.
Proof.
  destruct (proj1 (checkForUpdates_outcomes (H := Reference.plainUtils) true 600 700
                     MoreExamples.idleUpdater)) as (k & Hk & _).
  - intros env [= <-]. reflexivity.
  - exists k. exact Hk.
Defined.

Lemma download_after_check_witness :
  exists suspendedAt k,
    downloadUpdate (H := Reference.plainUtils) 900
      (base (run (quietWorld MoreExamples.updateAvailable)
                 (checkForUpdates (H := Reference.plainUtils) true false 600 700
                                  MoreExamples.idleUpdater)))
    = Await suspendedAt (Download {| handle_id := 7 |} onDownloadEvent) k
    /\ updateStatus suspendedAt
       = Downloading 700 (lit "1.3.0") None 0 (Some (lit "Fixes.")).
Proof.
  destruct (proj1 (download_after_check (H := Reference.plainUtils) false 600 700 900
                     MoreExamples.idleUpdater MoreExamples.updateAvailable
                     ltac:(intros env [= <-]; reflexivity))
                  MoreExamples.updateFound eq_refl)
    as (suspendedAt & k & Hrun & Hstatus & _).
  exists suspendedAt, k. split; [exact Hrun | exact Hstatus].
Defined.

Lemma installUpdateAndRestart_guarded_witness :
  trace (quietWorld MoreExamples.updateAvailable)
        (installUpdateAndRestart (H := Reference.plainUtils)
           (run (quietWorld MoreExamples.updateAvailable)
                (checkForUpdates (H := Reference.plainUtils) true false 600 700
                                 MoreExamples.idleUpdater)))
  = [ Install {| handle_id := 7 |}; Close {| handle_id := 7 |}; Relaunch ].
Proof.
  destruct (proj2 (installUpdateAndRestart_guarded
                     (H := Reference.plainUtils)
                     (run (quietWorld MoreExamples.updateAvailable)
                          (checkForUpdates (H := Reference.plainUtils)
                             true false 600 700 MoreExamples.idleUpdater))
                     MoreExamples.updateAvailable)
                  {| pending_update := {| handle_id := 7 |};
                     pending_version := lit "1.3.0";
                     pending_notes := Some (lit "Fixes.") |}
                  eq_refl) as (_ & Hcalls & _).
  destruct (Hcalls eq_refl) as (_ & _ & Htrace & _). exact Htrace.
Defined.

End UpdateCheckFacts.

(** ** Reloading the engine *)

Module ReloadFacts.

Import Runs Reload.

Section WithBuiltins.
Context `{Utils}.

(** However the two refreshes settle, the reload ends cleared and idle. *)
Lemma run_refreshAndClear (w : world State Call Resp) (s : State) :
  let final := run w (refreshAndClear s) in
  reloadBusy final = false /\ reloadRequired final = false
  /\ reloadReasons final = [] /\ reloadError final = None.
Proof.
  cbn [refreshAndClear run]. destruct (w _ _) as [s' r].
  cbn [run]. destruct (w _ _) as [s'' r']. cbn. auto.
Qed.

(** X19. The reload button and the reload agree: whenever
    [canReloadEngine] holds, [reloadEngineInstance] disposes of the engine.
    With a client, outside host mode or during a run, it makes no call and
    only sets the reload error.  Once started it never leaves the reload
    busy; if the engine is disposed of and comes back healthy, the reload is
    no longer required, whether or not the providers can be listed; and if
    disposing fails, the reload stays required and the failure is shown. *)
Theorem reloadEngineInstance_guarded (s : State) :
  (canReloadEngine s = true ->
   exists c k,
     client s = Some c
     /\ reloadEngineInstance s
        = Await (setReloadError None (setReloadBusy true s)) (Dispose c) k)
  /\ (forall c, client s = Some c ->
        isHost (mode s) = false \/ anyActive (sessions s) (sessionStatusById s) = true ->
        exists message, reloadEngineInstance s = Done (setReloadError (Some message) s))
  /\ (forall c, client s = Some c -> isHost (mode s) = true ->
        anyActive (sessions s) (sessionStatusById s) = false ->
        (forall w : world State Call Resp,
           reloadBusy (run w (reloadEngineInstance s)) = false)
        /\ (forall settles : (forall call : Call, thrown + Resp call),
              settles (Dispose c) = inr tt ->
              settles (WaitForHealthy c 12000) = inr tt ->
              let final := run (quietWorld settles) (reloadEngineInstance s) in
              reloadRequired final = false /\ reloadReasons final = []
              /\ reloadError final = None)
        /\ (forall (settles : forall call : Call, thrown + Resp call) e,
              settles (Dispose c) = inl e ->
              let final := run (quietWorld settles) (reloadEngineInstance s) in
              reloadRequired final = reloadRequired s
              /\ reloadReasons final = reloadReasons s
              /\ reloadError final = Some (errorMessage e))).
Proof.
  split; [|split].
  - unfold canReloadEngine, reloadEngineInstance.
    destruct (negb (reloadRequired s)); [discriminate|].
    destruct (client s) as [c|]; [|discriminate]. cbn [negb bool_decide].
    rewrite bool_decide_eq_true_2 by eauto. cbn [negb].
    destruct (reloadBusy s); [discriminate|].
    destruct (anyActive (sessions s) (sessionStatusById s)); [discriminate|].
    destruct (negb (isHost (mode s))); [discriminate|].
    intros _. eauto.
  - intros c Hc Hguard. unfold reloadEngineInstance. rewrite Hc.
    destruct (isHost (mode s)); cbn [negb]; [|eauto].
    destruct Hguard as [? | ->]; [discriminate | eauto].
  - intros c Hc Hhost Hidle. unfold reloadEngineInstance.
    rewrite Hc, Hhost, Hidle. cbn [negb]. split; [|split].
    + intros w. cbn [run]. destruct (w _ _) as [s2 [e | []]]; [reflexivity|].
      cbn [run]. destruct (w _ _) as [s3 [e | []]]; [reflexivity|].
      cbn [run]. destruct (w _ _) as [s4 [e | l]].
      * cbn [run]. destruct (w _ _) as [s5 [e' | cfg]]; apply run_refreshAndClear.
      * apply run_refreshAndClear.
    + intros settles Hdispose Hwait. cbn [run quietWorld].
      rewrite Hdispose. cbn [run quietWorld]. rewrite Hwait. cbn [run quietWorld].
      destruct (settles (ListProviders c)) as [e | l].
      * cbn [run quietWorld]. destruct (settles (ConfigProviders c)) as [e' | cfg];
          apply run_refreshAndClear.
      * apply run_refreshAndClear.
    + intros settles e Hdispose. cbn [run quietWorld]. rewrite Hdispose.
      cbn. auto.
Qed.

End WithBuiltins.

Lemma reloadEngineInstance_guarded_witness :
  let final := run (quietWorld MoreExamples.providersUnavailable)
                   (reloadEngineInstance (H := Reference.plainUtils)
                                         MoreExamples.reloadPending) in
  reloadRequired final = false /\ reloadReasons final = [] /\ reloadError final = None.
Proof.
  apply (proj1 (proj2 (proj2 (proj2 (reloadEngineInstance_guarded
                                       (H := Reference.plainUtils)
                                       MoreExamples.reloadPending))
                             Examples.engine eq_refl eq_refl eq_refl))
               MoreExamples.providersUnavailable eq_refl eq_refl).
Defined.

End ReloadFacts.

(** ** Opening an artifact *)

Module OpenArtifactFacts.

Import SessionView OpenArtifact.

(** A path that is resolved is never the empty string. *)
Lemma resolveArtifactPath_nonempty (workspace : WorkspaceDisplay)
    (artifact : ArtifactItem) (resolved : jsstring) :
  resolveArtifactPath workspace artifact = Some resolved -> resolved <> [].
Proof.
  unfold resolveArtifactPath.
  destruct (artifact_path artifact) as [path|]; cbn [fmap option_fmap option_map];
    [|discriminate].
  destruct (truthy (trim path)) eqn:Hraw; cbn [negb]; [|discriminate].
  apply truthy_spec in Hraw.
  destruct (absoluteRegexTest (trim path)); [by intros [= <-]|].
  destruct (workspace_path workspace) as [wpath|]; cbn [fmap option_fmap option_map];
    [|by intros [= <-]].
  destruct (negb (truthy (trim wpath))); [by intros [= <-]|].
  intros [= <-]. intros Hnil. apply app_eq_nil in Hnil as [_ Hnil].
  apply app_eq_nil in Hnil as [Hsep _].
  by destruct (includesChar 92 (trim wpath)).
Qed.

(** X20. An artifact without a path, or any artifact outside the desktop
    runtime, is never handed to the opener, and the toast says so.
    Otherwise the opener is imported and given exactly the resolved path, to
    open on Windows and to reveal elsewhere, never both; the toast tells the
    outcome: the message of the failure (or "Could not open artifact.") when
    the import or the call fails, and the text of the action only when both
    succeeded. *)
Theorem handleOpenArtifact_calls (isTauriRuntime isWindowsPlatform : bool)
    (workspace : WorkspaceDisplay) (artifact : ArtifactItem) (s : State)
    (w : world State Call Resp) :
  let calls := trace w (handleOpenArtifact isTauriRuntime isWindowsPlatform
                                           workspace artifact s) in
  let final := run w (handleOpenArtifact isTauriRuntime isWindowsPlatform
                                         workspace artifact s) in
  (resolveArtifactPath workspace artifact = None ->
   calls = [] /\ artifactToast final = Some (lit "Artifact path missing."))
  /\ (forall resolved,
        resolveArtifactPath workspace artifact = Some resolved ->
        let action := if isWindowsPlatform then OpenPath resolved
                      else RevealItemInDir resolved in
        (isTauriRuntime = false ->
         calls = []
         /\ artifactToast final
            = Some (lit "Open is only available in the desktop app."))
        /\ (isTauriRuntime = true ->
            forall imported r, w ImportOpener s = (imported, r) ->
              match r with
              | inl e =>
                  calls = [ImportOpener]
                  /\ artifactToast final
                     = Some (errorMessageOr (lit "Could not open artifact.") e)
              | inr _ =>
                  calls = [ImportOpener; action]
                  /\ forall opened r', w action imported = (opened, r') ->
                       artifactToast final
                       = Some (match r' with
                               | inl e => errorMessageOr (lit "Could not open artifact.") e
                               | inr _ => artifactActionToast isWindowsPlatform
                               end)
              end)).
Proof.
  cbv zeta. unfold handleOpenArtifact.
  destruct (resolveArtifactPath workspace artifact) as [resolved|] eqn:Hresolved.
  2: { split; [done | intros ? [=]]. }
  pose proof (resolveArtifactPath_nonempty _ _ _ Hresolved) as Hne.
  apply truthy_spec in Hne. rewrite Hne. cbn [negb].
  split; [discriminate|]. intros ? [= <-].
  destruct isTauriRuntime; cbn [negb].
  2: { split; [done | discriminate]. }
  split; [discriminate|]. intros _ imported r Himport.
  cbn [trace run]. rewrite Himport. destruct r as [e | []].
  { split; reflexivity. }
  cbn [trace run].
  destruct (w (if isWindowsPlatform then OpenPath resolved else RevealItemInDir resolved)
              imported) as [opened r'] eqn:Haction.
  split.
  - by destruct r' as [e | []].
  - intros opened' r'' [= <- <-]. by destruct r' as [e | []].
Qed.

Lemma handleOpenArtifact_calls_witness :
  trace (fun c s => (s, inr tt))
        (handleOpenArtifact true false MoreExamples.workspaceW MoreExamples.report
                            {| artifactToast := None |})
  = [ImportOpener; RevealItemInDir (lit "/w/out/report.md")]
  /\ artifactToast
       (run (fun c s => (s, inr tt))
            (handleOpenArtifact true false MoreExamples.workspaceW MoreExamples.report
                                {| artifactToast := None |}))
     = Some (lit "Revealed in file manager.").
Proof.
  destruct (proj2 (proj2 (handleOpenArtifact_calls true false
                            MoreExamples.workspaceW MoreExamples.report
                            {| artifactToast := None |}
                            (fun c s => (s, inr tt)))
                         (lit "/w/out/report.md") eq_refl) eq_refl
                  {| artifactToast := None |} (inr tt) eq_refl) as [Hcalls Htoast].
  split; [exact Hcalls|]. exact (Htoast {| artifactToast := None |} (inr tt) eq_refl).
Defined.

End OpenArtifactFacts.

(** ** Installing a package *)

Module OpenPackageFacts.

Import Runs OpenPackage.

Section WithBuiltins.
Context `{NumberFormat} `{Coercion}.

(** X21. Installing a package asks for a reload of the engine exactly
    when the installer reports success; when the installer reports failure
    or cannot be run, the reload signals are left as they were and, when it
    cannot be run, the error is the message of the failure.  The installer
    is only run in host mode in the desktop runtime, with a project folder
    and a package source, and then with both trimmed; otherwise the error
    says which of the three is missing and nothing else changes.  Once
    started, the installation never leaves the application busy.  A curated
    package that is not installable is never installed. *)
Theorem installFromOpenPackage_reload (isTauriRuntime : bool) (now : Z)
    (sourceOverride : option jsstring) (s : State) :
  (ready isTauriRuntime sourceOverride s ->
   let targetDir := trim (Extensions.projectDir (reload s)) in
   let pkg := trim (default (openPackageSource s) sourceOverride) in
   exists suspendedAt k,
     installFromOpenPackage isTauriRuntime now sourceOverride s
     = Await suspendedAt (OpkgInstall targetDir pkg) k
     /\ busy suspendedAt = true /\ reload suspendedAt = reload s
     /\ error suspendedAt = None
     /\ skillsStatus suspendedAt = Some (lit "Installing OpenPackage...")
     /\ openPackageSource suspendedAt = pkg
     /\ (forall (w : world State Call Resp) resumedAt r,
           busy (run w (k resumedAt r)) = false)
     /\ forall settles : (forall call : Call, thrown + Resp call),
          let final := run (quietWorld settles)
                           (installFromOpenPackage isTauriRuntime now sourceOverride s) in
          (forall result, settles (OpkgInstall targetDir pkg) = inr result ->
             if exec_ok result
             then reload final
                  = Extensions.markReloadRequired now Extensions.ReloadSkills (reload s)
             else reload final = reload s)
          /\ (forall e, settles (OpkgInstall targetDir pkg) = inl e ->
                reload final = reload s
                /\ error final = Some (match e with
                                       | ThrownError m => m
                                       | ThrownOther _ => stringOfThrown e
                                       end)))
  /\ (~ ready isTauriRuntime sourceOverride s ->
      exists final,
        installFromOpenPackage isTauriRuntime now sourceOverride s = Done final
        /\ error final
           = Some (if negb (isHost (mode s)) || negb isTauriRuntime
                   then lit "OpenPackage installs are only available in Host mode."
                   else if negb (truthy (trim (Extensions.projectDir (reload s))))
                   then lit "Pick a project folder first."
                   else lit "Enter an OpenPackage source (e.g. github:anthropics/claude-code).")
        /\ mode final = mode s
        /\ openPackageSource final = openPackageSource s
        /\ skillsStatus final = skillsStatus s
        /\ busy final = busy s
        /\ reload final = reload s)
  /\ (forall pkg, pkg_installable pkg = false ->
        exists final,
          useCuratedPackage isTauriRuntime now pkg s = Done final
          /\ openPackageSource final = pkg_source pkg
          /\ reload final = reload s /\ busy final = busy s
          /\ error final = error s).
Proof.
  split; [|split].
  - intros (Hhost & -> & Hdir & Hpkg). cbv zeta. unfold installFromOpenPackage.
    rewrite Hhost. cbn [negb orb].
    apply truthy_spec in Hdir, Hpkg. rewrite Hdir, Hpkg. cbn [negb].
    eexists _, _. split; [reflexivity|]. split; [reflexivity|]. split; [reflexivity|].
    split; [reflexivity|]. split; [reflexivity|]. split; [reflexivity|].
    split.
    + intros w resumedAt [e | result]; [reflexivity|].
      cbn [run]. destruct (w _ _) as [s4 [e | []]]; reflexivity.
    + intros settles. cbn [run quietWorld]. split.
      * intros result ->. cbn [run quietWorld].
        destruct (settles RefreshSkills) as [e | []]; destruct (exec_ok result);
          reflexivity.
      * intros e ->. split; reflexivity.
  - intros Hnot. unfold installFromOpenPackage.
    destruct (isHost (mode s)) eqn:Hhost; cbn [negb orb];
      [|eexists; split; [reflexivity | by repeat split]].
    destruct isTauriRuntime; cbn [negb];
      [|eexists; split; [reflexivity | by repeat split]].
    destruct (truthy (trim (Extensions.projectDir (reload s)))) eqn:Hdir;
      cbn [negb]; [|eexists; split; [reflexivity | by repeat split]].
    destruct (truthy (trim (default (openPackageSource s) sourceOverride))) eqn:Hpkg;
      cbn [negb]; [|eexists; split; [reflexivity | by repeat split]].
    destruct Hnot. apply truthy_spec in Hdir, Hpkg. by repeat split.
  - intros pkg Hpkg. unfold useCuratedPackage. rewrite Hpkg.
    eexists. split; [reflexivity|]. by repeat split.
Qed.

End WithBuiltins.

Lemma installFromOpenPackage_reload_witness :
  Extensions.reloadReasons
    (reload (run (quietWorld MoreExamples.installSucceeds)
                 (installFromOpenPackage (H := Reference.decimal)
                                         (H0 := MoreExamples.plainCoercion)
                                         true 11 None MoreExamples.installing)))
  = [Extensions.ReloadSkills].
Proof.
  destruct (proj1 (installFromOpenPackage_reload (H := Reference.decimal)
                     (H0 := MoreExamples.plainCoercion) true 11 None
                     MoreExamples.installing))
    as (suspendedAt & k & _ & _ & _ & _ & _ & _ & _ & Hreload).
  - split; [reflexivity|]. split; [reflexivity|]. split; discriminate.
  - pose proof (proj1 (Hreload MoreExamples.installSucceeds) _ eq_refl) as Hok.
    cbn [exec_ok] in Hok. rewrite Hok. reflexivity.
Defined.

End OpenPackageFacts.

(** ** Workspace templates that cannot be loaded *)

Module TemplatesFailureFacts.

Import Templates.

Section WithBuiltins.
Context `{Unicode} `{Utils}.



End WithBuiltins.


End TemplatesFailureFacts.

(** ** Counting the bytes of a download *)

Module DownloadCountFacts.

Import Updater UpdaterSpec DownloadCount UpdaterFacts.

Lemma onDownloadEvent_other (record : json) (s : State) :
  eventIs "Started" record = false -> eventIs "Progress" record = false ->
  onDownloadEvent record s = s.
Proof.
  intros Hstarted Hprogress. unfold onDownloadEvent.
  destruct (negb (truthyValue record) || negb (typeofObject record)); [reflexivity|].
  destruct s as [pending status err]. unfold setUpdateStatus. cbn.
  destruct status; cbn; rewrite ?Hstarted, ?Hprogress; reflexivity.
Qed.

(** X23. While an update is downloading, the events of the download
    change nothing but the two byte counts: the status stays "downloading"
    with the same version, notes and check time, the pending update and the
    error stay, and the bytes downloaded are those before plus the chunk
    lengths of the "Progress" events.  An event that is neither "Started"
    nor "Progress" changes nothing. *)
Theorem deliver_counts (events : list json) (s : State)
    checked version total downloaded notes :
  updateStatus s = Downloading checked version total downloaded notes ->
  (exists total',
     updateStatus (deliver events s)
     = Downloading checked version total' (downloaded + announced events) notes)
  /\ pendingUpdate (deliver events s) = pendingUpdate s
  /\ error (deliver events s) = error s
  /\ forall event s',
       eventIs "Started" event = false -> eventIs "Progress" event = false ->
       onDownloadEvent event s' = s'.
Proof.
  intros Hstatus. split; [|split; [|split]].
  - revert s total downloaded Hstatus. unfold deliver, announced.
    induction events as [|ev events IH]; intros s total downloaded Hstatus.
    + exists total. cbn. by rewrite Z.add_0_r.
    + cbn [foldl List.filter].
      destruct (eventIs "Progress" ev) eqn:Hprogress.
      * pose proof (onDownloadEvent_progress ev s _ _ _ _ _ Hstatus Hprogress) as Hnext.
        destruct (IH _ total _ Hnext) as [total' Hfinal]. exists total'.
        rewrite Hfinal. cbn [List.map foldr]. f_equal. lia.
      * destruct (eventIs "Started" ev) eqn:Hstarted.
        -- pose proof (onDownloadEvent_started ev s _ _ _ _ _ Hstatus Hstarted) as Hnext.
           apply (IH _ (contentLengthOf ev) _ Hnext).
        -- rewrite onDownloadEvent_other by done. apply (IH s total downloaded Hstatus).
  - clear Hstatus. unfold deliver. revert s.
    induction events as [|ev events IH]; intros s; [reflexivity|].
    cbn [foldl]. rewrite IH. unfold onDownloadEvent.
    by destruct (negb (truthyValue ev) || negb (typeofObject ev)).
  - clear Hstatus. unfold deliver. revert s.
    induction events as [|ev events IH]; intros s; [reflexivity|].
    cbn [foldl]. rewrite IH. unfold onDownloadEvent.
    by destruct (negb (truthyValue ev) || negb (typeofObject ev)).
  - intros event s'. apply onDownloadEvent_other.
Qed.

Lemma deliver_counts_witness :
  exists total',
    updateStatus
      (deliver [ downloadEvent "Progress" [ (lit "chunkLength", JNum 120) ];
                 JNull;
                 downloadEvent "Progress" [ (lit "chunkLength", JNum 30) ] ]
               Examples.halfway)
    = Downloading 1000 (lit "1.2.0") total' 160 None.
Proof.
  apply (proj1 (deliver_counts
                  [ downloadEvent "Progress" [ (lit "chunkLength", JNum 120) ];
                    JNull;
                    downloadEvent "Progress" [ (lit "chunkLength", JNum 30) ] ]
                  Examples.halfway 1000 (lit "1.2.0") (Some 100) 10 None eq_refl)).
Defined.

End DownloadCountFacts.

(** ** What adding a plugin leaves behind *)

Module AddPluginFacts.

Import Extensions ExtensionsWorld ReloadReasonFacts.

Section WithBuiltins.
Context `{Unicode} `{JsonPrinter} `{Plugins} `{Jsonc}.

Lemma marked_after_write (now : Z) (pluginNameOverride : option jsstring) (s : State) :
  let isManualInput := negb (bool_decide (is_Some pluginNameOverride)) in
  let marked_state := markReloadRequired now ReloadPlugins s in
  marked now pluginNameOverride s
         (if isManualInput then setPluginInput [] marked_state else marked_state).
Proof.
  cbv zeta. unfold marked.
  assert (Hin : ReloadPlugins ∈ reloadReasons (markReloadRequired now ReloadPlugins s)).
  { cbn. destruct (existsb (reasonEqb ReloadPlugins) (reloadReasons s)) eqn:Hex.
    - by apply includes_reason.
    - set_solver. }
  destruct pluginNameOverride as [name|].
  - rewrite bool_decide_eq_true_2 by eauto. cbn [negb]. repeat split; auto.
  - rewrite bool_decide_eq_false_2 by (intros [? [=]]). cbn [negb]. repeat split; auto.
Qed.

(** What a run of [writeAndRefresh] leaves, by the outcome of the write. *)
Lemma run_writeAndRefresh (settles : forall c : Call, thrown + Resp c) (now : Z)
    (pluginNameOverride : option jsstring) (scope : PluginScope)
    (targetDir content : jsstring) (s0 s : State) :
  untouched s0 s ->
  let p := writeAndRefresh now (negb (bool_decide (is_Some pluginNameOverride)))
                           scope targetDir content s in
  List.filter isWrite (trace (quietWorld settles) p)
  = [WriteOpencodeConfig scope targetDir content]
  /\ match settles (WriteOpencodeConfig scope targetDir content) with
     | inr _ => marked now pluginNameOverride s0 (run (quietWorld settles) p)
     | inl _ => untouched s0 (run (quietWorld settles) p)
     end.
Proof.
  intros Hsame. cbv zeta. unfold writeAndRefresh. cbn [trace run quietWorld].
  destruct (settles (WriteOpencodeConfig scope targetDir content)) as [e | []].
  - cbn. split; [reflexivity | exact Hsame].
  - cbn [trace run quietWorld].
    assert (Hmarked : marked now pluginNameOverride s0
              (if negb (bool_decide (is_Some pluginNameOverride))
               then setPluginInput [] (markReloadRequired now ReloadPlugins s)
               else markReloadRequired now ReloadPlugins s)).
    { pose proof (marked_after_write now pluginNameOverride s) as Hm. cbv zeta in Hm.
      destruct Hsame as (_ & _ & _ & Hinput). unfold marked in *.
      destruct Hm as (? & ? & ? & Hm). repeat split; auto.
      rewrite Hm. by destruct pluginNameOverride. }
    destruct (settles (RefreshPlugins scope)) as [e | []]; cbn; split; try reflexivity.
    + unfold marked in *. exact Hmarked.
    + exact Hmarked.
Qed.

Lemma untouched_status (s0 s : State) (status : option jsstring) :
  untouched s0 s -> untouched s0 (setPluginStatus status s).
Proof. intros Hsame. exact Hsame. Qed.

Lemma untouched_refl (s : State) : untouched s s.
Proof. by repeat split. Qed.

(** The writes of a run, and what the run leaves by their outcome. *)
Lemma addPlugin_writes (settles : forall c : Call, thrown + Resp c)
    (isTauriRuntime : bool) (now : Z) (pluginNameOverride : option jsstring) (s : State) :
  let p := addPlugin isTauriRuntime now pluginNameOverride s in
  (List.filter isWrite (trace (quietWorld settles) p) = []
   /\ untouched s (run (quietWorld settles) p))
  \/ exists scope targetDir content,
       List.filter isWrite (trace (quietWorld settles) p)
       = [WriteOpencodeConfig scope targetDir content]
       /\ match settles (WriteOpencodeConfig scope targetDir content) with
          | inr _ => marked now pluginNameOverride s (run (quietWorld settles) p)
          | inl _ => untouched s (run (quietWorld settles) p)
          end.
Proof.
  cbv zeta. unfold addPlugin.
  destruct isTauriRuntime; cbn [negb];
    [|left; split; [reflexivity | exact (untouched_refl s)]].
  destruct (truthy (trim (default (pluginInput s) pluginNameOverride))); cbn [negb].
  2: { left. split; [reflexivity|].
       destruct (negb (bool_decide (is_Some pluginNameOverride)));
         exact (untouched_refl s). }
  destruct (isProject (pluginScope s) && negb (truthy (trim (projectDir s)))).
  { left. split; [reflexivity | exact (untouched_refl s)]. }
  cbn [trace run quietWorld].
  destruct (settles (ReadOpencodeConfig (pluginScope s) (trim (projectDir s))))
    as [e | config].
  { left. split; [reflexivity | exact (untouched_refl s)]. }
  assert (Hstart : untouched s (setPluginStatus None s))
    by exact (untouched_status s s None (untouched_refl s)).
  destruct (negb (truthy (trim (default [] (config_content config))))).
  { right. eexists _, _, _.
    apply (run_writeAndRefresh settles now pluginNameOverride _ _ _ s _ Hstart). }
  destruct (parsePluginListFromContent (default [] (config_content config)))
    as [e | plugins].
  { left. split; [reflexivity | exact (untouched_refl s)]. }
  destruct (alreadyListed plugins (trim (default (pluginInput s) pluginNameOverride))).
  { left. split; [reflexivity | exact (untouched_refl s)]. }
  destruct (modify _ _ _ _) as [e | edits].
  { left. split; [reflexivity | exact (untouched_refl s)]. }
  destruct (applyEdits _ _) as [e | updated].
  { left. split; [reflexivity | exact (untouched_refl s)]. }
  right. eexists _, _, _.
  apply (run_writeAndRefresh settles now pluginNameOverride _ _ _ s _ Hstart).
Qed.

Lemma write_in_calls (calls : list Call) (scope : PluginScope)
    (targetDir content : jsstring) :
  WriteOpencodeConfig scope targetDir content ∈ calls
  <-> WriteOpencodeConfig scope targetDir content ∈ List.filter isWrite calls.
Proof.
  rewrite !list_elem_of_In, filter_In. cbn [isWrite]. tauto.
Qed.

(** X24. Adding a plugin asks for a reload of the engine exactly when it
    wrote the configuration: if a write was made and succeeded, a reload is
    required because of the plugins and the input field is cleared when
    the name came from it; in every other case (a guard, a failed read, a
    plugin that is listed already, a failed write) the reload signals and
    the input field are as before.  At most one write is made. *)
Theorem addPlugin_marks_reload_iff_written
    (settles : forall c : Call, thrown + Resp c)
    (isTauriRuntime : bool) (now : Z) (pluginNameOverride : option jsstring) (s : State) :
  let p := addPlugin isTauriRuntime now pluginNameOverride s in
  let calls := trace (quietWorld settles) p in
  let final := run (quietWorld settles) p in
  (written settles calls -> marked now pluginNameOverride s final)
  /\ (~ written settles calls -> untouched s final)
  /\ (length (List.filter isWrite calls) <= 1)%nat.
Proof.
  cbv zeta.
  destruct (addPlugin_writes settles isTauriRuntime now pluginNameOverride s)
    as [[Hnone Hsame] | (scope & targetDir & content & Hone & Hfinal)]; cbv zeta in *.
  - split; [|split; [done | rewrite Hnone; simpl; lia]].
    intros (sc & dir & text & Hin & _).
    apply write_in_calls in Hin. rewrite Hnone in Hin.
    by apply elem_of_nil in Hin.
  - split; [|split; [|rewrite Hone; simpl; lia]].
    + intros (sc & dir & text & Hin & Hok).
      apply write_in_calls in Hin. rewrite Hone in Hin.
      apply list_elem_of_singleton in Hin. injection Hin as -> -> ->.
      by rewrite Hok in Hfinal.
    + intros Hnot.
      destruct (settles (WriteOpencodeConfig scope targetDir content)) as [e | []] eqn:Hw;
        [done|].
      destruct Hnot. exists scope, targetDir, content. split; [|done].
      apply write_in_calls. rewrite Hone. apply list_elem_of_here.
Qed.

End WithBuiltins.

Lemma addPlugin_marks_reload_iff_written_witness :
  let final :=
    run (quietWorld MoreExamples.configSettles)
        (addPlugin (H := Reference.asciiUnicode) (H0 := Reference.plainPrinter)
                   (H1 := Reference.plainPlugins) (H2 := Reference.plainJsonc)
                   true 7 None Examples.managingPlugins) in
  reloadRequired final = true /\ pluginInput final = [].
Proof.
  destruct (proj1 (addPlugin_marks_reload_iff_written
                     (H := Reference.asciiUnicode) (H0 := Reference.plainPrinter)
                     (H1 := Reference.plainPlugins) (H2 := Reference.plainJsonc)
                     MoreExamples.configSettles true 7 None Examples.managingPlugins))
    as (Hrequired & _ & _ & Hinput).
  - exists ProjectScope, (lit "/w"), (lit "{plugin: [alpha@1beta@2]}").
    split; [|reflexivity]. vm_compute. apply list_elem_of_further, list_elem_of_here.
  - cbv zeta. split; [exact Hrequired | exact Hinput].
Defined.

End AddPluginFacts.
